(** * Permission filtering of qwc-ogc-service

    Shallow embedding of the parts of qwc-ogc-service that decide the
    permission set, the expansion of facade group layers, the padding of
    opacities, the request checks of the WMS/WFS handlers, the WFS
    Transaction filter, the OGC API Features write checks, the backend
    error path and the WFS name cleaning.

    Python strings are modelled as lists of Unicode code points
    ([list N]); Python dicts as stdpp [gmap]s where their order does not
    matter and as association lists where it does. *)

From Stdlib Require Import String Ascii ZArith Lia.
From stdpp Require Import base list gmap sets.

Open Scope string_scope.
Open Scope list_scope.
Set Warnings "-register-all".
Set Warnings "-notation-overridden".
Set Warnings "-deprecated-since-9.2".

Abbreviation pystr := (list N).

(** A string literal of the source, as a list of code points. *)
Definition py (s : string) : pystr :=
  map (fun a => N_of_ascii a) (list_ascii_of_string s).

(** ** Python [str] helpers *)

(** [s.replace(a, b)] for one-character [a] and [b]. *)
Definition replace_char (a b : N) (s : pystr) : pystr :=
  map (fun c => if N.eqb c a then b else c) s.

(** [s.split(sep)] for a one-character separator: always at least one
    piece, [''.split(',') = ['']]. *)
Fixpoint split_on (sep : N) (s : pystr) : list pystr :=
  match s with
  | [] => [[]]
  | c :: rest =>
      if N.eqb c sep then [] :: split_on sep rest
      else match split_on sep rest with
           | [] => [[c]]
           | w :: ws => (c :: w) :: ws
           end
  end.

(** [sep.join(l)]. *)
Fixpoint join_with (sep : N) (l : list pystr) : pystr :=
  match l with
  | [] => []
  | [w] => w
  | w :: ws => w ++ sep :: join_with sep ws
  end.

(** [s.removeprefix(p)]. *)
Definition removeprefix (p s : pystr) : pystr :=
  if decide (take (length p) s = p) then drop (length p) s else s.

Definition chr_space : N := 32.
Definition chr_underscore : N := 95.
Definition chr_colon : N := 58.
Definition chr_dash : N := 45.
Definition chr_dot : N := 46.
Definition chr_comma : N := 44.

(** ** WFS name cleaning ([wfs_handler.py], [wfs_filters.py])

    [UNICODE_PAT = re.compile(r'[^\w.\-_]', flags=re.UNICODE)]: the
    membership of a code point in [\w] comes from Python's Unicode
    database and is a parameter [is_word] of the definitions. *)
Section Cleaning.
Context (is_word : N -> bool).

(** [wfs_clean_layer_name]:
    [layer_name.replace(" ", "_").replace(":", "-")] *)
Definition wfs_clean_layer_name (layer_name : pystr) : pystr :=
  replace_char chr_colon chr_dash (replace_char chr_space chr_underscore layer_name).

(** A character that [UNICODE_PAT] does not match: [\w], [.], [-], [_]. *)
Definition kept_char (c : N) : bool :=
  is_word c || N.eqb c chr_dot || N.eqb c chr_dash || N.eqb c chr_underscore.

(** [wfs_clean_attribute_name]:
    [UNICODE_PAT.sub('', attribute_name.replace(' ', '_'))] *)
Definition wfs_clean_attribute_name (attribute_name : pystr) : pystr :=
  filter (fun c => kept_char c = true)
    (replace_char chr_space chr_underscore attribute_name).

End Cleaning.

(** An ASCII instance of [\w] ([A-Za-z0-9_]) used to evaluate examples. *)
Definition ascii_word (c : N) : bool :=
  (((48 <=? c) && (c <=? 57)) || ((65 <=? c) && (c <=? 90))
  || ((97 <=? c) && (c <=? 122)) || N.eqb c 95)%N.

(** ** Errors raised by the modelled Python code *)
Inductive py_error :=
| KeyError (key : pystr)
| NameError (name : pystr)
| AttributeError (name : pystr)
| UnboundLocalError (name : pystr)
| JSONDecodeError
| IndexError.

(** ** Resource catalog ([OGCService.load_resources], [collect_layers]) *)

(** A layer entry of a WMS [root_layer] tree in the service config. *)
Inductive cfg_layer :=
| CfgLayer (name : pystr) (attributes : list pystr) (queryable : bool)
    (title : option pystr) (opacity : option Z) (hide_sublayers : bool)
    (sublayers : list cfg_layer).

Definition cfg_name (l : cfg_layer) : pystr :=
  match l with CfgLayer n _ _ _ _ _ _ => n end.

(** The per-service lookups built by [collect_layers]. *)
Record wms_resources := {
  res_public_layers : list pystr;
  res_layers : gmap pystr (list pystr);
  res_queryable_layers : list pystr;
  res_feature_info_aliases : gmap pystr pystr;
  res_group_layers : gmap pystr (list pystr);
  res_hidden_sublayer_opacities : gmap pystr Z;
  res_internal_print_layers : list pystr;
  res_print_templates : list pystr
}.

Definition empty_resources (internal_print_layers print_templates : list pystr)
  : wms_resources :=
  {| res_public_layers := []; res_layers := ∅; res_queryable_layers := [];
     res_feature_info_aliases := ∅; res_group_layers := ∅;
     res_hidden_sublayer_opacities := ∅;
     res_internal_print_layers := internal_print_layers;
     res_print_templates := print_templates |}.

Definition add_public (n : pystr) (r : wms_resources) : wms_resources :=
  {| res_public_layers := res_public_layers r ++ [n]; res_layers := res_layers r;
     res_queryable_layers := res_queryable_layers r;
     res_feature_info_aliases := res_feature_info_aliases r;
     res_group_layers := res_group_layers r;
     res_hidden_sublayer_opacities := res_hidden_sublayer_opacities r;
     res_internal_print_layers := res_internal_print_layers r;
     res_print_templates := res_print_templates r |}.

Definition set_layer (n : pystr) (attrs : list pystr) (r : wms_resources) : wms_resources :=
  {| res_public_layers := res_public_layers r; res_layers := <[n := attrs]> (res_layers r);
     res_queryable_layers := res_queryable_layers r;
     res_feature_info_aliases := res_feature_info_aliases r;
     res_group_layers := res_group_layers r;
     res_hidden_sublayer_opacities := res_hidden_sublayer_opacities r;
     res_internal_print_layers := res_internal_print_layers r;
     res_print_templates := res_print_templates r |}.

Definition set_hidden_opacity (n : pystr) (o : Z) (r : wms_resources) : wms_resources :=
  {| res_public_layers := res_public_layers r; res_layers := res_layers r;
     res_queryable_layers := res_queryable_layers r;
     res_feature_info_aliases := res_feature_info_aliases r;
     res_group_layers := res_group_layers r;
     res_hidden_sublayer_opacities := <[n := o]> (res_hidden_sublayer_opacities r);
     res_internal_print_layers := res_internal_print_layers r;
     res_print_templates := res_print_templates r |}.

Definition add_queryable (n : pystr) (r : wms_resources) : wms_resources :=
  {| res_public_layers := res_public_layers r; res_layers := res_layers r;
     res_queryable_layers := res_queryable_layers r ++ [n];
     res_feature_info_aliases := res_feature_info_aliases r;
     res_group_layers := res_group_layers r;
     res_hidden_sublayer_opacities := res_hidden_sublayer_opacities r;
     res_internal_print_layers := res_internal_print_layers r;
     res_print_templates := res_print_templates r |}.

Definition set_alias (t n : pystr) (r : wms_resources) : wms_resources :=
  {| res_public_layers := res_public_layers r; res_layers := res_layers r;
     res_queryable_layers := res_queryable_layers r;
     res_feature_info_aliases := <[t := n]> (res_feature_info_aliases r);
     res_group_layers := res_group_layers r;
     res_hidden_sublayer_opacities := res_hidden_sublayer_opacities r;
     res_internal_print_layers := res_internal_print_layers r;
     res_print_templates := res_print_templates r |}.

Definition set_group (n : pystr) (subs : list pystr) (r : wms_resources) : wms_resources :=
  {| res_public_layers := res_public_layers r; res_layers := res_layers r;
     res_queryable_layers := res_queryable_layers r;
     res_feature_info_aliases := res_feature_info_aliases r;
     res_group_layers := <[n := subs]> (res_group_layers r);
     res_hidden_sublayer_opacities := res_hidden_sublayer_opacities r;
     res_internal_print_layers := res_internal_print_layers r;
     res_print_templates := res_print_templates r |}.

(** Python truthiness of [layer.get('opacity')]. *)
Definition truthy_opacity (o : option Z) : option Z :=
  match o with Some z => if Z.eqb z 0 then None else Some z | None => None end.

(** [collect_layers(layer, resources, hidden)]: the [resources] dict is
    threaded through the recursion. *)
Fixpoint collect_layers (layer : cfg_layer) (res : wms_resources) (hidden : bool)
  {struct layer} : wms_resources :=
  match layer with
  | CfgLayer name attrs q title op hide subs =>
      let res := if hidden then res else add_public name res in
      match subs with
      | [] =>
          let res := set_layer name attrs res in
          let res := match hidden, truthy_opacity op with
                     | true, Some o => set_hidden_opacity name o res
                     | _, _ => res
                     end in
          if q then
            set_alias (default name title) name (add_queryable name res)
          else res
      | _ :: _ =>
          let hidden := hidden || hide in
          let fix go (ls : list cfg_layer) (res : wms_resources) (queryable : bool)
              : wms_resources * bool :=
            match ls with
            | [] => (res, queryable)
            | s :: rest =>
                let res := collect_layers s res hidden in
                go rest res (queryable || bool_decide (cfg_name s ∈ res_queryable_layers res))
            end in
          let '(res, queryable) := go subs res false in
          let res := set_group name (map cfg_name subs) res in
          if queryable then add_queryable name res else res
      end
  end.

(** The resources of one WMS service from its config entry. *)
Definition load_wms_resources (root_layer : cfg_layer)
    (internal_print_layers print_templates : list pystr) : wms_resources :=
  collect_layers root_layer (empty_resources internal_print_layers print_templates) false.

(** ** Permission sets ([OGCService.service_permissions]) *)

(** One layer entry of a role grant from the permissions store. Absent
    capability flags read as [False] ([layer.get('writable', False)]). *)
Record layer_grant := {
  lg_name : pystr;
  lg_attributes : list pystr;
  lg_writable : bool;
  lg_creatable : bool;
  lg_readable : bool;
  lg_updatable : bool;
  lg_deletable : bool
}.

(** One role grant for a service ([resource_permissions(...)] entry). *)
Record role_grant := {
  rg_layers : list layer_grant;
  rg_print_templates : list pystr
}.

(** The returned WMS permission dict (URLs left out). *)
Record wms_permission := {
  ps_public_layers : list pystr;
  ps_layers : gmap pystr (list pystr);
  ps_queryable_layers : list pystr;
  ps_feature_info_aliases : gmap pystr pystr;
  ps_restricted_group_layers : gmap pystr (list pystr);
  ps_hidden_sublayer_opacities : gmap pystr Z;
  ps_internal_print_layers : list pystr;
  ps_print_templates : list pystr
}.

(** [attributes = [attr for attr in layer.get('attributes', [])
                   if attr in catalog_layers[name]]]: the lookup of
    [catalog_layers[name]] happens once per attribute, so it raises
    [KeyError] only when the grant lists attributes. *)
Definition granted_attributes (catalog_layers : gmap pystr (list pystr))
    (name : pystr) (attrs : list pystr) : py_error + list pystr :=
  match attrs with
  | [] => inr []
  | _ :: _ =>
      match catalog_layers !! name with
      | None => inl (KeyError name)
      | Some cat => inr (filter (fun a => a ∈ cat) attrs)
      end
  end.

(** The [for layer in permissions['layers']] loop: collect available and
    permitted layers with their permitted attributes
    ([permitted_layers = {<layer>: set(<attrs>)}]). *)
Fixpoint collect_layer_grants (available : pystr -> bool)
    (catalog_layers : gmap pystr (list pystr)) (ls : list layer_grant)
    (acc : gmap pystr (gset pystr)) : py_error + gmap pystr (gset pystr) :=
  match ls with
  | [] => inr acc
  | l :: rest =>
      if available (lg_name l) then
        match granted_attributes catalog_layers (lg_name l) (lg_attributes l) with
        | inl e => inl e
        | inr attrs =>
            let cur := default ∅ (acc !! lg_name l) in
            collect_layer_grants available catalog_layers rest
              (<[lg_name l := cur ∪ list_to_set attrs]> acc)
        end
      else collect_layer_grants available catalog_layers rest acc
  end.

(** The [for permissions in wms_permissions] loop of the WMS branch. *)
Fixpoint wms_permitted_layers (res : wms_resources) (grants : list role_grant)
    (acc : gmap pystr (gset pystr)) (tmpl : gset pystr)
    : py_error + (gmap pystr (gset pystr) * gset pystr) :=
  match grants with
  | [] => inr (acc, tmpl)
  | g :: rest =>
      let available n := bool_decide (n ∈ dom (res_layers res)
                         \/ n ∈ dom (res_group_layers res)
                         \/ n ∈ res_internal_print_layers res) in
      match collect_layer_grants available (res_layers res) (rg_layers g) acc with
      | inl e => inl e
      | inr acc =>
          let pt := filter (fun t => t ∈ res_print_templates res) (rg_print_templates g) in
          wms_permitted_layers res rest acc (tmpl ∪ list_to_set pt)
      end
  end.

(** The WMS branch of [service_permissions]; [None] is the empty dict
    returned for an unknown service or an empty grant list. *)
Definition wms_service_permissions (service : option wms_resources)
    (grants : list role_grant) : py_error + option wms_permission :=
  match service with
  | None => inr None
  | Some res =>
      match grants with
      | [] => inr None
      | _ :: _ =>
          match wms_permitted_layers res grants ∅ ∅ with
          | inl e => inl e
          | inr (permitted, tmpl) =>
              let perm n := bool_decide (n ∈ dom permitted) in
              inr (Some {|
                ps_public_layers := filter (fun l => perm l = true) (res_public_layers res);
                ps_layers := map_imap (fun l attrs =>
                    (fun s : gset pystr => filter (fun a => a ∈ s) attrs) <$> permitted !! l)
                    (res_layers res);
                ps_queryable_layers := filter (fun l => perm l = true) (res_queryable_layers res);
                ps_feature_info_aliases :=
                  filter (fun kv => perm kv.2 = true) (res_feature_info_aliases res);
                ps_restricted_group_layers := map_imap (fun g subs =>
                    if perm g then Some (filter (fun l => perm l = true) subs) else None)
                    (res_group_layers res);
                ps_hidden_sublayer_opacities :=
                  filter (fun kv => perm kv.1 = true) (res_hidden_sublayer_opacities res);
                ps_internal_print_layers :=
                  filter (fun l => perm l = true) (res_internal_print_layers res);
                ps_print_templates :=
                  filter (fun t => t ∈ tmpl) (res_print_templates res) |})
          end
      end
  end.

(** The returned WFS permission dict (URLs left out). *)
Record wfs_permission := {
  wps_public_layers : list pystr;
  wps_layers : gmap pystr (list pystr)
}.

(** The [for permissions in wfs_permissions] loop of the WFS branch. *)
Fixpoint wfs_permitted_layers (cat : gmap pystr (list pystr)) (grants : list role_grant)
    (acc : gmap pystr (gset pystr)) : py_error + gmap pystr (gset pystr) :=
  match grants with
  | [] => inr acc
  | g :: rest =>
      match collect_layer_grants (fun n => bool_decide (n ∈ dom cat)) cat (rg_layers g) acc with
      | inl e => inl e
      | inr acc => wfs_permitted_layers cat rest acc
      end
  end.

(** The WFS branch of [service_permissions]; the catalog is
    [wfs_resources['layers']]. The order of [public_layers], which follows
    the catalog dict, is that of the map's keys here. *)
Definition wfs_service_permissions (service : option (gmap pystr (list pystr)))
    (grants : list role_grant) : py_error + option wfs_permission :=
  match service with
  | None => inr None
  | Some cat =>
      match grants with
      | [] => inr None
      | _ :: _ =>
          match wfs_permitted_layers cat grants ∅ with
          | inl e => inl e
          | inr permitted =>
              inr (Some {|
                wps_public_layers := filter (fun l => l ∈ dom permitted) (map fst (map_to_list cat));
                wps_layers := map_imap (fun l attrs =>
                    (fun s : gset pystr => filter (fun a => a ∈ s) attrs) <$> permitted !! l) cat |})
          end
      end
  end.

(** ** Permission sets of the OGC API ([OGCAPIService.service_permissions]) *)

(** [{'attributes': set(), 'writable': ..., ...}]; for the [maps] API only
    [attributes] is set and the capability flags read as absent (falsy). *)
Record oapi_layer_permission := {
  op_attributes : gset pystr;
  op_writable : bool;
  op_creatable : bool;
  op_readable : bool;
  op_updatable : bool;
  op_deletable : bool
}.

Inductive oapi_api := ApiMaps | ApiFeatures | ApiOther (name : pystr).

Definition oapi_new_layer : oapi_layer_permission :=
  {| op_attributes := ∅; op_writable := false; op_creatable := false;
     op_readable := false; op_updatable := false; op_deletable := false |}.

(** Merge one layer grant into the accumulated layer permission. *)
Definition oapi_merge (api : oapi_api) (cur : oapi_layer_permission) (l : layer_grant)
  : oapi_layer_permission :=
  match api with
  | ApiFeatures =>
      {| op_writable := op_writable cur || lg_writable l;
         op_creatable := op_creatable cur || lg_creatable l;
         op_readable := op_readable cur || lg_readable l;
         op_updatable := op_updatable cur || lg_updatable l;
         op_deletable := op_deletable cur || lg_deletable l;
         op_attributes := op_attributes cur ∪ list_to_set (lg_attributes l) |}
  | _ =>
      {| op_writable := op_writable cur; op_creatable := op_creatable cur;
         op_readable := op_readable cur; op_updatable := op_updatable cur;
         op_deletable := op_deletable cur;
         op_attributes := op_attributes cur ∪ list_to_set (lg_attributes l) |}
  end.

Fixpoint oapi_collect (api : oapi_api) (ls : list layer_grant)
    (acc : gmap pystr oapi_layer_permission) : gmap pystr oapi_layer_permission :=
  match ls with
  | [] => acc
  | l :: rest =>
      let cur := default oapi_new_layer (acc !! lg_name l) in
      oapi_collect api rest (<[lg_name l := oapi_merge api cur l]> acc)
  end.

(** [service_permissions(identity, service_name, api)]: the grants are
    those of [wms_services] for [maps] and of [wfs_services] for
    [features]; any other API yields the empty dict. *)
Definition oapi_service_permissions (api : oapi_api) (grants : list role_grant)
  : gmap pystr oapi_layer_permission :=
  match api with
  | ApiOther _ => ∅
  | _ => foldl (fun acc g => oapi_collect api (rg_layers g) acc) ∅ grants
  end.

(** [collect_resource_layers(layers)]: leaf layers with their attributes;
    a later [result.update] wins. [collect_resource_layer] is the body of
    the loop for one entry. *)
Fixpoint collect_resource_layer (l : cfg_layer) : gmap pystr (list pystr) :=
  match l with
  | CfgLayer n attrs _ _ _ _ subs =>
      match subs with
      | [] => {[n := attrs]}
      | _ :: _ =>
          let fix go (ls : list cfg_layer) : gmap pystr (list pystr) :=
            match ls with
            | [] => ∅
            | s :: rest => go rest ∪ collect_resource_layer s
            end in
          go subs
      end
  end.

Fixpoint collect_resource_layers (ls : list cfg_layer) : gmap pystr (list pystr) :=
  match ls with
  | [] => ∅
  | l :: rest => collect_resource_layers rest ∪ collect_resource_layer l
  end.

(** ** Request parameters and the WFS version ([OGCService.adjust_params]) *)

(** Request parameters, keys upper-cased on entry. *)
Abbreviation params_t := (gmap pystr pystr).

(** The first statement of [OGCService.adjust_params]
    ([src/src/ogc_service.py]):
    [if ogc_service == 'WFS' and params.get('VERSION') not in ['1.0.0', '1.1.0']:
         params['VERSION'] = '1.1.0'], with
    [ogc_service = params.get('SERVICE', '')]. *)
Definition adjust_params_version (params : params_t) : params_t :=
  if decide (default [] (params !! py "SERVICE") = py "WFS"
             /\ params !! py "VERSION" ∉ [Some (py "1.0.0"); Some (py "1.1.0")])
  then <[py "VERSION" := py "1.1.0"]> params
  else params.

(** ** Backend errors ([OGCService.forward_request]) *)

Record backend_response := {
  br_status : Z;
  br_text : pystr;
  br_content_type : pystr
}.

Record client_response := {
  cr_body : pystr;
  cr_content_type : pystr;
  cr_status : Z
}.

(** [xml.sax.saxutils.escape]: [&], [<] and [>]. *)
Definition xml_escape (s : pystr) : pystr :=
  flat_map (fun c => if N.eqb c 38 then py "&amp;"
                     else if N.eqb c 60 then py "&lt;"
                     else if N.eqb c 62 then py "&gt;" else [c]) s.

Definition nl : pystr := [10%N].

(** [OGCService.service_exception(code, message)]. *)
Definition dq : pystr := [34%N].

Definition service_exception (code message : pystr) : pystr :=
  py "<ServiceExceptionReport version=" ++ dq ++ py "1.3.0" ++ dq ++ py ">" ++ nl
  ++ py " <ServiceException code=" ++ dq ++ code ++ dq ++ py ">" ++ xml_escape message
  ++ py "</ServiceException>" ++ nl ++ py "</ServiceExceptionReport>".

Definition unknown_error_message : pystr :=
  py ("The server encountered an internal error or " ++
      "misconfiguration and was unable to complete your " ++ "request.")%string.

Section ForwardRequest.
(** The filtered or streamed response of a successful backend call; the
    filters are not part of this model. *)
Context (filter_ok : backend_response -> client_response).

(** The part of [forward_request] after the backend call: the client
    response and the lines written to the server log. *)
Definition forward_response (response : backend_response)
  : client_response * list pystr :=
  if negb (Z.eqb (br_status response) 200) then
    ({| cr_body := service_exception (py "UnknownError") unknown_error_message;
        cr_content_type := py "text/xml; charset=utf-8";
        cr_status := br_status response |},
     [py "Internal Server Error:" ++ nl ++ nl ++ br_text response])
  else (filter_ok response, []).

End ForwardRequest.

(** ** GetMap layers, opacities and styles ([OGCService.adjust_params]) *)

(** One entry [{'layer': ..., 'opacity': ..., 'style': ...}]. *)
Record layer_opacity_style := {
  lo_layer : pystr;
  lo_opacity : Z;
  lo_style : pystr
}.

Section PyInt.
(** [str.isspace] and the value of a Unicode decimal digit ([Nd]). *)
Context (is_space : N -> bool) (digit_value : N -> option Z).

Definition py_strip (s : pystr) : pystr :=
  let drop := fix drop (l : pystr) : pystr :=
    match l with c :: r => if is_space c then drop r else l | [] => [] end in
  rev (drop (rev (drop s))).

(** Digits with single underscores between them; [prev_digit] tells whether
    the previous character was a digit. *)
Fixpoint py_digits (acc : Z) (prev_digit : bool) (s : pystr) : option Z :=
  match s with
  | [] => if prev_digit then Some acc else None
  | c :: rest =>
      if N.eqb c chr_underscore then
        if prev_digit then py_digits acc false rest else None
      else match digit_value c with
           | Some d => py_digits (acc * 10 + d) true rest
           | None => None
           end
  end.

(** [int(s)] on a [str], base 10; [None] is the [ValueError]. *)
Definition py_int (s : pystr) : option Z :=
  match py_strip s with
  | c :: rest =>
      if N.eqb c 43 then py_digits 0 false rest
      else if N.eqb c chr_dash then Z.opp <$> py_digits 0 false rest
      else py_digits 0 false (c :: rest)
  | [] => None
  end.

(** [OGCService.padded_opacities_styles(requested_layers, opacities_param,
    styles_param)]; a parameter missing from the request is [None]. *)
Definition padded_opacities_styles (requested_layers : list pystr)
    (opacities_param styles_param : option pystr) : list layer_opacity_style :=
  let requested_opacities :=
    match opacities_param with
    | Some ((_ :: _) as s) => split_on chr_comma s
    | _ => []
    end in
  let requested_styles :=
    match styles_param with
    | Some ((_ :: _) as s) => split_on chr_comma s
    | _ => []
    end in
  imap (fun i layer =>
    let opacity : Z :=
      if bool_decide (i < length requested_opacities)%nat then
        match py_int (nth i requested_opacities []) with
        | Some opacity =>
            if Z.ltb opacity 0 || Z.ltb 255 opacity then 255%Z else opacity
        | None => 0%Z
        end
      else if Nat.eqb i 0 && bool_decide (opacities_param <> None) then 0%Z
      else 255%Z in
    let style :=
      if bool_decide (i < length requested_styles)%nat
      then nth i requested_styles [] else [] in
    {| lo_layer := layer; lo_opacity := opacity; lo_style := style |})
    requested_layers.

End PyInt.

Definition ascii_space (c : N) : bool := ((9 <=? c) && (c <=? 13) || (c =? 32))%N.

Definition ascii_digit (c : N) : option Z :=
  if ((48 <=? c) && (c <=? 57))%N then Some (Z.of_N (c - 48)) else None.

(** Python's default recursion limit: deeper recursion raises
    [RecursionError], which is [None] below. *)
Definition recursion_limit : nat := 1000.

(** [OGCService.expand_group_layers_opacities_styles]. [int(opacity *
    custom_opacity / 100)] is [Z.quot]: the float quotient of integers of
    this size is the exact quotient rounded to nearest, and [int]
    truncates towards zero. *)
Fixpoint expand_group_layers_opacities_styles (fuel : nat)
    (requested_layers_opacities_styles : list layer_opacity_style)
    (restricted_group_layers : gmap pystr (list pystr))
    (hidden_sublayer_opacities : gmap pystr Z)
    : option (list layer_opacity_style) :=
  match fuel with
  | O => None
  | S fuel =>
      let fix go (los : list layer_opacity_style) :=
        match los with
        | [] => Some []
        | lo :: rest =>
            let opacity := lo_opacity lo in
            match restricted_group_layers !! lo_layer lo with
            | Some subs =>
                let sublayers_opacities_styles :=
                  map (fun sublayer =>
                    let sub_opacity :=
                      match hidden_sublayer_opacities !! sublayer with
                      | Some custom_opacity => Z.quot (opacity * custom_opacity) 100
                      | None => opacity
                      end in
                    {| lo_layer := sublayer; lo_opacity := sub_opacity; lo_style := [] |})
                    (rev subs) in
                e ← expand_group_layers_opacities_styles fuel sublayers_opacities_styles
                      restricted_group_layers hidden_sublayer_opacities;
                r ← go rest;
                Some (e ++ r)
            | None => r ← go rest; Some (lo :: r)
            end
        end in
      go requested_layers_opacities_styles
  end.

(** The GETMAP branch of [adjust_params] up to
    [permitted_layers_opacities_styles]: [None] when LAYERS is missing or
    empty (the branch is skipped) or on [RecursionError]. *)
Definition getmap_layers_opacities_styles (is_space : N -> bool)
    (digit_value : N -> option Z) (params : params_t) (permissions : wms_permission)
    : option (list layer_opacity_style) :=
  match params !! py "LAYERS" with
  | Some ((_ :: _) as requested_layers) =>
      let requested_layers_opacities_styles :=
        padded_opacities_styles is_space digit_value (split_on chr_comma requested_layers)
          (params !! py "OPACITIES") (params !! py "STYLES") in
      expand_group_layers_opacities_styles recursion_limit
        requested_layers_opacities_styles (ps_restricted_group_layers permissions)
        (ps_hidden_sublayer_opacities permissions)
  | _ => None
  end.

(** ** The legacy [OGCService] of [src/ogc_service.py] *)

Module Legacy.

(** An entry [{'layer': <layer name>, 'opacity': <opacity>}] of the legacy
    layer lists. *)
Record layer_opacity := {
  lop_layer : pystr;
  lop_opacity : Z
}.

(** The WFS statement of the legacy [OGCService.adjust_params]:
    [if ogc_service == 'WFS': params['VERSION'] = '1.0.0'], with
    [ogc_service = params.get('SERVICE', '')]. No later statement of the
    legacy [adjust_params] assigns VERSION, and [OGCService.request] calls
    [adjust_params] on every request that passes [check_request] before
    forwarding it. *)
Definition adjust_params_version (params : params_t) : params_t :=
  if decide (default [] (params !! py "SERVICE") = py "WFS")
  then <[py "VERSION" := py "1.0.0"]> params
  else params.

Section LegacyPadding.
Context (is_space : N -> bool) (digit_value : N -> option Z).


End LegacyPadding.

(** [OGCService.expand_group_layers_and_opacities(requested_layers_opacities,
    restricted_group_layers, hidden_sublayer_opacities)]; [None] on
    [RecursionError]. [int(opacity * custom_opacity / 100)] is [Z.quot]:
    the float quotient of integers of this size is the exact quotient
    rounded to nearest, and [int] truncates towards zero. *)
Fixpoint expand_group_layers_and_opacities (fuel : nat)
    (requested_layers_opacities : list layer_opacity)
    (restricted_group_layers : gmap pystr (list pystr))
    (hidden_sublayer_opacities : gmap pystr Z) : option (list layer_opacity) :=
  match fuel with
  | O => None
  | S fuel =>
      let fix go (los : list layer_opacity) :=
        match los with
        | [] => Some []
        | lo :: rest =>
            let layer := lop_layer lo in
            let opacity := lop_opacity lo in
            match restricted_group_layers !! layer with
            | Some subs =>
                let sublayers_opacities :=
                  map (fun sublayer =>
                    {| lop_layer := sublayer;
                       lop_opacity := match hidden_sublayer_opacities !! sublayer with
                                      | Some custom_opacity => Z.quot (opacity * custom_opacity) 100
                                      | None => opacity
                                      end |}) (rev subs) in
                e ← expand_group_layers_and_opacities fuel sublayers_opacities
                      restricted_group_layers hidden_sublayer_opacities;
                r ← go rest;
                Some (e ++ r)
            | None => r ← go rest; Some (lo :: r)
            end
        end in
      go requested_layers_opacities
  end.

End Legacy.

(** The claim's [round(n / d)] for [d > 0], read as Python's [round] of the
    exact quotient: the nearest integer, ties to the even one. *)
Definition round_half_even_div (n d : Z) : Z :=
  let q := Z.div n d in
  let r := Z.modulo n d in
  if Z.ltb (2 * r) d then q
  else if Z.ltb d (2 * r) then q + 1
  else if Z.even q then q else q + 1.

(** ** WMS request checks ([WmsHandler.process_request]) *)

(** The fields of the handler's WMS permissions read by the checks. *)
Record wmsh_permissions := {
  wh_public_layers : list pystr;
  wh_internal_print_layers : list pystr;
  wh_print_templates : list pystr
}.

Definition wms_requests : list pystr :=
  map py ["GETCAPABILITIES"; "GETMAP"; "GETFEATUREINFO"; "GETLEGENDGRAPHIC";
          "GETSTYLE"; "GETSTYLES"; "DESCRIBELAYER"; "GETPRINT";
          "GETPROJECTSETTINGS"; "GETSCHEMAEXTENSION"].

Definition layer_mandatory_requests : list pystr :=
  map py ["GETMAP"; "GETFEATUREINFO"; "GETLEGENDGRAPHIC"; "DESCRIBELAYER";
          "GETSTYLE"; "GETSTYLES"].

Definition info_formats : list pystr :=
  map py ["text/plain"; "text/html"; "text/xml"].

Definition startswith (p s : pystr) : bool := bool_decide (take (length p) s = p).

Definition py_truthy (v : option pystr) : bool :=
  match v with Some (_ :: _) => true | _ => false end.

(** An exception of [process_request]: [(code, message)]. *)
Abbreviation ows_exception := (pystr * pystr)%type.

Section WmsHandlerChecks.
(** [WmsHandler.__get_map_param_prefix]: the key prefix of the first
    parameter (in the dict's insertion order) ending with [:EXTENT]. *)
Context (get_map_param_prefix : params_t -> pystr).

(** From the start of [process_request] to the end of the LAYERS check. *)
Definition wms_check_layers (request : pystr) (params : params_t)
    (permissions : wmsh_permissions) : option ows_exception :=
  if negb (bool_decide (request ∈ wms_requests)) then
    Some (py "OperationNotSupported", py "Request " ++ request ++ py " is not supported")
  else
    let layers_param :=
      if bool_decide (request = py "GETPRINT") then
        let mapname := get_map_param_prefix params in
        if bool_decide (mapname <> []) &&
           bool_decide (is_Some (params !! (mapname ++ py ":LAYERS")))
        then mapname ++ py ":LAYERS" else py "LAYERS"
      else if bool_decide (request = py "GETLEGENDGRAPHIC")
              && negb (bool_decide (is_Some (params !! py "LAYERS")))
              && bool_decide (is_Some (params !! py "LAYER"))
      then py "LAYER" else py "LAYERS" in
    let public_layers :=
      if (bool_decide (request = py "GETMAP") && py_truthy (params !! py "FILENAME"))
         || bool_decide (request = py "GETPRINT")
      then wh_public_layers permissions ++ wh_internal_print_layers permissions
      else wh_public_layers permissions in
    match params !! layers_param with
    | Some ((_ :: _) as layers) =>
        let rejected := filter (fun layer =>
            layer <> [] /\ startswith (py "EXTERNAL_WMS:") layer = false
            /\ layer ∉ public_layers) (split_on chr_comma layers) in
        match rejected with
        | layer :: _ =>
            Some (py "LayerNotDefined",
                  py "Layer " ++ dq ++ layer ++ dq ++ py " does not exist or is not permitted")
        | [] => None
        end
    | _ =>
        if bool_decide (request ∈ layer_mandatory_requests) then
          Some (py "MissingParameterValue",
                layers_param ++ py " is mandatory for " ++ request ++ py " operation")
        else None
    end.

(** The checks of [process_request], up to "Adjust params": [Some] is the
    returned exception, [None] goes on to the adjustments. *)
Definition wms_process_request_check (request : pystr) (params : params_t)
    (permissions : wmsh_permissions) : option ows_exception :=
  match wms_check_layers request params permissions with
  | Some e => Some e
  | None =>
      if bool_decide (request = py "GETFEATUREINFO") then
        if bool_decide (params !! py "LAYERS" <> params !! py "QUERY_LAYERS") then
          Some (py "InvalidParameterValue",
                py "LAYERS must be identical to QUERY_LAYERS for GETFEATUREINFO operation")
        else
          let info_format := default (py "text/plain") (params !! py "INFO_FORMAT") in
          if negb (bool_decide (info_format ∈ info_formats)) then
            Some (py "InvalidFormat",
                  py "Feature info format '" ++ info_format
                  ++ py "' is not supported. Possibilities are 'text/plain', 'text/html' or 'text/xml'.")
          else None
      else if bool_decide (request = py "GETPRINT") then
        let template := params !! py "TEMPLATE" in
        let template_permitted :=
          match template with
          | Some t => bool_decide (t ∈ wh_print_templates permissions)
          | None => false
          end in
        if negb template_permitted then
          Some (py "Error", py "Composer template '" ++ default (py "None") template
                            ++ py "' not found or not permitted")
        else None
      else None
  end.

End WmsHandlerChecks.

(** ** WFS Transaction bodies ([WfsHandler.__check_transaction]) *)

(** A parsed XML element ([xml.etree.ElementTree.Element]): tag in
    [{namespace}local] form, attributes, text and children. *)
Inductive xml := XElem (tag : pystr) (attrib : list (pystr * pystr))
  (text : option pystr) (children : list xml).

Definition x_tag (e : xml) : pystr := match e with XElem t _ _ _ => t end.
Definition x_attrib (e : xml) : list (pystr * pystr) :=
  match e with XElem _ a _ _ => a end.
Definition x_text (e : xml) : option pystr := match e with XElem _ _ t _ => t end.
Definition x_children (e : xml) : list xml := match e with XElem _ _ _ cs => cs end.
Definition set_children (e : xml) (cs : list xml) : xml :=
  match e with XElem t a x _ => XElem t a x cs end.

Fixpoint assoc_get (key : pystr) (l : list (pystr * pystr)) : option pystr :=
  match l with
  | [] => None
  | (k, v) :: rest => if bool_decide (k = key) then Some v else assoc_get key rest
  end.

(** [el.get(key)]. *)
Definition xml_get (key : pystr) (e : xml) : option pystr := assoc_get key (x_attrib e).

(** [el.find(path)] for a single qualified tag: the first such child. *)
Definition xml_find (tag : pystr) (e : xml) : option xml :=
  head (filter (fun c => x_tag c = tag) (x_children e)).

Definition ns_wfs : pystr := py "{http://www.opengis.net/wfs}".
Definition ns_qgs : pystr := py "{http://www.qgis.org/gml}".
Definition wfs_Insert : pystr := ns_wfs ++ py "Insert".
Definition wfs_Update : pystr := ns_wfs ++ py "Update".
Definition wfs_Delete : pystr := ns_wfs ++ py "Delete".
Definition wfs_Property : pystr := ns_wfs ++ py "Property".
Definition wfs_Name : pystr := ns_wfs ++ py "Name".

(** An entry of the handler's [permissions['permitted_layers']]. *)
Record wfsh_layer := {
  wl_attributes : list pystr;
  wl_creatable : bool;
  wl_updatable : bool;
  wl_deletable : bool
}.

(** Statement outcomes of [__check_transaction]: a raised exception, an
    early [return (code, message)], or going on with a value. *)
Inductive outcome (A : Type) :=
| Raise (e : py_error)
| Return (r : ows_exception)
| Continue (a : A).
Arguments Raise {A} e.
Arguments Return {A} r.
Arguments Continue {A} a.

#[global] Instance outcome_bind : MBind outcome := fun A B f m =>
  match m with
  | Raise e => Raise e
  | Return r => Return r
  | Continue a => f a
  end.

(** A loop over a list of children that may remove the current child
    ([None]), keep or replace it ([Some]), or leave the function. *)
Fixpoint for_children (f : xml -> outcome (option xml)) (cs : list xml)
    : outcome (list xml) :=
  match cs with
  | [] => Continue []
  | c :: rest =>
      o ← f c;
      rs ← for_children f rest;
      Continue (option_list o ++ rs)
  end.

Definition none_replace : py_error :=
  AttributeError (py "'NoneType' object has no attribute 'replace'").
Definition none_text : py_error :=
  AttributeError (py "'NoneType' object has no attribute 'text'").

Definition forbidden (what typename : pystr) : ows_exception :=
  (py "Forbidden",
   py "No " ++ what ++ py " permissions on typename '" ++ typename ++ py "'").

Section TransactionCheck.
Context (is_word : N -> bool).
Context (permitted_layers : gmap pystr wfsh_layer).

Definition tx_typename (typenameEl : xml) : pystr :=
  wfs_clean_layer_name (removeprefix ns_qgs (x_tag typenameEl)).

(** One child of an [Insert]. *)
Definition check_insert_feature (typenameEl : xml) : outcome (option xml) :=
  let typename := tx_typename typenameEl in
  match permitted_layers !! typename with
  | None => Continue None
  | Some permission =>
      if negb (wl_creatable permission) then Return (forbidden (py "create") typename)
      else
        attribs ← for_children (fun attribEl =>
          let attribname :=
            wfs_clean_attribute_name is_word (removeprefix ns_qgs (x_tag attribEl)) in
          if bool_decide (attribname <> py "geometry"
                          /\ attribname ∉ wl_attributes permission)
          then Continue None else Continue (Some attribEl)) (x_children typenameEl);
        Continue (Some (set_children typenameEl attribs))
  end.

Definition check_insert (el : xml) : outcome (option xml) :=
  if bool_decide (x_tag el = wfs_Insert) then
    cs ← for_children check_insert_feature (x_children el);
    Continue (Some (set_children el cs))
  else Continue (Some el).

Definition check_update_property (permission : wfsh_layer) (propertyEl : xml)
    : outcome (option xml) :=
  if bool_decide (x_tag propertyEl = wfs_Property) then
    match xml_find wfs_Name propertyEl with
    | None => Raise none_text
    | Some nameEl =>
        match x_text nameEl with
        | None => Raise none_replace
        | Some name =>
            let attribname := wfs_clean_attribute_name is_word name in
            if bool_decide (attribname <> py "geometry"
                            /\ attribname ∉ wl_attributes permission)
            then Continue None else Continue (Some propertyEl)
        end
    end
  else Continue (Some propertyEl).

Definition check_update (el : xml) : outcome (option xml) :=
  if bool_decide (x_tag el = wfs_Update) then
    match xml_get (py "typeName") el with
    | None => Raise none_replace
    | Some tn =>
        let typename := wfs_clean_layer_name tn in
        match permitted_layers !! typename with
        | None => Continue None
        | Some permission =>
            if negb (wl_updatable permission) then Return (forbidden (py "update") typename)
            else
              cs ← for_children (check_update_property permission) (x_children el);
              Continue (Some (set_children el cs))
        end
    end
  else Continue (Some el).

Definition check_delete (el : xml) : outcome (option xml) :=
  if bool_decide (x_tag el = wfs_Delete) then
    match xml_get (py "typeName") el with
    | None => Raise none_replace
    | Some tn =>
        let typename := wfs_clean_layer_name tn in
        match permitted_layers !! typename with
        | None => Continue None
        | Some permission =>
            if negb (wl_deletable permission) then Return (forbidden (py "delete") typename)
            else Continue (Some el)
        end
    end
  else Continue (Some el).

(** [__check_transaction(data, permissions)] on the parsed body [root]:
    the returned error (if any) and the new [data['body']], which is left
    as it was when an error is returned. *)
Definition check_transaction (root : xml) : py_error + (option ows_exception * xml) :=
  match (cs ← for_children check_insert (x_children root);
         cs ← for_children check_update cs;
         cs ← for_children check_delete cs;
         Continue cs) with
  | Raise e => inl e
  | Return r => inr (Some r, root)
  | Continue cs => inr (None, set_children root cs)
  end.

End TransactionCheck.

(** ** Properties of transaction checks, as predicates *)

Definition continued {A} (o : outcome (option A)) : option A :=
  match o with Continue v => v | _ => None end.

(** Goes on, or returns a Forbidden error; raises nothing. *)
Definition ok_or_forbidden {A} (o : outcome A) : Prop :=
  match o with
  | Raise _ => False
  | Return r => r.1 = py "Forbidden"
  | Continue _ => True
  end.

Definition is_return {A} (o : outcome A) : Prop :=
  match o with Return _ => True | _ => False end.

Definition has_tag (tag : pystr) (el : xml) : Prop := x_tag el = tag.

#[global] Instance has_tag_dec tag el : Decision (has_tag tag el).
Proof. unfold has_tag. apply _. Defined.

(** The typename of an [Update] or [Delete] element. *)
Definition op_typename (el : xml) : pystr :=
  default [] (wfs_clean_layer_name <$> xml_get (py "typeName") el).

(** The typenames of the features inserted by the [Insert] children of the
    transaction, and of its [Update] and [Delete] children. *)
Definition insert_typenames (cs : list xml) : list pystr :=
  map tx_typename (flat_map x_children (filter (has_tag wfs_Insert) cs)).
Definition update_typenames (cs : list xml) : list pystr :=
  map op_typename (filter (has_tag wfs_Update) cs).
Definition delete_typenames (cs : list xml) : list pystr :=
  map op_typename (filter (has_tag wfs_Delete) cs).

(** The elements the checks read without raising: every [Update] has a
    [typeName] and each of its [Property] children a [Name] child with
    text; every [Delete] has a [typeName]. *)
Definition updates_well_formed (cs : list xml) : Prop :=
  forall el, el ∈ cs -> x_tag el = wfs_Update ->
    is_Some (xml_get (py "typeName") el)
    /\ forall pe, pe ∈ x_children el -> x_tag pe = wfs_Property ->
         exists ne, xml_find wfs_Name pe = Some ne /\ is_Some (x_text ne).
Definition deletes_well_formed (cs : list xml) : Prop :=
  forall el, el ∈ cs -> x_tag el = wfs_Delete -> is_Some (xml_get (py "typeName") el).

Section TransactionPredicates.
Context (permitted_layers : gmap pystr wfsh_layer).

Definition insert_forbidden (cs : list xml) : Prop :=
  exists f p, f ∈ flat_map x_children (filter (has_tag wfs_Insert) cs)
    /\ permitted_layers !! tx_typename f = Some p /\ wl_creatable p = false.
Definition update_forbidden (cs : list xml) : Prop :=
  exists el p, el ∈ cs /\ x_tag el = wfs_Update /\ is_Some (xml_get (py "typeName") el)
    /\ permitted_layers !! op_typename el = Some p /\ wl_updatable p = false.
Definition delete_forbidden (cs : list xml) : Prop :=
  exists el p, el ∈ cs /\ x_tag el = wfs_Delete /\ is_Some (xml_get (py "typeName") el)
    /\ permitted_layers !! op_typename el = Some p /\ wl_deletable p = false.

Definition permitted (typename : pystr) : Prop := is_Some (permitted_layers !! typename).

End TransactionPredicates.

(** ** OGC API Features write checks ([OGCAPIService.__getFeatures_request],
    [OGCAPIService.__getFeature_request]) *)

(** A JSON value, as [request.get_json()] returns it; an object keeps its
    keys in insertion order. *)
Inductive json :=
| JNull
| JBool (b : bool)
| JNum (z : Z)
| JStr (s : pystr)
| JArr (l : list json)
| JObj (kvs : list (pystr * json)).

(** A Python dict with string keys, in insertion order, keys distinct. *)
Abbreviation dict A := (list (pystr * A)).

(** [d.get(k)]. *)
Fixpoint dict_get {A} (k : pystr) (d : dict A) : option A :=
  match d with
  | [] => None
  | (k', v) :: rest => if decide (k' = k) then Some v else dict_get k rest
  end.

(** [d[k] = v] for a key already in [d]: the value is replaced in place. *)
Definition dict_set {A} (k : pystr) (v : A) (d : dict A) : dict A :=
  map (fun kv => if decide (kv.1 = k) then (k, v) else kv) d.

(** An error of the OGC API: [[{"code": ..., "description": ...}]]. *)
Abbreviation api_error := (pystr * pystr)%type.

(** The result of a request filter: [(params, data, error, status)]. *)
Abbreviation filter_result := (params_t * dict json * option api_error * option Z)%type.

Definition chr_slash : N := 47.
Definition sq : pystr := [39%N].

Definition not_found_error (layer_name : pystr) : api_error :=
  (py "API not found error",
   py "Collection with given id (" ++ layer_name
     ++ py ") was not found, not permitted, or multiple matches were found").

Section OapiWriteChecks.
Context (is_word : N -> bool).

(** [dict(filter(lambda kv: wfs_clean_attribute_name(kv[0]) in
    layer_permissions['attributes'], d.items()))]. *)
Definition filter_attributes (attributes : gset pystr) (kvs : dict json) : dict json :=
  filter (fun kv => bool_decide (wfs_clean_attribute_name is_word kv.1 ∈ attributes)) kvs.

(** [if key in data: data[key] = dict(filter(...))]; [.items()] on a
    value that is not a dict raises [AttributeError]. *)
Definition filter_payload (key : pystr) (attributes : gset pystr) (data : dict json)
  : py_error + dict json :=
  match dict_get key data with
  | None => inr data
  | Some (JObj kvs) => inr (dict_set key (JObj (filter_attributes attributes kvs)) data)
  | Some _ => inl (AttributeError (py "items"))
  end.

(** [__getFeatures_request(params, data, context, permissions)]; the
    context fields read are [api_path] and [method]. The payload of a
    write request is a JSON object. *)
Definition getFeatures_request (params : params_t) (data : dict json)
    (api_path method : pystr) (permissions : gmap pystr oapi_layer_permission)
  : py_error + filter_result :=
  match split_on chr_slash api_path !! 2 with
  | None => inl IndexError
  | Some seg =>
      let layer_name := wfs_clean_layer_name seg in
      match permissions !! layer_name with
      | None => inr (params, data, Some (not_found_error layer_name), Some 404%Z)
      | Some lp =>
          if bool_decide (method = py "GET") && negb (op_readable lp) then
            inr (params, data, Some (not_found_error layer_name), Some 404%Z)
          else if bool_decide (method = py "POST") then
            if negb (op_writable lp) || negb (op_creatable lp) then
              inr (params, data,
                   Some (py "Forbidden",
                         py "Features cannot be added to layer " ++ sq ++ layer_name ++ sq),
                   Some 403%Z)
            else
              match filter_payload (py "properties") (op_attributes lp) data with
              | inl e => inl e
              | inr data' => inr (params, data', None, None)
              end
          else inr (params, data, None, None)
      end
  end.

(** [__getFeature_request(params, data, context, permissions)]: here the
    whole [api_path] is cleaned before it is split. *)
Definition getFeature_request (params : params_t) (data : dict json)
    (api_path method : pystr) (permissions : gmap pystr oapi_layer_permission)
  : py_error + filter_result :=
  match split_on chr_slash (wfs_clean_layer_name api_path) !! 2 with
  | None => inl IndexError
  | Some layer_name =>
      match permissions !! layer_name with
      | None => inr (params, data, Some (not_found_error layer_name), Some 404%Z)
      | Some lp =>
          if bool_decide (method = py "GET") && negb (op_readable lp) then
            inr (params, data, Some (not_found_error layer_name), Some 404%Z)
          else if bool_decide (method = py "PATCH") then
            if negb (op_writable lp) || negb (op_updatable lp) then
              inr (params, data,
                   Some (py "Forbidden",
                         py "Features in layer " ++ sq ++ layer_name ++ sq ++ py " cannot be changed"),
                   Some 403%Z)
            else
              match filter_payload (py "modify") (op_attributes lp) data with
              | inl e => inl e
              | inr data' => inr (params, data', None, None)
              end
          else if bool_decide (method = py "PUT") then
            if negb (op_writable lp) || negb (op_updatable lp) then
              inr (params, data,
                   Some (py "Forbidden",
                         py "Features in layer " ++ sq ++ layer_name ++ sq ++ py " cannot be changed"),
                   Some 403%Z)
            else
              match filter_payload (py "properties") (op_attributes lp) data with
              | inl e => inl e
              | inr data' => inr (params, data', None, None)
              end
          else if bool_decide (method = py "DELETE") then
            if negb (op_writable lp) || negb (op_deletable lp) then
              inr (params, data,
                   Some (py "Forbidden",
                         py "Features in layer " ++ sq ++ layer_name ++ sq ++ py " cannot be deleted"),
                   Some 403%Z)
            else inr (params, data, None, None)
          else inr (params, data, None, None)
      end
  end.

End OapiWriteChecks.

(** ** WFS GetFeature filtering ([wfs_filters.wfs_getfeature],
    [wfs_filters.wfs_getfeature_geojson]) *)

Section WfsGetFeature.
(** [json.loads(s, object_pairs_hook=OrderedDict)]: [None] when it raises
    [JSONDecodeError]. *)
Context (json_loads : pystr -> option json).
(** [str.lower]. *)
Context (py_lower : pystr -> pystr).
(** [wfs_getfeature_gml(response, permissions, host_url, script_root)],
    for fixed [permissions], [host_url] and [script_root]. *)
Context (wfs_getfeature_gml : backend_response -> py_error + pystr).

(** [wfs_getfeature_geojson(response, permissions)]. The second
    [json.loads] reads the name [text], which is neither a local of the
    function, a global of [wfs_filters] nor a builtin: evaluating it raises
    [NameError]. Nothing after it runs. *)
Definition wfs_getfeature_geojson (response : backend_response) : py_error + pystr :=
  match json_loads (br_text response) with
  | None => inl JSONDecodeError
  | Some (JObj kvs) =>
      let features := default (JArr []) (dict_get (py "features") kvs) in
      inl (NameError (py "text"))
  | Some _ => inl (AttributeError (py "get"))
  end.

(** [wfs_getfeature(response, params, permissions, host_url, script_root)];
    [content_type] is bound only on status 200, so any other status raises
    [UnboundLocalError] when the [Response] is built. *)
Definition wfs_getfeature (response : backend_response) (params : params_t)
  : py_error + client_response :=
  let features := br_text response in
  if Z.eqb (br_status response) 200 then
    let output_format := py_lower (default (py "gml3") (params !! py "OUTPUTFORMAT")) in
    let content_type := br_content_type response in
    let features' :=
      if decide (output_format = py "geojson") then wfs_getfeature_geojson response
      else wfs_getfeature_gml response in
    match features' with
    | inl e => inl e
    | inr features' =>
        inr {| cr_body := features'; cr_content_type := content_type;
               cr_status := br_status response |}
    end
  else inl (UnboundLocalError (py "content_type")).

End WfsGetFeature.

(** An ASCII [str.lower]. *)
Definition ascii_lower (s : pystr) : pystr :=
  map (fun c => if ((65 <=? c) && (c <=? 90))%N then (c + 32)%N else c) s.

(** *** A JSON parser for a subset of JSON, to evaluate examples

    Values are objects, arrays, [true], [false], [null], strings without
    escapes and integers without fraction or exponent; on input outside
    this subset the parser fails. *)

Definition json_ws (c : N) : bool := (c =? 32)%N || (c =? 9)%N || (c =? 10)%N || (c =? 13)%N.

Fixpoint skip_ws (s : pystr) : pystr :=
  match s with
  | c :: r => if json_ws c then skip_ws r else s
  | [] => []
  end.

Fixpoint parse_string_body (s acc : pystr) : option (pystr * pystr) :=
  match s with
  | [] => None
  | c :: r =>
      if (c =? 34)%N then Some (rev acc, r)
      else if (c =? 92)%N || (c <? 32)%N then None
      else parse_string_body r (c :: acc)
  end.

Definition is_digit (c : N) : bool := ((48 <=? c) && (c <=? 57))%N.

Fixpoint parse_digits (s : pystr) (acc : Z) : Z * pystr :=
  match s with
  | c :: r => if is_digit c then parse_digits r (acc * 10 + Z.of_N (c - 48))%Z else (acc, s)
  | [] => (acc, s)
  end.

(** A non-negative integer: no leading zero, no fraction, no exponent. *)
Definition parse_natural (s : pystr) : option (Z * pystr) :=
  match s with
  | c :: r =>
      if negb (is_digit c) then None else
      let '(n, rest) := if (c =? 48)%N then (0%Z, r) else parse_digits s 0%Z in
      match rest with
      | d :: _ => if is_digit d || (d =? 46)%N || (d =? 101)%N || (d =? 69)%N then None
                  else Some (n, rest)
      | [] => Some (n, rest)
      end
  | [] => None
  end.

Definition parse_integer (s : pystr) : option (Z * pystr) :=
  match s with
  | 45%N :: r => (fun '(n, rest) => (Z.opp n, rest)) <$> parse_natural r
  | _ => parse_natural s
  end.

(** [OrderedDict(pairs)]: a repeated key keeps its first position and its
    last value. *)
Definition dict_from_pairs {A} (pairs : list (pystr * A)) : dict A :=
  foldl (fun d '(k, v) => match dict_get k d with
                          | Some _ => dict_set k v d
                          | None => d ++ [(k, v)]
                          end) [] pairs.

(** The elements of an array after its opening bracket, given the value parser. *)
Definition parse_elements (pv : pystr -> option (json * pystr))
  : nat -> pystr -> list json -> option (list json * pystr) :=
  fix go n s acc :=
    match n with
    | O => None
    | S n' =>
        match pv s with
        | None => None
        | Some (v, r) =>
            match skip_ws r with
            | 44%N :: r' => go n' r' (v :: acc)
            | 93%N :: r' => Some (rev (v :: acc), r')
            | _ => None
            end
        end
    end.

(** The members of an object after its opening brace, given the value parser. *)
Definition parse_members (pv : pystr -> option (json * pystr))
  : nat -> pystr -> list (pystr * json) -> option (list (pystr * json) * pystr) :=
  fix go n s acc :=
    match n with
    | O => None
    | S n' =>
        match skip_ws s with
        | 34%N :: r =>
            match parse_string_body r [] with
            | None => None
            | Some (k, r1) =>
                match skip_ws r1 with
                | 58%N :: r2 =>
                    match pv r2 with
                    | None => None
                    | Some (v, r3) =>
                        match skip_ws r3 with
                        | 44%N :: r4 => go n' r4 ((k, v) :: acc)
                        | 125%N :: r4 => Some (rev ((k, v) :: acc), r4)
                        | _ => None
                        end
                    end
                | _ => None
                end
            end
        | _ => None
        end
    end.

Fixpoint parse_value (fuel : nat) (s : pystr) : option (json * pystr) :=
  match fuel with
  | O => None
  | S f =>
      match skip_ws s with
      | 123%N :: r =>
          match skip_ws r with
          | 125%N :: r' => Some (JObj [], r')
          | _ => (fun '(kvs, r') => (JObj (dict_from_pairs kvs), r'))
                   <$> parse_members (parse_value f) (length r) r []
          end
      | 91%N :: r =>
          match skip_ws r with
          | 93%N :: r' => Some (JArr [], r')
          | _ => (fun '(vs, r') => (JArr vs, r')) <$> parse_elements (parse_value f) (length r) r []
          end
      | 34%N :: r => (fun '(str, r') => (JStr str, r')) <$> parse_string_body r []
      | 116%N :: 114%N :: 117%N :: 101%N :: r => Some (JBool true, r)
      | 102%N :: 97%N :: 108%N :: 115%N :: 101%N :: r => Some (JBool false, r)
      | 110%N :: 117%N :: 108%N :: 108%N :: r => Some (JNull, r)
      | s' => (fun '(n, r') => (JNum n, r')) <$> parse_integer s'
      end
  end.

Definition subset_json_loads (s : pystr) : option json :=
  match parse_value (S (length s)) s with
  | Some (v, r) => match skip_ws r with [] => Some v | _ :: _ => None end
  | None => None
  end.

(** ** Properties of permission sets, as predicates *)

(** Every layer of the WMS permission dict is in the catalog, with
    catalog attributes, sublayers and print templates only. *)
Definition wms_within_catalog (res : wms_resources) (ps : wms_permission) : Prop :=
  (forall l attrs, ps_layers ps !! l = Some attrs ->
     exists c, res_layers res !! l = Some c /\ forall a, a ∈ attrs -> a ∈ c)
  /\ (forall l, l ∈ ps_public_layers ps -> l ∈ res_public_layers res)
  /\ (forall g subs, ps_restricted_group_layers ps !! g = Some subs ->
        exists c, res_group_layers res !! g = Some c /\ forall x, x ∈ subs -> x ∈ c)
  /\ (forall l, l ∈ ps_internal_print_layers ps -> l ∈ res_internal_print_layers res)
  /\ (forall t, t ∈ ps_print_templates ps -> t ∈ res_print_templates res).

(** The layers available in a WMS catalog: leaf layers, group layers and
    internal print layers ([available_layers]). *)
Definition wms_available (res : wms_resources) (n : pystr) : bool :=
  bool_decide (n ∈ dom (res_layers res) \/ n ∈ dom (res_group_layers res)
               \/ n ∈ res_internal_print_layers res).

(** ** Example service used to evaluate the permission code *)

Arguments py _%_string.

Definition ex_leaf (n : string) (attrs : list string) (op : option Z) : cfg_layer :=
  CfgLayer (py n) (map py attrs) true None op false [].


Definition ex_wms_config : cfg_layer :=
  CfgLayer (py "root") [] false None None false
    [ex_leaf "roads" ["name"; "type"] None; ex_leaf "rivers" ["name"] None].

Definition ex_wms_res : wms_resources :=
  load_wms_resources ex_wms_config [py "osm_bg"] [py "A4"].

Definition ex_grant (n : string) (attrs : list string) : layer_grant :=
  {| lg_name := py n; lg_attributes := map py attrs; lg_writable := false;
     lg_creatable := false; lg_readable := true; lg_updatable := false;
     lg_deletable := false |}.


(** A role granting a catalog layer with one unknown attribute, and a
    layer that the catalog does not have. *)
Definition ex_grants : list role_grant :=
  [{| rg_layers := [ex_grant "roads" ["name"; "secret"]; ex_grant "ghost" ["x"]];
      rg_print_templates := [py "A4"; py "A3"] |}].

Definition ex_wms_ps : wms_permission :=
  match wms_service_permissions (Some ex_wms_res) ex_grants with
  | inr (Some ps) => ps
  | _ => {| ps_public_layers := []; ps_layers := ∅; ps_queryable_layers := [];
            ps_feature_info_aliases := ∅; ps_restricted_group_layers := ∅;
            ps_hidden_sublayer_opacities := ∅; ps_internal_print_layers := [];
            ps_print_templates := [] |}
  end.

Definition ex_wms_acc : gmap pystr (gset pystr) * gset pystr :=
  match wms_permitted_layers ex_wms_res ex_grants ∅ ∅ with
  | inr r => r
  | inl _ => (∅, ∅)
  end.

Definition ex_wfs_cat : gmap pystr (list pystr) :=
  {[py "roads" := [py "name"; py "type"]]}.

Definition ex_wfs_acc : gmap pystr (gset pystr) :=
  match wfs_permitted_layers ex_wfs_cat ex_grants ∅ with
  | inr r => r
  | inl _ => ∅
  end.

Definition ex_wfs_ps : wfs_permission :=
  match wfs_service_permissions (Some ex_wfs_cat) ex_grants with
  | inr (Some ps) => ps
  | _ => {| wps_public_layers := []; wps_layers := ∅ |}
  end.

(** A group [G] with [hide_sublayers] and children [A] (opacity 100) and
    [B] (opacity 50), all three granted. *)
Definition ex_group_config : cfg_layer :=
  CfgLayer (py "root") [] false None None false
    [CfgLayer (py "G") [] false None None true
       [ex_leaf "A" [] (Some 100%Z); ex_leaf "B" [] (Some 50%Z)]].

Definition ex_group_ps : wms_permission :=
  match wms_service_permissions (Some (load_wms_resources ex_group_config [] []))
          [{| rg_layers := [ex_grant "G" []; ex_grant "A" []; ex_grant "B" []];
              rg_print_templates := [] |}] with
  | inr (Some ps) => ps
  | _ => {| ps_public_layers := []; ps_layers := ∅; ps_queryable_layers := [];
            ps_feature_info_aliases := ∅; ps_restricted_group_layers := ∅;
            ps_hidden_sublayer_opacities := ∅; ps_internal_print_layers := [];
            ps_print_templates := [] |}
  end.

Definition ex_getmap_params (opacities : string) : params_t :=
  <[py "SERVICE" := py "WMS"]> (<[py "REQUEST" := py "GetMap"]>
    (<[py "LAYERS" := py "G"]> (<[py "OPACITIES" := py opacities]> ∅))).

(** WmsHandler permissions with two public layers, and GetFeatureInfo
    parameters. *)
Definition ex_wmsh_permissions : wmsh_permissions :=
  {| wh_public_layers := [py "roads"; py "rivers"]; wh_internal_print_layers := [];
     wh_print_templates := [] |}.

Definition ex_gfi_params (layers query_layers info_format : string) : params_t :=
  <[py "LAYERS" := py layers]> (<[py "QUERY_LAYERS" := py query_layers]>
    (<[py "INFO_FORMAT" := py info_format]> ∅)).

(** A transaction inserting into a permitted layer and into an unknown
    one, and deleting from the unknown one. *)
Definition ex_wfsh_layers (creatable : bool) : gmap pystr wfsh_layer :=
  {[py "roads" := {| wl_attributes := [py "name"]; wl_creatable := creatable;
                     wl_updatable := false; wl_deletable := true |}]}.

Definition ex_qgs (local : string) (cs : list xml) : xml := XElem (ns_qgs ++ py local) [] None cs.

Definition ex_transaction : xml :=
  XElem (ns_wfs ++ py "Transaction") [] None
    [XElem wfs_Insert [] None
       [ex_qgs "roads" [ex_qgs "name" []; ex_qgs "secret" []; ex_qgs "geometry" []];
        ex_qgs "ghost" [ex_qgs "x" []]];
     XElem wfs_Delete [(py "typeName", py "ghost")] None []].

(** A collection [roads] whose only permitted attribute is [na_me], and a
    payload whose [properties] hold [na me] and [secret]. *)
Definition ex_roads_permission (writable flag : bool) : oapi_layer_permission :=
  {| op_attributes := {[py "na_me"]}; op_writable := writable;
     op_creatable := flag; op_readable := true;
     op_updatable := flag; op_deletable := flag |}.

Definition ex_oapi_permissions (writable flag : bool) : gmap pystr oapi_layer_permission :=
  {[py "roads" := ex_roads_permission writable flag]}.

Definition ex_payload : dict json :=
  [(py "type", JStr (py "Feature"));
   (py "properties", JObj [(py "na me", JNum 1); (py "secret", JNum 2)])].

(** A backend GetFeature response with status 200 and the given body. *)
Definition ex_getfeature_response (text : pystr) : backend_response :=
  {| br_status := 200; br_text := text; br_content_type := py "application/json" |}.


(** ** More of the request pipeline of [OGCService] ([ogc_service.py]) *)

(** Exceptions of the request pipeline: those of [py_error], the
    [RecursionError] of a too deep recursion, and Flask's
    [abort(status, message)]. *)
Inductive py_exception :=
| PyError (e : py_error)
| RecursionError
| Abort (status : Z) (message : pystr).

(** [str(n)] for an [int]. [pos_digits] writes the decimal digits of a
    positive number; the fuel (its bit length) is never exhausted. *)
Fixpoint pos_digits (fuel : nat) (n : N) (acc : pystr) : pystr :=
  match fuel with
  | O => acc
  | S fuel =>
      let acc' := (48 + n mod 10)%N :: acc in
      if (n <? 10)%N then acc' else pos_digits fuel (n / 10)%N acc'
  end.

Definition py_str_Z (z : Z) : pystr :=
  match z with
  | Z0 => py "0"
  | Zpos p => pos_digits (Pos.size_nat p) (Npos p) []
  | Zneg p => chr_dash :: pos_digits (Pos.size_nat p) (Npos p) []
  end.

(** [s.endswith(suffix)]. *)
Definition endswith (suffix s : pystr) : bool :=
  bool_decide (drop (length s - length suffix) s = suffix).

Definition chr_semicolon : N := 59.
Definition chr_hash : N := 35.
Definition chr_newline : N := 10.

(** [OGCService.expand_group_layers(requested_layers, restricted_group_layers)];
    [None] is the [RecursionError], as for
    [expand_group_layers_opacities_styles]. *)
Fixpoint expand_group_layers (fuel : nat) (requested_layers : list pystr)
    (restricted_group_layers : gmap pystr (list pystr)) : option (list pystr) :=
  match fuel with
  | O => None
  | S fuel =>
      let fix go (ls : list pystr) :=
        match ls with
        | [] => Some []
        | layer :: rest =>
            match restricted_group_layers !! layer with
            | Some subs =>
                e ← expand_group_layers fuel (rev subs) restricted_group_layers;
                r ← go rest;
                Some (e ++ r)
            | None => r ← go rest; Some (layer :: r)
            end
        end in
      go requested_layers
  end.

(** [OGCService.get_map_param_prefix(params)] on the items of [params] in
    insertion order. *)
Fixpoint get_map_param_prefix_items (items : list (pystr * pystr)) : pystr :=
  match items with
  | [] => []
  | (key, _) :: rest =>
      if endswith (py ":EXTENT") key then take (length key - 7) key
      else get_map_param_prefix_items rest
  end.

(** [re.match("^" + prefix + "(.+)#(.+)$", s)] for the patterns of
    [check_layers]: [.] matches any character but a newline, and [$]
    matches at the end or before a final newline. *)
Definition re_layer_match (prefix s : pystr) : bool :=
  startswith prefix s &&
  let body := drop (length prefix) s in
  let body := if endswith [chr_newline] body then take (length body - 1) body else body in
  negb (existsb (N.eqb chr_newline) body) &&
  existsb (fun i => bool_decide (body !! i = Some chr_hash)) (seq 1 (length body - 2)).

(** [re.match('^application/vnd.ogc.gml.+$', s)] of [check_request]: the
    two unescaped dots match any character but a newline. *)
Definition re_gml_info_format_match (s : pystr) : bool :=
  let s := if endswith [chr_newline] s then take (length s - 1) s else s in
  negb (existsb (N.eqb chr_newline) s) &&
  startswith (py "application/vnd") s &&
  let r := drop 15 s in
  bool_decide (9 <= length r)%nat &&
  bool_decide (take 3 (drop 1 r) = py "ogc") &&
  bool_decide (take 3 (drop 5 r) = py "gml").

(** [OGCService.check_layers(layer_param, params, permitted_layers, mandatory)]. *)
Definition check_layers (layer_param : pystr) (params : params_t)
    (permitted_layers : list pystr) (mandatory : bool) : option ows_exception :=
  match params !! layer_param with
  | Some ((_ :: _) as requested_layers) =>
      match filter (fun layer =>
              layer <> [] /\ re_layer_match (py "wms:") layer = false
              /\ re_layer_match (py "wfs:") layer = false
              /\ startswith (py "EXTERNAL_WMS:") layer = false
              /\ layer ∉ permitted_layers) (split_on chr_comma requested_layers) with
      | layer :: _ =>
          Some (py "LayerNotDefined",
                py "Layer " ++ dq ++ layer ++ dq ++ py " does not exist or is not permitted")
      | [] => None
      end
  | _ =>
      if mandatory then
        Some (py "MissingParameterValue",
              layer_param ++ py " is mandatory for "
              ++ default (py "None") (params !! py "REQUEST") ++ py " operation")
      else None
  end.

(** [wfs_response_filters.get_permitted_typename_map(permissions)] (with
    [replaceColons=True]) on [permissions['public_layers']]: [dict()] of
    the pairs, a later pair for the same key wins. *)
Definition get_permitted_typename_map (public_layers : list pystr) : gmap pystr pystr :=
  foldl (fun m name => <[wfs_clean_layer_name name := name]> m) ∅ public_layers.

(** The permission dict passed to [check_request]: empty ([{}], for an
    unknown or unpermitted service), or that of [service_permissions] for
    WMS or WFS. *)
Inductive ogc_permissions :=
| NoPermissions
| WmsPermissions (p : wms_permission)
| WfsPermissions (p : wfs_permission).

Definition ogc_public_layers (p : ogc_permissions) : list pystr :=
  match p with
  | NoPermissions => []
  | WmsPermissions p => ps_public_layers p
  | WfsPermissions p => wps_public_layers p
  end.

Section CheckRequest.
(** [str.upper] and [OGCService.get_map_param_prefix]. *)
Context (py_upper : pystr -> pystr).
Context (get_map_param_prefix : params_t -> pystr).

(** [ogc_layers_params.get(service, {}).get(request, {})]: the optional
    and the mandatory layers parameter, [None] for the empty dict. *)
Definition ogc_layers_params (service request : pystr) : option (option pystr * option pystr) :=
  if bool_decide (service = py "WMS") then
    if bool_decide (request = py "GETMAP") then Some (Some (py "LAYERS"), None)
    else if bool_decide (request = py "GETFEATUREINFO") then
      Some (Some (py "LAYERS"), Some (py "QUERY_LAYERS"))
    else if bool_decide (request = py "GETLEGENDGRAPHIC") then Some (None, Some (py "LAYER"))
    else if bool_decide (request = py "GETLEGENDGRAPHICS") then Some (None, Some (py "LAYER"))
    else if bool_decide (request = py "DESCRIBELAYER") then Some (None, Some (py "LAYERS"))
    else if bool_decide (request = py "GETSTYLES") then Some (None, Some (py "LAYERS"))
    else None
  else None.

(** The service- and request-specific checks of [check_request], before
    the layers check: an exception, or the (possibly filtered) params. *)
Definition check_request_service (service request : pystr) (params : params_t)
    (permissions : ogc_permissions) : py_error + (option ows_exception * params_t) :=
  if bool_decide (service = py "WMS") then
    if bool_decide (request = py "GETFEATUREINFO") then
      let info_format := default (py "text/plain") (params !! py "INFO_FORMAT") in
      if re_gml_info_format_match info_format then
        inr (Some (py "InvalidFormat",
                   py "Feature info format '" ++ info_format
                   ++ py "' is not supported. Possibilities are 'text/plain', 'text/html' or 'text/xml'."),
             params)
      else inr (None, params)
    else if bool_decide (request = py "GETPRINT") then
      match permissions with
      | WmsPermissions p =>
          let template := params !! py "TEMPLATE" in
          if bool_decide (template ∉ map Some (ps_print_templates p)) then
            inr (Some (py "Error", py "Composer template not found or not permitted"), params)
          else inr (None, params)
      | _ => inl (KeyError (py "print_templates"))
      end
    else inr (None, params)
  else if bool_decide (service = py "WFS") then
    if bool_decide (request = py "TRANSACTION") then
      inr (Some (py "OperationNotSupported", py "WFS Transaction is not supported"), params)
    else
      let permitted_typename_map := get_permitted_typename_map (ogc_public_layers permissions) in
      match params !! py "TYPENAME" with
      | Some ((_ :: _) as typename) =>
          let params := <[py "TYPENAME" := join_with chr_comma
                            (filter (fun entry => entry ∈ dom permitted_typename_map)
                               (split_on chr_comma typename))]> params in
          if negb (py_truthy (params !! py "TYPENAME"))
             && (bool_decide (request = py "GETFEATURE")
                 || bool_decide (request = py "DESCRIBEFEATURETYPE"))
          then inr (Some (py "LayerNotDefined",
                          py "No permitted or existing layers specified in TYPENAME"), params)
          else inr (None, params)
      | _ => inr (None, params)
      end
  else inr (None, params).

(** [OGCService.check_request(params, permissions)]: the returned
    exception and [params] as the method leaves them. *)
Definition check_request (params : params_t) (permissions : ogc_permissions)
    : py_error + (option ows_exception * params_t) :=
  match permissions with
  | NoPermissions =>
      inr (Some (py "Service configuration error", py "Service unknown or unsupported"), params)
  | _ =>
    if negb (py_truthy (params !! py "REQUEST")) || negb (py_truthy (params !! py "SERVICE")) then
      inr (Some (py "OperationNotSupported",
                 py "Please check the value of the SERVICE / REQUEST parameter"), params)
    else
      let service := py_upper (default [] (params !! py "SERVICE")) in
      let request := py_upper (default [] (params !! py "REQUEST")) in
      match check_request_service service request params permissions with
      | inl e => inl e
      | inr (Some exception, params) => inr (Some exception, params)
      | inr (None, params) =>
          let layer_params := ogc_layers_params service request in
          let layer_params :=
            if bool_decide (service = py "WMS" /\ request = py "GETPRINT") then
              let mapname := get_map_param_prefix params in
              if bool_decide (mapname <> [] /\ is_Some (params !! (mapname ++ py ":LAYERS")))
              then Some (Some (mapname ++ py ":LAYERS"), None)
              else layer_params
            else layer_params in
          match layer_params with
          | None => inr (None, params)
          | Some (optional, mandatory) =>
              let permitted_layers :=
                if bool_decide (service = py "WMS"
                                /\ (request = py "GETMAP" \/ request = py "GETPRINT")) then
                  match permissions with
                  | WmsPermissions p => inr (ps_public_layers p ++ ps_internal_print_layers p)
                  | _ => inl (KeyError (py "internal_print_layers"))
                  end
                else inr (ogc_public_layers permissions) in
              match permitted_layers with
              | inl e => inl e
              | inr permitted_layers =>
                  let exception :=
                    match optional with
                    | Some p => check_layers p params permitted_layers false
                    | None => None
                    end in
                  let exception :=
                    match exception, mandatory with
                    | None, Some p => check_layers p params permitted_layers true
                    | _, _ => exception
                    end in
                  inr (exception, params)
              end
          end
      end
  end.

End CheckRequest.

Section AdjustParams.
Context (py_upper : pystr -> pystr).
Context (is_space : N -> bool) (digit_value : N -> option Z).
Context (get_map_param_prefix : params_t -> pystr).
(** [re.sub(pattern, self.default_qgis_server_url, url)] of
    [rewrite_external_wms_urls], where [pattern] is built from the
    origin and the configuration. *)
Context (url_sub : pystr -> pystr -> pystr).
(** [self.marker_template], and the validation part of the MARKER block:
    from the MARKER value and the template, [abort(400, ...)] or the
    marker geometry and the filled-in template. *)
Context (marker_template : option pystr).
Context (marker_geom_template : pystr -> pystr -> py_exception + (pystr * pystr)).
(** [self.legend_default_font_size], [None] when falsy. *)
Context (legend_default_font_size : option pystr).

(** [OGCService.rewrite_external_wms_urls(origin, layersparam, params)];
    a missing and an empty origin are both [[]]. *)
Definition rewrite_external_wms_urls (origin : pystr) (layersparam : list pystr)
    (params : params_t) : params_t :=
  match origin with
  | [] => params
  | _ :: _ =>
      foldl (fun params layer =>
        if negb (startswith (py "EXTERNAL_WMS:") layer) then params
        else
          let urlparam := drop 13 layer ++ py ":URL" in
          match params !! urlparam with
          | None => params
          | Some url => <[urlparam := url_sub origin url]> params
          end) params layersparam
  end.

(** [";".join(filter(bool, [a, b]))]. *)
Definition join_truthy (a b : pystr) : pystr :=
  join_with chr_semicolon (filter (fun s => s <> []) [a; b]).

(** The MARKER block of the GETMAP branch, with the request method. *)
Definition adjust_marker (params : params_t) (method : pystr)
    : py_exception + (params_t * pystr) :=
  match params !! py "MARKER", marker_template with
  | Some marker, Some template =>
      match marker_geom_template marker template with
      | inl e => inl e
      | inr (marker_geom, template) =>
          let params := <[py "HIGHLIGHT_GEOM" :=
                            join_truthy (default [] (params !! py "HIGHLIGHT_GEOM")) marker_geom]> params in
          let params := <[py "HIGHLIGHT_SYMBOL" :=
                            join_truthy (default [] (params !! py "HIGHLIGHT_SYMBOL")) template]> params in
          inr (params, py "POST")
      end
  | _, _ => inr (params, method)
  end.

(** The expansion shared by the GETMAP and GETPRINT branches, from the
    value of the layers parameter: the expanded entries. *)
Definition adjust_expand_opacities_styles (requested_layers : list pystr)
    (params : params_t) (permissions : wms_permission)
    : option (list layer_opacity_style) :=
  expand_group_layers_opacities_styles recursion_limit
    (padded_opacities_styles is_space digit_value requested_layers
       (params !! py "OPACITIES") (params !! py "STYLES"))
    (ps_restricted_group_layers permissions) (ps_hidden_sublayer_opacities permissions).

Definition join_layers (es : list layer_opacity_style) : pystr :=
  join_with chr_comma (map lo_layer es).
Definition join_opacities (es : list layer_opacity_style) : pystr :=
  join_with chr_comma (map (fun e => py_str_Z (lo_opacity e)) es).
Definition join_styles (es : list layer_opacity_style) : pystr :=
  join_with chr_comma (map lo_style es).

(** [OGCService.adjust_params(params, permissions, origin, method)]: the
    adjusted params and the returned method. *)
Definition adjust_params (params : params_t) (permissions : wms_permission)
    (origin method : pystr) : py_exception + (params_t * pystr) :=
  let ogc_service := default [] (params !! py "SERVICE") in
  let ogc_request := py_upper (default [] (params !! py "REQUEST")) in
  let params := adjust_params_version params in
  let rgl := ps_restricted_group_layers permissions in
  if bool_decide (ogc_service = py "WMS" /\ ogc_request = py "GETMAP") then
    let layers :=
      match params !! py "LAYERS" with
      | Some ((_ :: _) as requested_layers) =>
          let requested_layers := split_on chr_comma requested_layers in
          match adjust_expand_opacities_styles requested_layers params permissions with
          | None => inl RecursionError
          | Some es =>
              let params := <[py "LAYERS" := join_layers es]> params in
              let params := <[py "OPACITIES" := join_opacities es]> params in
              let params := <[py "STYLES" := join_styles es]> params in
              inr (rewrite_external_wms_urls origin requested_layers params)
          end
      | _ => inr params
      end in
    match layers with
    | inl e => inl e
    | inr params => adjust_marker params method
    end
  else if bool_decide (ogc_service = py "WMS" /\ ogc_request = py "GETFEATUREINFO") then
    match params !! py "QUERY_LAYERS" with
    | Some ((_ :: _) as requested_layers) =>
        let requested_layers := split_on chr_comma requested_layers in
        match expand_group_layers recursion_limit (rev requested_layers) rgl with
        | None => inl RecursionError
        | Some permitted_layers =>
            let permitted_layers :=
              filter (fun l => l ∈ ps_queryable_layers permissions) permitted_layers in
            inr (<[py "QUERY_LAYERS" := join_with chr_comma (rev permitted_layers)]> params,
                 method)
        end
    | _ => inr (params, method)
    end
  else if bool_decide (ogc_service = py "WMS"
                       /\ ogc_request ∈ [py "GETLEGENDGRAPHIC"; py "GETLEGENDGRAPHICS"]) then
    match params !! py "LAYER" with
    | Some ((_ :: _) as requested_layers) =>
        match expand_group_layers recursion_limit (split_on chr_comma requested_layers) rgl with
        | None => inl RecursionError
        | Some permitted_layers =>
            let params := <[py "LAYER" := join_with chr_comma permitted_layers]> params in
            let params := <[py "FORMAT" :=
                              default [] (head (split_on chr_semicolon
                                                   (default [] (params !! py "FORMAT"))))]> params in
            let params :=
              match legend_default_font_size with
              | Some size =>
                  let params :=
                    if bool_decide (is_Some (params !! py "LAYERFONTSIZE")) then params
                    else <[py "LAYERFONTSIZE" := size]> params in
                  if bool_decide (is_Some (params !! py "ITEMFONTSIZE")) then params
                  else <[py "ITEMFONTSIZE" := size]> params
              | None => params
              end in
            inr (params, method)
        end
    | _ => inr (params, method)
    end
  else if bool_decide (ogc_service = py "WMS" /\ ogc_request = py "GETPRINT") then
    let mapname := get_map_param_prefix params in
    (* [requested_layers] is only bound by the [if] *)
    let requested_layers :=
      if bool_decide (mapname <> []) then params !! (mapname ++ py ":LAYERS") else None in
    match requested_layers with
    | None => inl (PyError (UnboundLocalError (py "requested_layers")))
    | Some [] => inr (params, method)
    | Some requested_layers =>
        let requested_layers := split_on chr_comma requested_layers in
        match adjust_expand_opacities_styles requested_layers params permissions with
        | None => inl RecursionError
        | Some es =>
            let params := <[mapname ++ py ":LAYERS" := join_layers es]> params in
            let params := <[py "LAYERS" := join_layers es]> params in
            let params := <[py "OPACITIES" := join_opacities es]> params in
            let params := <[py "STYLES" := join_styles es]> params in
            inr (rewrite_external_wms_urls origin requested_layers params, method)
        end
    end
  else if bool_decide (ogc_service = py "WMS" /\ ogc_request = py "DESCRIBELAYER") then
    match params !! py "LAYERS" with
    | Some ((_ :: _) as requested_layers) =>
        match expand_group_layers recursion_limit (rev (split_on chr_comma requested_layers)) rgl with
        | None => inl RecursionError
        | Some permitted_layers =>
            inr (<[py "LAYERS" := join_with chr_comma (rev permitted_layers)]> params, method)
        end
    | _ => inr (params, method)
    end
  else inr (params, method).

End AdjustParams.

(** [str.upper] on ASCII letters, to evaluate examples. *)
Definition ascii_upper (s : pystr) : pystr :=
  map (fun c => if ((97 <=? c) && (c <=? 122))%N then (c - 32)%N else c) s.

(** ** WFS GetFeature GML filtering ([wfs_response_filters.wfs_getfeature_gml]) *)

Definition ns_gml : pystr := py "{http://www.opengis.net/gml}".
Definition ns_xsi : pystr := py "{http://www.w3.org/2001/XMLSchema-instance}".
Definition gml_featureMember : pystr := ns_gml ++ py "featureMember".
Definition gml_boundedBy : pystr := ns_gml ++ py "boundedBy".
Definition xsi_schemaLocation : pystr := ns_xsi ++ py "schemaLocation".

(** [s.replace(old, new)]: left to right, without overlaps; an empty [old]
    inserts [new] around every character. The fuel ([length s]) is never
    exhausted. *)
Fixpoint str_replace_go (fuel : nat) (old new s : pystr) : pystr :=
  match fuel with
  | O => s
  | S fuel =>
      match s with
      | [] => []
      | c :: rest =>
          if bool_decide (take (length old) s = old)
          then new ++ str_replace_go fuel old new (drop (length old) s)
          else c :: str_replace_go fuel old new rest
      end
  end.

Definition str_replace (old new s : pystr) : pystr :=
  match old with
  | [] => flat_map (fun c => new ++ [c]) s ++ new
  | _ :: _ => str_replace_go (length s) old new s
  end.

(** [for x in element: ... element.remove(x)]: the loop walks the live
    list of children by index, so the child after a removed one moves to
    the index just visited and is skipped. [keep x = false] removes [x]
    (the child at index [i]). The fuel ([length cs]) is never exhausted. *)
Fixpoint iter_remove (keep : xml -> bool) (fuel : nat) (i : nat) (cs : list xml) : list xml :=
  match fuel with
  | O => cs
  | S fuel =>
      match cs !! i with
      | None => cs
      | Some x =>
          if keep x then iter_remove keep fuel (S i) cs
          else iter_remove keep fuel (S i) (delete i cs)
      end
  end.

(** The attribute loop body: [boundedBy] is skipped, [geometry] and the
    permitted attributes stay, every other attribute is removed. *)
Definition gml_attr_kept (permitted_attributes : list pystr) (attr : xml) : bool :=
  bool_decide (x_tag attr = gml_boundedBy) ||
  let attr_name := removeprefix ns_qgs (x_tag attr) in
  negb (bool_decide (attr_name <> py "geometry" /\ attr_name ∉ permitted_attributes)).

(** [get_permitted_attributes(permissions, layer_name, False)]. *)
Definition get_permitted_attributes_raw (layers : gmap pystr (list pystr)) (layer_name : pystr)
    : list pystr :=
  map (replace_char chr_space chr_underscore) (default [] (layers !! layer_name)).

(** The body of [for featureMember in root.findall('./gml:featureMember')]:
    the features are taken from a copy ([list(featureMember)]). *)
Definition filter_feature_member (permitted_typename_map : gmap pystr pystr)
    (layers : gmap pystr (list pystr)) (featureMember : xml) : xml :=
  set_children featureMember
    (omap (fun feature =>
       let typename := removeprefix ns_qgs (x_tag feature) in
       match permitted_typename_map !! typename with
       | None => None
       | Some layer_name =>
           let permitted_attributes := get_permitted_attributes_raw layers layer_name in
           Some (set_children feature
                   (iter_remove (gml_attr_kept permitted_attributes)
                      (length (x_children feature)) 0 (x_children feature)))
       end) (x_children featureMember)).

(** [wfs_getfeature_gml(response, permissions, host_url, script_root)] on
    the parsed document [root] of [response.text], with [internal_url]
    ([response.request.url.split("?")[0]]) and [service_url]
    ([get_service_url(...)]): the filtered document before
    serialisation. *)
Definition wfs_getfeature_gml_root (internal_url service_url : pystr)
    (permissions : wfs_permission) (root : xml) : py_error + xml :=
  match assoc_get xsi_schemaLocation (x_attrib root) with
  | None => inl (KeyError xsi_schemaLocation)
  | Some schemaLocation =>
      let root := XElem (x_tag root)
                    (dict_set xsi_schemaLocation
                       (str_replace internal_url service_url schemaLocation) (x_attrib root))
                    (x_text root) (x_children root) in
      let permitted_typename_map := get_permitted_typename_map (wps_public_layers permissions) in
      inr (set_children root
             (map (fun c => if bool_decide (x_tag c = gml_featureMember)
                            then filter_feature_member permitted_typename_map
                                   (wps_layers permissions) c
                            else c) (x_children root)))
  end.

(** ** Adjustments of [WmsHandler.process_request] ([wms_handler.py]) *)

(** The fields of an entry of the handler's [permissions['permitted_layers']]
    read by the adjustments: [opacity] ([None] when the key is missing)
    and the truthiness of [queryable]. *)
Record wmsh_layer := {
  wml_opacity : option Z;
  wml_queryable : bool
}.

(** The fields of the handler's permissions read by the adjustments. *)
Record wmsh_adjust_permissions := {
  wa_restricted_group_layers : gmap pystr (list pystr);
  wa_permitted_layers : gmap pystr wmsh_layer
}.

Definition no_expand_restricted_group : py_error :=
  AttributeError (py "'WmsHandler' object has no attribute 'expand_restricted_group'").

Section WmsHandlerAdjust.
Context (is_space : N -> bool) (digit_value : N -> option Z).
(** [round(percent / 100 * opacity)] on floats. *)
Context (round_scaled : Z -> Z -> Z).
(** [WmsHandler.__rewrite_external_wms_url(layer, params)]. *)
Context (rewrite_external_wms_url : pystr -> params_t -> params_t).
(** [WmsHandler.__get_map_param_prefix]. *)
Context (get_map_param_prefix : params_t -> pystr).
(** [self.legend_default_font_size], [None] when falsy. *)
Context (legend_default_font_size : option pystr).

(** [WmsHandler.__expand_restricted_group(layers, opacity, permissions)]:
    its recursive call names [self.expand_restricted_group], which does not
    exist. *)
Fixpoint wmsh_expand_restricted_group (layers : list pystr) (opacity : Z)
    (permissions : wmsh_adjust_permissions) : py_error + list layer_opacity_style :=
  match layers with
  | [] => inr []
  | layer :: rest =>
      match wa_permitted_layers permissions !! layer with
      | None => inl (KeyError layer)
      | Some permitted_layer =>
          match wml_opacity permitted_layer with
          | None => inl (KeyError (py "opacity"))
          | Some percent =>
              let layer_opacity := round_scaled percent opacity in
              match wa_restricted_group_layers permissions !! layer with
              | Some (_ :: _) => inl no_expand_restricted_group
              | _ =>
                  match wmsh_expand_restricted_group rest opacity permissions with
                  | inl e => inl e
                  | inr result =>
                      inr ({| lo_layer := layer; lo_opacity := layer_opacity; lo_style := [] |}
                           :: result)
                  end
              end
          end
      end
  end.

(** [max(0, min(int(requested_opacities[i]), 255))], 255 on any exception. *)
Definition wmsh_opacity (requested_opacities : list pystr) (i : nat) : Z :=
  match requested_opacities !! i with
  | Some o =>
      match py_int is_space digit_value o with
      | Some z => Z.max 0 (Z.min z 255)
      | None => 255
      end
  | None => 255
  end.

(** The loop of [WmsHandler.__expand_group_layers] from index [i] on the
    remaining requested layers [ls]: the params (rewritten for external
    layers) and the expanded entries. *)
Fixpoint wmsh_expand_loop (requested_opacities requested_styles : list pystr)
    (permissions : wmsh_adjust_permissions) (i : nat) (ls : list pystr) (params : params_t)
    : py_error + (params_t * list layer_opacity_style) :=
  match ls with
  | [] => inr (params, [])
  | layer :: rest =>
      let opacity := wmsh_opacity requested_opacities i in
      let style := default [] (requested_styles !! i) in
      let entry := {| lo_layer := layer; lo_opacity := opacity; lo_style := style |} in
      if startswith (py "EXTERNAL_WMS:") layer then
        match wmsh_expand_loop requested_opacities requested_styles permissions (S i) rest
                (rewrite_external_wms_url layer params) with
        | inl e => inl e
        | inr (params, es) => inr (params, entry :: es)
        end
      else
        match wa_restricted_group_layers permissions !! layer with
        | Some ((_ :: _) as sublayers) =>
            match wmsh_expand_restricted_group sublayers opacity permissions with
            | inl e => inl e
            | inr sub =>
                match wmsh_expand_loop requested_opacities requested_styles permissions (S i)
                        rest params with
                | inl e => inl e
                | inr (params, es) => inr (params, sub ++ es)
                end
            end
        | _ =>
            match wmsh_expand_loop requested_opacities requested_styles permissions (S i)
                    rest params with
            | inl e => inl e
            | inr (params, es) => inr (params, entry :: es)
            end
        end
  end.

(** [WmsHandler.__expand_group_layers(params, layers_param, permissions)]:
    the params (rewritten for external layers) and the expanded entries. *)
Definition wmsh_expand_group_layers (params : params_t) (layers_param : pystr)
    (permissions : wmsh_adjust_permissions)
    : py_error + (params_t * list layer_opacity_style) :=
  let requested_layers := split_on chr_comma (default [] (params !! layers_param)) in
  let requested_opacities := split_on chr_comma (default [] (params !! py "OPACITIES")) in
  let requested_styles := split_on chr_comma (default [] (params !! py "STYLES")) in
  wmsh_expand_loop requested_opacities requested_styles permissions 0 requested_layers params.

(** [WmsHandler.process_request(request, params, permissions, data)]: the
    returned exception, the adjusted params and the new
    [self.requested_info_format] ([None] when not set). The checks are
    [wms_process_request_check]. *)
Definition wms_process_request (request : pystr) (params : params_t)
    (permissions : wmsh_permissions) (adjust : wmsh_adjust_permissions)
    : py_error + (option ows_exception * params_t * option pystr) :=
  match wms_process_request_check get_map_param_prefix request params permissions with
  | Some e => inr (Some e, params, None)
  | None =>
      if bool_decide (request = py "GETMAP") then
        match wmsh_expand_group_layers params (py "LAYERS") adjust with
        | inl e => inl e
        | inr (params, expanded) =>
            let params := <[py "LAYERS" := join_layers expanded]> params in
            let params := <[py "OPACITIES" := join_opacities expanded]> params in
            let params := <[py "STYLES" := join_styles expanded]> params in
            inr (None, params, None)
        end
      else if bool_decide (request = py "GETFEATUREINFO") then
        match wmsh_expand_group_layers params (py "LAYERS") adjust with
        | inl e => inl e
        | inr (params, expanded) =>
            let expanded := filter (fun entry =>
                match wa_permitted_layers adjust !! lo_layer entry with
                | Some l => wml_queryable l
                | None => false
                end = true) expanded in
            let params := <[py "LAYERS" := join_layers expanded]> params in
            let params := <[py "STYLES" := join_styles expanded]> params in
            let params := <[py "QUERY_LAYERS" := join_layers expanded]> params in
            match params !! py "INFO_FORMAT" with
            | None => inl (KeyError (py "INFO_FORMAT"))
            | Some requested_info_format =>
                inr (None, <[py "INFO_FORMAT" := py "text/xml"]> params,
                     Some requested_info_format)
            end
        end
      else if bool_decide (request = py "GETLEGENDGRAPHIC") then
        match wmsh_expand_group_layers params (py "LAYERS") adjust with
        | inl e => inl e
        | inr (params, expanded) =>
            let params := <[py "LAYERS" := join_layers expanded]> params in
            let params := <[py "STYLES" := join_styles expanded]> params in
            let params := <[py "FORMAT" :=
                              default [] (head (split_on chr_semicolon
                                                  (default [] (params !! py "FORMAT"))))]> params in
            let params :=
              match legend_default_font_size with
              | Some size =>
                  let params := <[py "LAYERFONTSIZE" :=
                                    default size (params !! py "LAYERFONTSIZE")]> params in
                  <[py "ITEMFONTSIZE" := default size (params !! py "ITEMFONTSIZE")]> params
              | None => params
              end in
            inr (None, params, None)
        end
      else if bool_decide (request = py "DESCRIBELAYER") then
        match wmsh_expand_group_layers params (py "LAYERS") adjust with
        | inl e => inl e
        | inr (params, expanded) =>
            inr (None, <[py "LAYERS" := join_layers expanded]> params, None)
        end
      else if bool_decide (request = py "GETPRINT") then
        let layers_param := get_map_param_prefix params ++ py ":LAYERS" in
        match wmsh_expand_group_layers params layers_param adjust with
        | inl e => inl e
        | inr (params, expanded) =>
            let params := <[layers_param := join_layers expanded]> params in
            let params := <[py "OPACITIES" := join_opacities expanded]> params in
            let params := <[py "STYLES" := join_styles expanded]> params in
            let params := <[py "LAYERS" := join_layers expanded]> params in
            inr (None, params, None)
        end
      else inr (None, params, None)
  end.

End WmsHandlerAdjust.

(** ** [WfsHandler.process_request] ([wfs_handler.py]) *)

Definition wfs_handler_requests : list pystr :=
  map py ["GETCAPABILITIES"; "GETFEATURE"; "DESCRIBEFEATURETYPE"; "TRANSACTION"].

(** [format_map] of the GETFEATURE branch, as an association list. *)
Definition wfs_format_map : list (pystr * pystr) :=
  map (fun '(k, v) => (py k, py v))
    [("gml2", "gml2"); ("text/xml; subtype=gml/2.1.2", "gml2");
     ("gml3", "gml3"); ("text/xml; subtype=gml/3.1.1", "gml3");
     ("geojson", "geojson"); ("application/vnd.geo+json", "geojson");
     ("application/vnd.geo json", "geojson"); ("application/geo+json", "geojson");
     ("application/geo json", "geojson"); ("application/json", "geojson")].

Definition not_permitted_typename (typename : pystr) : ows_exception :=
  (py "RequestNotWellFormed",
   py "TypeName '" ++ typename ++ py "' could not be found or is not permitted").

Section WfsHandlerRequest.
Context (is_word : N -> bool).
(** [str.lower]. *)
Context (py_lower : pystr -> pystr).

(** [WfsHandler.process_request(request, params, permissions, data)] with
    [data = {'body': body}] given by the parsed [body] ([None] when there
    is no POST data): the returned exception, the adjusted params and the
    new [data['body']]. *)
Definition wfs_process_request (request : pystr) (params : params_t)
    (permitted_layers : gmap pystr wfsh_layer) (body : option xml)
    : py_error + (option ows_exception * params_t * option xml) :=
  if negb (bool_decide (request ∈ wfs_handler_requests)) then
    inr (Some (py "OperationNotSupported", py "Request " ++ request ++ py " is not supported"),
         params, body)
  else
    let bad_typenames := filter (fun typename =>
        typename <> [] /\ wfs_clean_layer_name typename ∉ dom permitted_layers)
        (split_on chr_comma (default [] (params !! py "TYPENAME"))) in
    let bad_featureids := filter (fun featureid =>
        featureid <> []
        /\ wfs_clean_layer_name (default [] (head (split_on chr_dot featureid)))
             ∉ dom permitted_layers)
        (split_on chr_comma (default [] (params !! py "FEATUREID"))) in
    match bad_typenames, bad_featureids with
    | typename :: _, _ => inr (Some (not_permitted_typename typename), params, body)
    | [], featureid :: _ =>
        inr (Some (not_permitted_typename (default [] (head (split_on chr_dot featureid)))),
             params, body)
    | [], [] =>
        let params :=
          if bool_decide (params !! py "VERSION" ∉ [Some (py "1.0.0"); Some (py "1.1.0")])
          then <[py "VERSION" := py "1.1.0"]> params else params in
        if bool_decide (request = py "GETFEATURE") then
          let default_format :=
            if bool_decide (params !! py "VERSION" = Some (py "1.1.0"))
            then py "gml3" else py "gml2" in
          inr (None,
               <[py "OUTPUTFORMAT" :=
                   default default_format
                     (assoc_get (py_lower (default [] (params !! py "OUTPUTFORMAT")))
                        wfs_format_map)]> params,
               body)
        else if bool_decide (request = py "TRANSACTION") then
          match body with
          | Some root =>
              match check_transaction is_word permitted_layers root with
              | inl e => inl e
              | inr (Some error, _) => inr (Some error, params, body)
              | inr (None, root) => inr (None, params, Some root)
              end
          | None => inr (None, params, body)
          end
        else inr (None, params, body)
    end.

End WfsHandlerRequest.

(** ** Example inputs of the further properties *)

Definition ex_url_sub (origin url : pystr) : pystr := url.
Definition ex_marker_geom (marker template : pystr) : py_exception + (pystr * pystr) :=
  inr (marker, template).

(** [OGCService.adjust_params] with ASCII case mapping, no map prefix, no
    marker template and the given default legend font size. *)
Definition ex_adjust (font_size : option pystr) (params : params_t) (permissions : wms_permission)
    : py_exception + (params_t * pystr) :=
  adjust_params ascii_upper ascii_space ascii_digit (fun _ => []) ex_url_sub None ex_marker_geom
    font_size params permissions [] (py "GET").

Definition ex_adjusted (r : py_exception + (params_t * pystr)) : params_t * pystr :=
  match r with inr x => x | inl _ => (∅, []) end.

Definition ex_ogc_gfi_params : params_t :=
  <[py "SERVICE" := py "WMS"]> (<[py "REQUEST" := py "GetFeatureInfo"]>
    (<[py "LAYERS" := py "roads"]> (<[py "QUERY_LAYERS" := py "roads"]> ∅))).

Definition ex_legend_params : params_t :=
  <[py "SERVICE" := py "WMS"]> (<[py "REQUEST" := py "GetLegendGraphic"]>
    (<[py "LAYER" := py "G"]> (<[py "FORMAT" := py "image/png; mode=8bit"]>
      (<[py "ITEMFONTSIZE" := py "12"]> ∅)))).

Definition ex_getprint_params : params_t :=
  <[py "SERVICE" := py "WMS"]> (<[py "REQUEST" := py "GetPrint"]>
    (<[py "TEMPLATE" := py "A4"]> (<[py "LAYERS" := py "roads"]> ∅))).

Definition ex_wfs_params (request typename : string) : params_t :=
  <[py "SERVICE" := py "WFS"]> (<[py "REQUEST" := py request]>
    (<[py "TYPENAME" := py typename]> ∅)).

Definition ex_wms_gml_params : params_t :=
  <[py "SERVICE" := py "WMS"]> (<[py "REQUEST" := py "GetFeatureInfo"]>
    (<[py "LAYERS" := py "roads"]> (<[py "QUERY_LAYERS" := py "roads"]>
      (<[py "INFO_FORMAT" := py "application/vnd.ogc.gml"]> ∅)))).

(** A feature with three attributes, none of them permitted. *)
Definition ex_feature_attributes : list xml :=
  [ex_qgs "name" []; ex_qgs "type" []; ex_qgs "secret" []].

(** WmsHandler examples: [round(pct / 100 * opacity)] on integers, no
    external URL rewriting, a facade group [G] with sublayers [A] and a
    nested facade [H] (itself with sublayer [B]). *)
Definition ex_round_scaled (pct opacity : Z) : Z := (pct * opacity + 50) / 100.
Definition ex_rewrite_external (layer : pystr) (params : params_t) : params_t := params.

Definition ex_wmsh_layer (opacity : Z) : wmsh_layer :=
  {| wml_opacity := Some opacity; wml_queryable := true |}.

Definition ex_wmsh_adjust : wmsh_adjust_permissions :=
  {| wa_restricted_group_layers := {[py "G" := [py "A"; py "H"]; py "H" := [py "B"]]};
     wa_permitted_layers := <[py "roads" := {| wml_opacity := None; wml_queryable := true |}]>
       (<[py "rivers" := {| wml_opacity := None; wml_queryable := false |}]>
       (<[py "A" := ex_wmsh_layer 100]> (<[py "H" := ex_wmsh_layer 50]>
       {[py "B" := ex_wmsh_layer 100]}))) |}.

Definition ex_wmsh_expand (params : params_t) (layers_param : pystr)
    : py_error + (params_t * list layer_opacity_style) :=
  wmsh_expand_group_layers ascii_space ascii_digit ex_round_scaled ex_rewrite_external
    params layers_param ex_wmsh_adjust.

Definition ex_wmsh_expanded (r : py_error + (params_t * list layer_opacity_style))
    : params_t * list layer_opacity_style :=
  match r with inr x => x | inl _ => (∅, []) end.


Definition ex_wmsh_print_permissions : wmsh_permissions :=
  {| wh_public_layers := [py "roads"; py "rivers"]; wh_internal_print_layers := [];
     wh_print_templates := [py "A4"] |}.

Definition ex_wmsh_gfi_params : params_t :=
  <[py "LAYERS" := py "roads,rivers"]> (<[py "QUERY_LAYERS" := py "roads,rivers"]> ∅).

(** WfsHandler examples: a GetFeature with TYPENAME and OUTPUTFORMAT. *)
Definition ex_wfsh_params (typename outputformat : string) : params_t :=
  <[py "TYPENAME" := py typename]> (<[py "OUTPUTFORMAT" := py outputformat]> ∅).

Definition ex_wfsh_process (request : pystr) (params : params_t)
    : py_error + (option ows_exception * params_t * option xml) :=
  wfs_process_request (fun _ => true) ascii_lower request params (ex_wfsh_layers true) None.

Definition ex_wfsh_result (r : py_error + (option ows_exception * params_t * option xml))
    : params_t * option xml :=
  match r with inr (_, p, b) => (p, b) | inl _ => (∅, None) end.

Definition ex_wmsh_legend_params : params_t := {[py "LAYER" := py "roads"]}.

Definition ex_wmsh_print_params : params_t :=
  <[py "LAYERS" := py "roads"]> {[py "TEMPLATE" := py "A4"]}.

Definition ex_wms_layer_params : params_t := {[py "LAYERS" := py "wms:topo#secret"]}.

(** Legacy group example: [G] with children [A; B] (declared top to
    bottom), hidden sublayer opacities 100 for [A] and 50 for [B]. *)
Definition ex_legacy_rgl : gmap pystr (list pystr) := {[py "G" := [py "A"; py "B"]]}.
Definition ex_legacy_hso : gmap pystr Z := <[py "A" := 100%Z]> {[py "B" := 50%Z]}.

(** An external WMS URL rewrite that, like
    [WmsHandler.__rewrite_external_wms_url], writes only the key
    [<ident>:URL] of the layer [EXTERNAL_WMS:<ident>]. *)
Definition ex_rewrite_url (layer : pystr) (params : params_t) : params_t :=
  let layer_ident := drop 13 layer in
  match params !! (layer_ident ++ py ":URL") with
  | Some _ => <[layer_ident ++ py ":URL" := py "http://qgis/x"]> params
  | None => params
  end.

(** A GetFeatureInfo on a local and an external layer. *)
Definition ex_wmsh_gfi_ext_params : params_t :=
  <[py "LAYERS" := py "roads,EXTERNAL_WMS:x"]>
    (<[py "QUERY_LAYERS" := py "roads,EXTERNAL_WMS:x"]>
    (<[py "INFO_FORMAT" := py "text/html"]>
    (<[py "x:URL" := py "http://ogc/x"]> {[py "TRANSPARENT" := py "true"]}))).

(** * Properties *)

(** ** Permission sets stay within the catalog *)

Section PermissionsCatalog.

(** The invariant of the [permitted_layers] accumulator: every key is an
    available layer and every attribute is a catalog attribute of it. *)
Definition acc_within (av : pystr -> bool) (cat : gmap pystr (list pystr))
    (acc : gmap pystr (gset pystr)) : Prop :=
  forall n s, acc !! n = Some s ->
    av n = true /\ forall a, a ∈ s -> exists c, cat !! n = Some c /\ a ∈ c.

Lemma granted_attributes_within cat n attrs attrs' :
  granted_attributes cat n attrs = inr attrs' ->
  forall a, a ∈ attrs' -> exists c, cat !! n = Some c /\ a ∈ c.
Proof.
  unfold granted_attributes. destruct attrs as [|x xs].
  - intros [= <-] a Ha. by apply elem_of_nil in Ha.
  - destruct (cat !! n) as [c|] eqn:E; [|discriminate].
    intros [= <-] a Ha. apply list_elem_of_filter in Ha as [Hc _]. eauto.
Qed.

Lemma collect_layer_grants_within av cat ls acc acc' :
  collect_layer_grants av cat ls acc = inr acc' ->
  acc_within av cat acc -> acc_within av cat acc'.
Proof.
  revert acc. induction ls as [|l ls IH]; intros acc H Hacc; simpl in H.
  - by injection H as <-.
  - destruct (av (lg_name l)) eqn:Hav; [|by eapply IH].
    destruct (granted_attributes cat (lg_name l) (lg_attributes l)) as [e|attrs] eqn:Hg;
      [discriminate|].
    eapply IH; [exact H|].
    intros n s Hn. destruct (decide (n = lg_name l)) as [->|Hne].
    + rewrite lookup_insert_eq in Hn. injection Hn as <-.
      split; [done|]. intros a Ha. apply elem_of_union in Ha as [Ha|Ha].
      * destruct (acc !! lg_name l) as [s0|] eqn:E; simpl in Ha.
        -- by apply (proj2 (Hacc _ _ E)).
        -- by apply not_elem_of_empty in Ha.
      * apply elem_of_list_to_set in Ha. by eapply granted_attributes_within.
    + rewrite lookup_insert_ne in Hn by congruence. by apply Hacc.
Qed.

Lemma wms_permitted_layers_within res grants acc tmpl acc' tmpl' :
  wms_permitted_layers res grants acc tmpl = inr (acc', tmpl') ->
  acc_within (fun n => bool_decide (n ∈ dom (res_layers res)
                 \/ n ∈ dom (res_group_layers res)
                 \/ n ∈ res_internal_print_layers res)) (res_layers res) acc ->
  acc_within (fun n => bool_decide (n ∈ dom (res_layers res)
                 \/ n ∈ dom (res_group_layers res)
                 \/ n ∈ res_internal_print_layers res)) (res_layers res) acc'.
Proof.
  revert acc tmpl. induction grants as [|g gs IH]; intros acc tmpl H Hacc; simpl in H.
  - by injection H as <- _.
  - destruct (collect_layer_grants _ _ _ _) as [e|acc1] eqn:Hc; [discriminate|].
    eapply IH; [exact H|]. by eapply collect_layer_grants_within.
Qed.

Lemma wfs_permitted_layers_within cat grants acc acc' :
  wfs_permitted_layers cat grants acc = inr acc' ->
  acc_within (fun n => bool_decide (n ∈ dom cat)) cat acc ->
  acc_within (fun n => bool_decide (n ∈ dom cat)) cat acc'.
Proof.
  revert acc. induction grants as [|g gs IH]; intros acc H Hacc; simpl in H.
  - by injection H as <-.
  - destruct (collect_layer_grants _ _ _ _) as [e|acc1] eqn:Hc; [discriminate|].
    eapply IH; [exact H|]. by eapply collect_layer_grants_within.
Qed.

Lemma acc_within_empty av cat : acc_within av cat ∅.
Proof. intros n s H. by rewrite lookup_empty in H. Qed.

End PermissionsCatalog.

Lemma oapi_collect_dom api ls acc n :
  n ∈ dom (oapi_collect api ls acc) <-> n ∈ dom acc \/ exists l, l ∈ ls /\ lg_name l = n.
Proof.
  revert acc. induction ls as [|l ls IH]; intros acc; simpl.
  - split; [by left|]. intros [H|(l & Hl & _)]; [done|by apply elem_of_nil in Hl].
  - rewrite IH, dom_insert_L, elem_of_union, elem_of_singleton. split.
    + intros [[->|H]|(l' & Hl' & <-)].
      * right. exists l. split; [left|]; done.
      * by left.
      * right. exists l'. split; [by right|done].
    + intros [H|(l' & Hl' & <-)]; [left; by right|].
      apply elem_of_cons in Hl' as [->|Hl']; [left; by left|].
      right. by exists l'.
Qed.

Lemma oapi_service_permissions_dom api grants n :
  (forall x, api <> ApiOther x) ->
  n ∈ dom (oapi_service_permissions api grants) <->
  exists g l, g ∈ grants /\ l ∈ rg_layers g /\ lg_name l = n.
Proof.
  intros Hapi. assert (Hfold : forall acc,
    n ∈ dom (foldl (fun acc g => oapi_collect api (rg_layers g) acc) acc grants) <->
    n ∈ dom acc \/ exists g l, g ∈ grants /\ l ∈ rg_layers g /\ lg_name l = n).
  { induction grants as [|g gs IH]; intros acc; simpl.
    - split; [by left|]. intros [H|(g & l & Hg & _)]; [done|by apply elem_of_nil in Hg].
    - rewrite IH, oapi_collect_dom. split.
      + intros [[H|(l & Hl & <-)]|(g' & l & Hg' & Hl & <-)]; [by left| |].
        * right. exists g, l. repeat split; [left|..]; done.
        * right. exists g', l. repeat split; [by right|done].
      + intros [H|(g' & l & Hg' & Hl & <-)]; [left; by left|].
        apply elem_of_cons in Hg' as [->|Hg'].
        * left. right. by exists l.
        * right. exists g', l. done. }
  destruct api as [| |x]; [| |by destruct (Hapi x)]; simpl;
    rewrite Hfold, dom_empty_L; (split; [intros [H|H]; [by apply not_elem_of_empty in H|done]|by right]).
Qed.

Lemma wms_service_permissions_within res grants ps :
  wms_service_permissions (Some res) grants = inr (Some ps) ->
  (forall l attrs, ps_layers ps !! l = Some attrs ->
     exists c, res_layers res !! l = Some c /\ forall a, a ∈ attrs -> a ∈ c)
  /\ (forall l, l ∈ ps_public_layers ps -> l ∈ res_public_layers res)
  /\ (forall g subs, ps_restricted_group_layers ps !! g = Some subs ->
        exists c, res_group_layers res !! g = Some c /\ forall x, x ∈ subs -> x ∈ c)
  /\ (forall l, l ∈ ps_internal_print_layers ps -> l ∈ res_internal_print_layers res)
  /\ (forall t, t ∈ ps_print_templates ps -> t ∈ res_print_templates res).
Proof.
  simpl. destruct grants as [|g gs]; [discriminate|].
  destruct (wms_permitted_layers res (g :: gs) ∅ ∅) as [e|[acc tmpl]]; [discriminate|].
  intros [= <-]; simpl. repeat split.
  - intros l attrs Hl. rewrite map_lookup_imap in Hl.
    destruct (res_layers res !! l) as [c|]; simpl in Hl; [|discriminate].
    destruct (acc !! l) as [s|]; simpl in Hl; [|discriminate].
    injection Hl as <-. exists c. split; [done|].
    intros a Ha. by apply list_elem_of_filter in Ha as [_ Ha].
  - intros l Hl. by apply list_elem_of_filter in Hl as [_ Hl].
  - intros gr subs Hg. rewrite map_lookup_imap in Hg.
    destruct (res_group_layers res !! gr) as [c|]; simpl in Hg; [|discriminate].
    destruct (bool_decide (gr ∈ dom acc)); [|discriminate].
    injection Hg as <-. exists c. split; [done|].
    intros x Hx. by apply list_elem_of_filter in Hx as [_ Hx].
  - intros l Hl. by apply list_elem_of_filter in Hl as [_ Hl].
  - intros t Ht. by apply list_elem_of_filter in Ht as [_ Ht].
Qed.

Lemma wfs_service_permissions_within cat grants ps :
  wfs_service_permissions (Some cat) grants = inr (Some ps) ->
  (forall l attrs, wps_layers ps !! l = Some attrs ->
     exists c, cat !! l = Some c /\ forall a, a ∈ attrs -> a ∈ c)
  /\ (forall l, l ∈ wps_public_layers ps -> l ∈ dom cat).
Proof.
  simpl. destruct grants as [|g gs]; [discriminate|].
  destruct (wfs_permitted_layers cat (g :: gs) ∅) as [e|acc] eqn:Hw; [discriminate|].
  intros [= <-]; simpl. split.
  - intros l attrs Hl. rewrite map_lookup_imap in Hl.
    destruct (cat !! l) as [c|]; simpl in Hl; [|discriminate].
    destruct (acc !! l) as [s|]; simpl in Hl; [|discriminate].
    injection Hl as <-. exists c. split; [done|].
    intros a Ha. by apply list_elem_of_filter in Ha as [_ Ha].
  - intros l Hl. apply list_elem_of_filter in Hl as [Hd _].
    pose proof (wfs_permitted_layers_within cat _ ∅ acc Hw (acc_within_empty _ _)) as Hin.
    apply elem_of_dom in Hd as [s Hs]. apply Hin in Hs as [Hav _].
    by apply bool_decide_eq_true in Hav.
Qed.

Lemma wms_permitted_layers_available res grants acc tmpl :
  wms_permitted_layers res grants ∅ ∅ = inr (acc, tmpl) ->
  acc_within (wms_available res) (res_layers res) acc.
Proof.
  intros H. eapply wms_permitted_layers_within; [exact H|]. apply acc_within_empty.
Qed.

(** Claim C1 (amended). For WMS and WFS ([OGCService.service_permissions])
    every layer of the [permitted_layers] accumulator is an available
    catalog layer and its attributes are catalog attributes of that layer;
    the returned per-layer attribute lists, public layers, restricted
    groups, internal print layers and print templates all come from the
    catalog. For the OGC API ([OGCAPIService.service_permissions]) the
    permitted layers are exactly the layers named by the grants, whether or
    not the catalog has them. *)
Theorem permission_sets_within_catalog :
  (forall res grants ps acc tmpl,
     wms_service_permissions (Some res) grants = inr (Some ps) ->
     wms_permitted_layers res grants ∅ ∅ = inr (acc, tmpl) ->
     acc_within (wms_available res) (res_layers res) acc /\ wms_within_catalog res ps)
  /\ (forall cat grants ps acc,
     wfs_service_permissions (Some cat) grants = inr (Some ps) ->
     wfs_permitted_layers cat grants ∅ = inr acc ->
     acc_within (fun n => bool_decide (n ∈ dom cat)) cat acc
     /\ (forall l attrs, wps_layers ps !! l = Some attrs ->
           exists c, cat !! l = Some c /\ forall a, a ∈ attrs -> a ∈ c)
     /\ (forall l, l ∈ wps_public_layers ps -> l ∈ dom cat))
  /\ (forall grants n,
     n ∈ dom (oapi_service_permissions ApiFeatures grants) <->
     exists g l, g ∈ grants /\ l ∈ rg_layers g /\ lg_name l = n).
Proof.
  split; [|split].
  - intros res grants ps acc tmpl Hps Hacc. split.
    + by eapply wms_permitted_layers_available.
    + by apply wms_service_permissions_within with grants.
  - intros cat grants ps acc Hps Hacc. split.
    + eapply wfs_permitted_layers_within; [exact Hacc|apply acc_within_empty].
    + by apply wfs_service_permissions_within with grants.
  - intros grants n. apply oapi_service_permissions_dom. discriminate.
Qed.

Lemma permission_sets_within_catalog_witness :
  (wms_service_permissions (Some ex_wms_res) ex_grants = inr (Some ex_wms_ps)
   /\ acc_within (wms_available ex_wms_res) (res_layers ex_wms_res) (fst ex_wms_acc)
   /\ wms_within_catalog ex_wms_res ex_wms_ps)
  /\ (wfs_service_permissions (Some ex_wfs_cat) ex_grants = inr (Some ex_wfs_ps)
   /\ acc_within (fun n => bool_decide (n ∈ dom ex_wfs_cat)) ex_wfs_cat ex_wfs_acc
   /\ (forall l attrs, wps_layers ex_wfs_ps !! l = Some attrs ->
         exists c, ex_wfs_cat !! l = Some c /\ forall a, a ∈ attrs -> a ∈ c)
   /\ (forall l, l ∈ wps_public_layers ex_wfs_ps -> l ∈ dom ex_wfs_cat)).
Proof.
  split.
  - split; [vm_compute; reflexivity|].
    apply (proj1 permission_sets_within_catalog ex_wms_res ex_grants ex_wms_ps
             (fst ex_wms_acc) (snd ex_wms_acc)).
    + vm_compute. reflexivity.
    + vm_compute. reflexivity.
  - split; [vm_compute; reflexivity|].
    apply (proj1 (proj2 permission_sets_within_catalog) ex_wfs_cat ex_grants ex_wfs_ps
             ex_wfs_acc).
    + vm_compute. reflexivity.
    + vm_compute. reflexivity.
Defined.

(** Claim C1, counterexample: an OGC API Features permission set holds a
    layer ["ghost"] that the service's catalog does not contain. *)
Lemma oapi_permissions_outside_catalog :
  py "ghost" ∈ dom (oapi_service_permissions ApiFeatures ex_grants)
  /\ py "ghost" ∉ dom (collect_resource_layers [ex_leaf "roads" ["name"; "type"] None]).
Proof. split; apply (bool_decide_unpack _); vm_compute; reflexivity. Qed.

(** ** Name cleaning *)

Section CleaningProps.
Context (is_word : N -> bool).

Lemma replace_char_id a b (s : pystr) :
  Forall (fun c => c <> a) s -> replace_char a b s = s.
Proof.
  unfold replace_char. induction 1 as [|c s Hc _ IH]; [done|]; simpl.
  rewrite IH. by destruct (N.eqb_spec c a).
Qed.

Lemma filter_all_kept (s : pystr) :
  Forall (fun c => kept_char is_word c = true) s ->
  filter (fun c => kept_char is_word c = true) s = s.
Proof.
  induction 1 as [|c s Hc _ IH]; [done|].
  rewrite filter_cons_True by done. by f_equal.
Qed.

Lemma clean_attribute_chars (x : pystr) :
  Forall (fun c => kept_char is_word c = true /\ c <> chr_space)
    (wfs_clean_attribute_name is_word x).
Proof.
  unfold wfs_clean_attribute_name. apply Forall_forall. intros c Hc.
  apply list_elem_of_filter in Hc as [Hk Hc]. split; [done|].
  unfold replace_char in Hc. apply list_elem_of_fmap in Hc as (c0 & -> & _).
  destruct (N.eqb_spec c0 chr_space); [discriminate|done].
Qed.

End CleaningProps.

(** Claim C9. [wfs_clean_layer_name] and [wfs_clean_attribute_name] are
    idempotent, and both are the identity on a name made only of word
    characters, dots, dashes and underscores. The Unicode class [\w] is
    any [is_word] that, as in Python, contains neither the space nor the
    colon. *)
Theorem wfs_clean_names_idempotent (is_word : N -> bool)
    (Hspace : is_word chr_space = false) (Hcolon : is_word chr_colon = false) :
  (forall x, wfs_clean_layer_name (wfs_clean_layer_name x) = wfs_clean_layer_name x)
  /\ (forall x, wfs_clean_attribute_name is_word (wfs_clean_attribute_name is_word x)
                = wfs_clean_attribute_name is_word x)
  /\ (forall x, Forall (fun c => kept_char is_word c = true) x ->
        wfs_clean_layer_name x = x /\ wfs_clean_attribute_name is_word x = x).
Proof.
  assert (Hns : forall c, kept_char is_word c = true -> c <> chr_space /\ c <> chr_colon).
  { intros c Hc. unfold kept_char in Hc.
    split; intros ->; [rewrite Hspace in Hc|rewrite Hcolon in Hc]; vm_compute in Hc; discriminate. }
  split; [|split].
  - intros x. unfold wfs_clean_layer_name, replace_char. rewrite !map_map.
    apply map_ext. intros c.
    destruct (N.eqb_spec c chr_space) as [->|Hs]; [reflexivity|].
    destruct (N.eqb_spec c chr_colon) as [->|Hc]; [reflexivity|].
    apply N.eqb_neq in Hs, Hc. rewrite ?Hs, ?Hc. simpl. rewrite ?Hs, ?Hc. reflexivity.
  - intros x. pose proof (clean_attribute_chars is_word x) as Hx.
    unfold wfs_clean_attribute_name at 1. rewrite replace_char_id.
    + apply filter_all_kept. eapply Forall_impl; [exact Hx|]. by intros c [? _].
    + eapply Forall_impl; [exact Hx|]. by intros c [_ ?].
  - intros x Hx. unfold wfs_clean_layer_name, wfs_clean_attribute_name.
    assert (Hsp : Forall (fun c => c <> chr_space) x).
    { eapply Forall_impl; [exact Hx|]. intros c Hc. by apply Hns. }
    assert (Hco : Forall (fun c => c <> chr_colon) x).
    { eapply Forall_impl; [exact Hx|]. intros c Hc. by apply Hns. }
    rewrite (replace_char_id _ _ x Hsp), (replace_char_id _ _ x Hco).
    split; [done|]. by apply filter_all_kept.
Qed.

Lemma wfs_clean_names_idempotent_witness :
  ascii_word chr_space = false /\ ascii_word chr_colon = false
  /\ wfs_clean_layer_name (wfs_clean_layer_name (py "OV: Haltestellen"))
     = wfs_clean_layer_name (py "OV: Haltestellen")
  /\ wfs_clean_attribute_name ascii_word
       (wfs_clean_attribute_name ascii_word (py "eingefuehrt am (Jahr)"))
     = wfs_clean_attribute_name ascii_word (py "eingefuehrt am (Jahr)").
Proof.
  assert (H1 : ascii_word chr_space = false) by reflexivity.
  assert (H2 : ascii_word chr_colon = false) by reflexivity.
  split; [done|]. split; [done|].
  destruct (wfs_clean_names_idempotent ascii_word H1 H2) as (Hl & Ha & _).
  split; [apply Hl|apply Ha].
Defined.

(** ** WFS version *)





(** ** Backend errors *)

(** Claim C8: when the backend answers with a status outside 2xx,
    [forward_request] returns the ServiceExceptionReport with code
    UnknownError and the fixed internal-error message, with the backend's
    status; the client response is the same for all backend bodies and
    content types, and the backend body goes to the server log only. *)
Theorem backend_error_hidden (filter_ok : backend_response -> client_response)
  (r1 r2 : backend_response)
  (Hstatus : ~ (200 <= br_status r1 < 300)%Z)
  (Hsame : br_status r1 = br_status r2) :
  cr_body (forward_response filter_ok r1).1
    = service_exception (py "UnknownError") unknown_error_message
  /\ cr_content_type (forward_response filter_ok r1).1 = py "text/xml; charset=utf-8"
  /\ cr_status (forward_response filter_ok r1).1 = br_status r1
  /\ (forward_response filter_ok r1).1 = (forward_response filter_ok r2).1
  /\ (forward_response filter_ok r1).2
       = [py "Internal Server Error:" ++ nl ++ nl ++ br_text r1].
Proof.
  unfold forward_response. rewrite <- Hsame.
  assert (Hne : Z.eqb (br_status r1) 200 = false) by (apply Z.eqb_neq; lia).
  rewrite Hne. simpl. repeat split.
Qed.

Lemma backend_error_hidden_witness :
  let r1 := {| br_status := 500; br_text := py "Traceback: secret path";
               br_content_type := py "text/plain" |} in
  let r2 := {| br_status := 500; br_text := [];
               br_content_type := py "text/html" |} in
  ~ (200 <= br_status r1 < 300)%Z /\ br_status r1 = br_status r2
  /\ (forward_response (fun _ => {| cr_body := []; cr_content_type := [];
                                   cr_status := 200 |}) r1).1
     = (forward_response (fun _ => {| cr_body := []; cr_content_type := [];
                                     cr_status := 200 |}) r2).1.
Proof.
  intros r1 r2. split; [simpl; lia|]. split; [reflexivity|].
  exact (proj1 (proj2 (proj2 (proj2 (backend_error_hidden _ r1 r2
           ltac:(simpl; lia) eq_refl))))).
Defined.

(** ** GetMap opacities *)

Lemma split_on_nonempty sep s : split_on sep s <> [].
Proof.
  destruct s as [|c rest]; simpl; [discriminate|].
  destruct (N.eqb c sep); [discriminate|].
  destruct (split_on sep rest); discriminate.
Qed.





(** ** Group expansion *)

Lemma expand_cons fuel lo rest rgl hso :
  expand_group_layers_opacities_styles (S fuel) (lo :: rest) rgl hso =
    e ← expand_group_layers_opacities_styles (S fuel) [lo] rgl hso;
    r ← expand_group_layers_opacities_styles (S fuel) rest rgl hso;
    Some (e ++ r).
Proof.
  simpl. destruct (rgl !! lo_layer lo) as [subs|].
  - destruct (expand_group_layers_opacities_styles fuel _ rgl hso) as [e|]; [|reflexivity].
    simpl. destruct (_ rest) as [r|]; simpl; [rewrite app_nil_r|]; reflexivity.
  - destruct (_ rest) as [r|]; reflexivity.
Qed.

(** Counterexample to claim C2, on both cited implementations. The legacy
    [expand_group_layers_and_opacities] truncates the child opacity: [G]
    at opacity 127 with child [A] (50 %) gives [int(63.5) = 63], while
    [round(127 * 50 / 100) = 64]. [WmsHandler.__expand_restricted_group]
    keeps the declaration order: [G] with children [A] (100 %) and [B]
    (50 %) requested at opacity 200 gives [A] then [B], whatever the
    rounding, and a facade nested in a facade raises AttributeError. *)
Lemma group_child_opacity_truncated :
  Legacy.expand_group_layers_and_opacities recursion_limit
    [{| Legacy.lop_layer := py "G"; Legacy.lop_opacity := 127 |}]
    {[py "G" := [py "A"]]} {[py "A" := 50%Z]}
    = Some [{| Legacy.lop_layer := py "A"; Legacy.lop_opacity := 63 |}]
  /\ round_half_even_div (127 * 50) 100 = 64%Z
  /\ (forall round_scaled : Z -> Z -> Z,
        wmsh_expand_group_layers ascii_space ascii_digit round_scaled ex_rewrite_external
          (<[py "LAYERS" := py "G"]> {[py "OPACITIES" := py "200"]}) (py "LAYERS")
          {| wa_restricted_group_layers := {[py "G" := [py "A"; py "B"]]};
             wa_permitted_layers := <[py "A" := ex_wmsh_layer 100]>
                                      {[py "B" := ex_wmsh_layer 50]} |}
        = inr (<[py "LAYERS" := py "G"]> {[py "OPACITIES" := py "200"]},
               [{| lo_layer := py "A"; lo_opacity := round_scaled 100%Z 200%Z; lo_style := [] |};
                {| lo_layer := py "B"; lo_opacity := round_scaled 50%Z 200%Z; lo_style := [] |}]))
  /\ ex_wmsh_expand {[py "LAYERS" := py "G"]} (py "LAYERS") = inl no_expand_restricted_group.
Proof.
  split; [vm_compute; reflexivity|]. split; [vm_compute; reflexivity|].
  split; [|vm_compute; reflexivity].
  intros round_scaled. vm_compute. reflexivity.
Qed.

(** Claim C2, what the cited code does. The legacy
    [expand_group_layers_and_opacities] gives the claim's result on its
    example, [B] at 100 then [A] at 200; it replaces an entry whose layer
    is a restricted group by the expansion of its children in reverse
    declaration order, each child with the truncated
    [int(opacity * pct / 100)] when it is a hidden sublayer with a
    recorded opacity [pct] and the group's opacity otherwise; other
    entries are kept, and the entries are expanded one by one, in order.
    [WmsHandler.__expand_restricted_group] gives the children that are not
    facades themselves in declaration order, each with
    [round(pct / 100 * opacity)] of its catalog opacity [pct] and an empty
    style. *)
Theorem group_expansion_legacy :
  Legacy.expand_group_layers_and_opacities recursion_limit
    [{| Legacy.lop_layer := py "G"; Legacy.lop_opacity := 200 |}] ex_legacy_rgl ex_legacy_hso
    = Some [{| Legacy.lop_layer := py "B"; Legacy.lop_opacity := 100 |};
            {| Legacy.lop_layer := py "A"; Legacy.lop_opacity := 200 |}]
  /\ (forall fuel g opacity rest rgl hso subs,
        rgl !! g = Some subs ->
        Legacy.expand_group_layers_and_opacities (S fuel)
          ({| Legacy.lop_layer := g; Legacy.lop_opacity := opacity |} :: rest) rgl hso =
        e ← Legacy.expand_group_layers_and_opacities fuel
              (map (fun s =>
                 {| Legacy.lop_layer := s;
                    Legacy.lop_opacity := match hso !! s with
                                          | Some pct => Z.quot (opacity * pct) 100
                                          | None => opacity
                                          end |}) (rev subs)) rgl hso;
        r ← Legacy.expand_group_layers_and_opacities (S fuel) rest rgl hso;
        Some (e ++ r))
  /\ (forall fuel lo rest rgl hso,
        rgl !! Legacy.lop_layer lo = None ->
        Legacy.expand_group_layers_and_opacities (S fuel) (lo :: rest) rgl hso =
        r ← Legacy.expand_group_layers_and_opacities (S fuel) rest rgl hso;
        Some (lo :: r))
  /\ (forall (round_scaled : Z -> Z -> Z) adjust layers opacity (pct : pystr -> Z),
        Forall (fun l => (exists pl, wa_permitted_layers adjust !! l = Some pl
                                     /\ wml_opacity pl = Some (pct l))
                         /\ default [] (wa_restricted_group_layers adjust !! l) = []) layers ->
        wmsh_expand_restricted_group round_scaled layers opacity adjust =
        inr (map (fun l => {| lo_layer := l; lo_opacity := round_scaled (pct l) opacity;
                              lo_style := [] |}) layers)).
Proof.
  split; [vm_compute; reflexivity|].
  split; [|split].
  - intros fuel g opacity rest rgl hso subs Hg. cbn [Legacy.expand_group_layers_and_opacities].
    cbn [Legacy.lop_layer Legacy.lop_opacity]. rewrite Hg. reflexivity.
  - intros fuel [l o] rest rgl hso Hl. cbn [Legacy.expand_group_layers_and_opacities].
    cbn [Legacy.lop_layer] in Hl |- *. rewrite Hl. reflexivity.
  - intros round_scaled adjust layers opacity pct.
    induction 1 as [|l ls [[pl [Hpl Hpct]] Hf] _ IH]; [reflexivity|].
    simpl. rewrite Hpl, Hpct.
    destruct (wa_restricted_group_layers adjust !! l) as [[|s ss]|];
      [| discriminate Hf |]; rewrite IH; reflexivity.
Qed.

Lemma group_expansion_legacy_witness :
  ex_legacy_rgl !! py "G" = Some [py "A"; py "B"]
  /\ Legacy.expand_group_layers_and_opacities 2
       [{| Legacy.lop_layer := py "G"; Legacy.lop_opacity := 127 |}] ex_legacy_rgl ex_legacy_hso
     = Some [{| Legacy.lop_layer := py "B"; Legacy.lop_opacity := 63 |};
             {| Legacy.lop_layer := py "A"; Legacy.lop_opacity := 127 |}]
  /\ wmsh_expand_restricted_group ex_round_scaled [py "B"] 127 ex_wmsh_adjust
     = inr [{| lo_layer := py "B"; lo_opacity := 127; lo_style := [] |}].
Proof.
  assert (Hg : ex_legacy_rgl !! py "G" = Some [py "A"; py "B"]) by (vm_compute; reflexivity).
  split; [exact Hg|]. split.
  - rewrite (proj1 (proj2 group_expansion_legacy) 1%nat _ 127%Z [] _ ex_legacy_hso _ Hg).
    vm_compute. reflexivity.
  - assert (Hb : Forall (fun l => (exists pl, wa_permitted_layers ex_wmsh_adjust !! l = Some pl
                                       /\ wml_opacity pl = Some 100%Z)
                         /\ default [] (wa_restricted_group_layers ex_wmsh_adjust !! l) = [])
                  [py "B"]).
    { constructor; [|constructor]. split.
      - exists (ex_wmsh_layer 100). split; vm_compute; reflexivity.
      - vm_compute. reflexivity. }
    rewrite (proj2 (proj2 (proj2 group_expansion_legacy)) ex_round_scaled ex_wmsh_adjust
               [py "B"] 127%Z (fun _ => 100%Z) Hb).
    reflexivity.
Defined.

(** ** GetFeatureInfo checks *)

(** Counterexample to claim C5: the LAYERS permission check comes first, so
    a request naming a layer that is not permitted gets LayerNotDefined
    although QUERY_LAYERS differs from LAYERS; and the QUERY_LAYERS check
    comes before the format check, so a GML INFO_FORMAT with differing
    QUERY_LAYERS gets InvalidParameterValue, not InvalidFormat. *)
Lemma getfeatureinfo_other_exception_first :
  fst <$> wms_process_request_check (fun _ => []) (py "GETFEATUREINFO")
            (ex_gfi_params "secret" "roads" "text/html") ex_wmsh_permissions
    = Some (py "LayerNotDefined")
  /\ fst <$> wms_process_request_check (fun _ => []) (py "GETFEATUREINFO")
               (ex_gfi_params "roads" "rivers" "application/vnd.ogc.gml/3.1.1")
               ex_wmsh_permissions
       = Some (py "InvalidParameterValue").
Proof. split; vm_compute; reflexivity. Qed.

(** Claim C5 (amended): for a GETFEATUREINFO request whose LAYERS pass the
    permission check, a QUERY_LAYERS different from LAYERS gives
    InvalidParameterValue; otherwise an INFO_FORMAT that is none of
    text/plain, text/html, text/xml (every GML format
    application/vnd.ogc.gml... among them) gives InvalidFormat. A
    GETFEATUREINFO request that passes all checks has QUERY_LAYERS equal
    to LAYERS and one of the three formats (text/plain when absent). *)
Theorem getfeatureinfo_checks (get_map_param_prefix : params_t -> pystr) :
  (forall params permissions,
     wms_check_layers get_map_param_prefix (py "GETFEATUREINFO") params permissions = None ->
     (params !! py "LAYERS" <> params !! py "QUERY_LAYERS" ->
        exists msg, wms_process_request_check get_map_param_prefix (py "GETFEATUREINFO")
                      params permissions = Some (py "InvalidParameterValue", msg))
     /\ (forall f, params !! py "LAYERS" = params !! py "QUERY_LAYERS" ->
           params !! py "INFO_FORMAT" = Some f -> f ∉ info_formats ->
           exists msg, wms_process_request_check get_map_param_prefix (py "GETFEATUREINFO")
                         params permissions = Some (py "InvalidFormat", msg))
     /\ (forall rest, params !! py "LAYERS" = params !! py "QUERY_LAYERS" ->
           params !! py "INFO_FORMAT" = Some (py "application/vnd.ogc.gml" ++ rest) ->
           exists msg, wms_process_request_check get_map_param_prefix (py "GETFEATUREINFO")
                         params permissions = Some (py "InvalidFormat", msg)))
  /\ (forall params permissions,
        wms_process_request_check get_map_param_prefix (py "GETFEATUREINFO")
          params permissions = None ->
        params !! py "LAYERS" = params !! py "QUERY_LAYERS"
        /\ default (py "text/plain") (params !! py "INFO_FORMAT") ∈ info_formats).
Proof.
  assert (Hformat : forall params permissions f,
     wms_check_layers get_map_param_prefix (py "GETFEATUREINFO") params permissions = None ->
     params !! py "LAYERS" = params !! py "QUERY_LAYERS" ->
     params !! py "INFO_FORMAT" = Some f -> f ∉ info_formats ->
     exists msg, wms_process_request_check get_map_param_prefix (py "GETFEATUREINFO")
                   params permissions = Some (py "InvalidFormat", msg)).
  { intros params permissions f Hl Heq Hf Hnot.
    unfold wms_process_request_check. rewrite Hl.
    rewrite bool_decide_true by reflexivity.
    rewrite bool_decide_false by (intros Hne; exact (Hne Heq)).
    rewrite Hf. simpl default. rewrite bool_decide_false by exact Hnot.
    eexists. reflexivity. }
  split.
  - intros params permissions Hl. split; [|split].
    + intros Hne. unfold wms_process_request_check. rewrite Hl.
      rewrite bool_decide_true by reflexivity.
      rewrite bool_decide_true by exact Hne.
      eexists. reflexivity.
    + intros f. apply Hformat. exact Hl.
    + intros rest Heq Hf. apply (Hformat _ _ _ Hl Heq Hf).
      unfold info_formats. simpl.
      intros Hin. repeat (apply elem_of_cons in Hin as [Hin|Hin]; [discriminate|]).
      apply elem_of_nil in Hin. exact Hin.
  - intros params permissions Hok. unfold wms_process_request_check in Hok.
    destruct (wms_check_layers _ _ _ _); [discriminate|].
    rewrite bool_decide_true in Hok by reflexivity.
    destruct (bool_decide_reflect (params !! py "LAYERS" <> params !! py "QUERY_LAYERS"))
      as [_|Heq]; [discriminate|].
    split; [destruct (decide (params !! py "LAYERS" = params !! py "QUERY_LAYERS"));
              [assumption|contradiction]|].
    destruct (bool_decide_reflect (default (py "text/plain") (params !! py "INFO_FORMAT")
                                     ∈ info_formats)) as [Hin|]; [exact Hin|discriminate].
Qed.

Lemma getfeatureinfo_checks_witness :
  wms_check_layers (fun _ => []) (py "GETFEATUREINFO")
    (ex_gfi_params "roads" "roads" "application/vnd.ogc.gml/3.1.1") ex_wmsh_permissions = None
  /\ exists msg, wms_process_request_check (fun _ => []) (py "GETFEATUREINFO")
       (ex_gfi_params "roads" "roads" "application/vnd.ogc.gml/3.1.1") ex_wmsh_permissions
       = Some (py "InvalidFormat", msg).
Proof.
  assert (Hl : wms_check_layers (fun _ => []) (py "GETFEATUREINFO")
    (ex_gfi_params "roads" "roads" "application/vnd.ogc.gml/3.1.1") ex_wmsh_permissions = None)
    by (vm_compute; reflexivity).
  split; [exact Hl|].
  exact (proj2 (proj2 (proj1 (getfeatureinfo_checks (fun _ => [])) _ _ Hl))
           (py "/3.1.1") ltac:(vm_compute; reflexivity) ltac:(vm_compute; reflexivity)).
Defined.

(** ** WFS Transaction checks *)

Lemma list_in_here {A} (x : A) (l : list A) : x ∈ x :: l.
Proof. apply elem_of_cons. by left. Qed.

Lemma list_in_further {A} (x y : A) (l : list A) : x ∈ l -> x ∈ y :: l.
Proof. intros H. apply elem_of_cons. by right. Qed.

Section ForChildren.
Implicit Types (f : xml -> outcome (option xml)) (cs : list xml).

Lemma for_children_ok f cs :
  (forall c, c ∈ cs -> ok_or_forbidden (f c)) -> ok_or_forbidden (for_children f cs).
Proof.
  induction cs as [|c rest IH]; intros H; simpl; [exact I|].
  specialize (H c (list_in_here _ _)) as Hc.
  destruct (f c); simpl in *; try done.
  assert (Hr : ok_or_forbidden (for_children f rest)).
  { apply IH. intros x Hx. apply H. by apply list_in_further. }
  destruct (for_children f rest); simpl in *; done.
Qed.

Lemma for_children_forbidden f cs :
  (forall c, c ∈ cs -> ok_or_forbidden (f c)) ->
  (exists c, c ∈ cs /\ is_return (f c)) ->
  exists msg, for_children f cs = Return (py "Forbidden", msg).
Proof.
  induction cs as [|c rest IH]; intros H [x [Hx Hret]].
  - by apply elem_of_nil in Hx.
  - simpl. specialize (H c (list_in_here _ _)) as Hc.
    destruct (f c) as [e|[code msg]|o] eqn:Hfc; simpl in *; [done| |].
    + subst code. by exists msg.
    + apply elem_of_cons in Hx as [->|Hx]; [by rewrite Hfc in Hret|].
      destruct IH as [msg Hm].
      * intros y Hy. apply H. by apply list_in_further.
      * by exists x.
      * rewrite Hm. by exists msg.
Qed.

Lemma for_children_continue_inv f cs cs' :
  for_children f cs = Continue cs' ->
  (forall c, c ∈ cs -> exists o, f c = Continue o)
  /\ cs' = omap (fun c => continued (f c)) cs.
Proof.
  revert cs'. induction cs as [|c rest IH]; intros cs' H; simpl in H.
  - injection H as <-. split; [intros c Hc; by apply elem_of_nil in Hc | done].
  - destruct (f c) as [e|r|o] eqn:Hfc; simpl in H; try discriminate.
    destruct (for_children f rest) as [e|r|rs] eqn:Hr; simpl in H; try discriminate.
    injection H as <-. destruct (IH rs eq_refl) as [Hall ->]. split.
    + intros x Hx. apply elem_of_cons in Hx as [->|Hx]; [by exists o|by apply Hall].
    + simpl. rewrite Hfc. simpl. by destruct o.
Qed.

Lemma for_children_continue f cs :
  (forall c, c ∈ cs -> exists o, f c = Continue o) ->
  for_children f cs = Continue (omap (fun c => continued (f c)) cs).
Proof.
  induction cs as [|c rest IH]; intros H; simpl; [done|].
  destruct (H c (list_in_here _ _)) as [o Ho]. rewrite Ho. simpl.
  rewrite IH; [simpl; by destruct o|].
  intros x Hx. apply H. by apply list_in_further.
Qed.

End ForChildren.

Lemma omap_cons_eq {A B} (g : A -> option B) (x : A) (l : list A) :
  omap g (x :: l) = match g x with Some y => y :: omap g l | None => omap g l end.
Proof. reflexivity. Qed.

Lemma omap_keep_tag (g : xml -> option xml) (T U : pystr) (l : list xml) :
  T <> U ->
  (forall x, x ∈ l -> x_tag x <> T -> g x = Some x) ->
  (forall x y, x ∈ l -> x_tag x = T -> g x = Some y -> x_tag y = T) ->
  filter (has_tag U) (omap g l) = filter (has_tag U) l.
Proof.
  intros HTU. induction l as [|x l IH]; intros Hkeep Htag; [done|].
  assert (IH' : filter (has_tag U) (omap g l) = filter (has_tag U) l).
  { apply IH; [intros y Hy; apply Hkeep|intros y z Hy; apply Htag];
      by apply list_in_further. }
  rewrite omap_cons_eq.
  destruct (decide (x_tag x = T)) as [HT|HT].
  - assert (Hx : ~ has_tag U x) by (unfold has_tag; congruence).
    rewrite filter_cons, (decide_False _ _ Hx).
    destruct (g x) as [y|] eqn:Hg; [|exact IH'].
    assert (Hy : ~ has_tag U y)
      by (unfold has_tag; rewrite (Htag x y (list_in_here _ _) HT Hg); congruence).
    rewrite filter_cons, (decide_False _ _ Hy).
    exact IH'.
  - rewrite (Hkeep x (list_in_here _ _) HT). cbv beta iota.
    rewrite !filter_cons, IH'. done.
Qed.

Lemma omap_same_tag (g : xml -> option xml) (T : pystr) (l : list xml) :
  (forall x, x ∈ l -> x_tag x <> T -> g x = Some x) ->
  (forall x y, x ∈ l -> x_tag x = T -> g x = Some y -> x_tag y = T) ->
  filter (has_tag T) (omap g l) = omap g (filter (has_tag T) l).
Proof.
  induction l as [|x l IH]; intros Hkeep Htag; [done|].
  assert (IH' : filter (has_tag T) (omap g l) = omap g (filter (has_tag T) l)).
  { apply IH; [intros y Hy; apply Hkeep|intros y z Hy; apply Htag];
      by apply list_in_further. }
  rewrite omap_cons_eq, (filter_cons (has_tag T) x l).
  destruct (decide (has_tag T x)) as [HT|HT].
  - rewrite omap_cons_eq. destruct (g x) as [y|] eqn:Hg; [|exact IH'].
    rewrite filter_cons,
      (decide_True _ _ (Htag x y (list_in_here _ _) HT Hg : has_tag T y)).
    by rewrite IH'.
  - rewrite (Hkeep x (list_in_here _ _) HT). cbv beta iota.
    rewrite filter_cons, (decide_False _ _ HT). exact IH'.
Qed.

Lemma omap_names {A} (g : A -> option A) (name : A -> pystr) (P : pystr -> Prop)
    `{forall t, Decision (P t)} (l : list A) :
  (forall x, x ∈ l -> match g x with
                      | None => ~ P (name x)
                      | Some y => P (name x) /\ name y = name x
                      end) ->
  map name (omap g l) = filter P (map name l).
Proof.
  induction l as [|x l IH]; intros Hg; [done|].
  specialize (Hg x (list_in_here _ _)) as Hx.
  assert (IH' : map name (omap g l) = filter P (map name l)).
  { apply IH. intros y Hy. apply Hg. by apply list_in_further. }
  rewrite omap_cons_eq. cbn [map]. rewrite filter_cons.
  destruct (g x) as [y|].
  - destruct Hx as [HP Hn]. rewrite decide_True by exact HP. simpl. by rewrite Hn, IH'.
  - rewrite decide_False by exact Hx. exact IH'.
Qed.

Lemma bind_ok {A B} (m : outcome A) (k : A -> outcome B) :
  ok_or_forbidden m -> (forall a, ok_or_forbidden (k a)) -> ok_or_forbidden (m ≫= k).
Proof. destruct m; simpl; auto. Qed.

Lemma continued_some {A} (o : outcome (option A)) y :
  continued o = Some y -> o = Continue (Some y).
Proof. destruct o as [| |[]]; simpl; congruence. Qed.

Lemma in_flat_map_children f cs :
  f ∈ flat_map x_children cs -> exists el, el ∈ cs /\ f ∈ x_children el.
Proof.
  induction cs as [|c rest IH]; simpl; [by intros ?%elem_of_nil|].
  intros [Hf|Hf]%elem_of_app; [by exists c; split; [apply list_in_here|]|].
  destruct (IH Hf) as [el [Hel Hf']]. exists el. split; [by apply list_in_further|done].
Qed.

Section TransactionProofs.
Context (is_word : N -> bool) (pl : gmap pystr wfsh_layer).

Lemma check_insert_feature_cases f :
  (exists p msg, pl !! tx_typename f = Some p /\ wl_creatable p = false
     /\ check_insert_feature is_word pl f = Return (py "Forbidden", msg))
  \/ (pl !! tx_typename f = None /\ check_insert_feature is_word pl f = Continue None)
  \/ (exists p f', pl !! tx_typename f = Some p /\ wl_creatable p = true
        /\ check_insert_feature is_word pl f = Continue (Some f') /\ x_tag f' = x_tag f).
Proof.
  unfold check_insert_feature. destruct (pl !! tx_typename f) as [p|] eqn:Hp.
  - destruct (wl_creatable p) eqn:Hc; simpl.
    + right; right. rewrite for_children_continue.
      * simpl. eexists p, _. split; [done|]. split; [done|]. split; [reflexivity|].
        by destruct f.
      * intros c _. case_bool_decide; eauto.
    + left. eexists p, _. split; [done|]. split; [done|]. reflexivity.
  - right; left. done.
Qed.

Lemma check_insert_feature_ok f : ok_or_forbidden (check_insert_feature is_word pl f).
Proof.
  destruct (check_insert_feature_cases f)
    as [(p & msg & _ & _ & ->)|[(_ & ->)|(p & f' & _ & _ & -> & _)]]; done.
Qed.

Lemma check_insert_ok el : ok_or_forbidden (check_insert is_word pl el).
Proof.
  unfold check_insert. case_bool_decide; [|exact I].
  apply bind_ok; [|intros; exact I].
  apply for_children_ok. intros c _. apply check_insert_feature_ok.
Qed.

Lemma check_insert_shape el y :
  check_insert is_word pl el = Continue (Some y) ->
  (x_tag el <> wfs_Insert -> y = el) /\ (x_tag el = wfs_Insert -> x_tag y = wfs_Insert).
Proof.
  unfold check_insert. case_bool_decide as HI.
  - destruct (for_children _ _) as [| |cs]; simpl; try discriminate.
    intros [= <-]. split; [done|]. intros _. by destruct el.
  - intros [= <-]. done.
Qed.

Lemma check_update_shape el y :
  check_update is_word pl el = Continue (Some y) ->
  (x_tag el <> wfs_Update -> y = el)
  /\ (x_tag el = wfs_Update -> x_tag y = wfs_Update /\ x_attrib y = x_attrib el).
Proof.
  unfold check_update. case_bool_decide as HU.
  - destruct (xml_get _ el) as [tn|]; [|discriminate].
    destruct (pl !! _) as [p|]; [|discriminate].
    destruct (wl_updatable p); simpl; [|discriminate].
    destruct (for_children _ _) as [| |cs]; simpl; try discriminate.
    intros [= <-]. split; [done|]. intros _. by destruct el.
  - intros [= <-]. done.
Qed.

Lemma check_delete_shape el y :
  check_delete pl el = Continue (Some y) -> y = el.
Proof.
  unfold check_delete. case_bool_decide as HD.
  - destruct (xml_get _ el) as [tn|]; [|discriminate].
    destruct (pl !! _) as [p|]; [|discriminate].
    destruct (wl_deletable p); simpl; [|discriminate]. by intros [= <-].
  - by intros [= <-].
Qed.

End TransactionProofs.

Section TransactionPhases.
Context (is_word : N -> bool) (pl : gmap pystr wfsh_layer).

Lemma check_update_other el :
  x_tag el <> wfs_Update -> check_update is_word pl el = Continue (Some el).
Proof. intros H. unfold check_update. by rewrite bool_decide_false by exact H. Qed.

Lemma check_delete_other el :
  x_tag el <> wfs_Delete -> check_delete pl el = Continue (Some el).
Proof. intros H. unfold check_delete. by rewrite bool_decide_false by exact H. Qed.

Lemma check_insert_other el :
  x_tag el <> wfs_Insert -> check_insert is_word pl el = Continue (Some el).
Proof. intros H. unfold check_insert. by rewrite bool_decide_false by exact H. Qed.

Lemma check_update_cases el :
  x_tag el = wfs_Update ->
  is_Some (xml_get (py "typeName") el) ->
  (forall pe, pe ∈ x_children el -> x_tag pe = wfs_Property ->
     exists ne, xml_find wfs_Name pe = Some ne /\ is_Some (x_text ne)) ->
  (exists p msg, pl !! op_typename el = Some p /\ wl_updatable p = false
     /\ check_update is_word pl el = Return (py "Forbidden", msg))
  \/ (pl !! op_typename el = None /\ check_update is_word pl el = Continue None)
  \/ (exists p y, pl !! op_typename el = Some p /\ wl_updatable p = true
        /\ check_update is_word pl el = Continue (Some y)).
Proof.
  intros HU [tn Htn] Hprops.
  assert (Hname : op_typename el = wfs_clean_layer_name tn)
    by (unfold op_typename; by rewrite Htn).
  unfold check_update. rewrite bool_decide_true by exact HU. rewrite Htn, <- Hname.
  destruct (pl !! op_typename el) as [p|] eqn:Hp; [|by right; left].
  destruct (wl_updatable p) eqn:Hu; simpl.
  - right; right. rewrite for_children_continue; [simpl; by eexists p, _|].
    intros pe Hpe. unfold check_update_property. case_bool_decide as HP; [|eauto].
    destruct (Hprops pe Hpe HP) as [ne [Hne [t Ht]]]. rewrite Hne, Ht.
    case_bool_decide; eauto.
  - left. by eexists p, _.
Qed.

Lemma check_delete_cases el :
  x_tag el = wfs_Delete ->
  is_Some (xml_get (py "typeName") el) ->
  (exists p msg, pl !! op_typename el = Some p /\ wl_deletable p = false
     /\ check_delete pl el = Return (py "Forbidden", msg))
  \/ (pl !! op_typename el = None /\ check_delete pl el = Continue None)
  \/ (exists p, pl !! op_typename el = Some p /\ wl_deletable p = true
        /\ check_delete pl el = Continue (Some el)).
Proof.
  intros HD [tn Htn].
  assert (Hname : op_typename el = wfs_clean_layer_name tn)
    by (unfold op_typename; by rewrite Htn).
  unfold check_delete. rewrite bool_decide_true by exact HD. rewrite Htn, <- Hname.
  destruct (pl !! op_typename el) as [p|] eqn:Hp; [|by right; left].
  destruct (wl_deletable p) eqn:Hd; simpl.
  - right; right. by exists p.
  - left. by eexists p, _.
Qed.

End TransactionPhases.

Lemma filter_tag_transfer (T : pystr) (cs cs' : list xml) el :
  filter (has_tag T) cs' = filter (has_tag T) cs -> el ∈ cs -> x_tag el = T -> el ∈ cs'.
Proof.
  intros Heq Hel HT.
  assert (Hin : el ∈ filter (has_tag T) cs) by (apply list_elem_of_filter; done).
  rewrite <- Heq in Hin. by apply list_elem_of_filter in Hin as [_ ?].
Qed.

Lemma updates_wf_transfer cs cs' :
  filter (has_tag wfs_Update) cs' = filter (has_tag wfs_Update) cs ->
  updates_well_formed cs -> updates_well_formed cs'.
Proof.
  intros Heq Hwf el Hel HU. apply Hwf; [|done].
  by apply (filter_tag_transfer wfs_Update cs' cs).
Qed.

Lemma deletes_wf_transfer cs cs' :
  filter (has_tag wfs_Delete) cs' = filter (has_tag wfs_Delete) cs ->
  deletes_well_formed cs -> deletes_well_formed cs'.
Proof.
  intros Heq Hwf el Hel HD. apply Hwf; [|done].
  by apply (filter_tag_transfer wfs_Delete cs' cs).
Qed.

Lemma tags_distinct :
  wfs_Insert <> wfs_Update /\ wfs_Insert <> wfs_Delete /\ wfs_Update <> wfs_Delete.
Proof. vm_compute. repeat split; congruence. Qed.

Section TransactionSteps.
Context (is_word : N -> bool) (pl : gmap pystr wfsh_layer).

Lemma insert_step_keep cs cs1 U :
  for_children (check_insert is_word pl) cs = Continue cs1 -> U <> wfs_Insert ->
  filter (has_tag U) cs1 = filter (has_tag U) cs.
Proof.
  intros Hc HU. apply for_children_continue_inv in Hc as [_ ->].
  apply omap_keep_tag with (T := wfs_Insert); [congruence| |].
  - intros x _ Hx. by rewrite check_insert_other.
  - intros x y _ Hx Hy%continued_some. by apply (check_insert_shape is_word pl x y Hy).
Qed.

Lemma update_step_keep cs cs1 U :
  for_children (check_update is_word pl) cs = Continue cs1 -> U <> wfs_Update ->
  filter (has_tag U) cs1 = filter (has_tag U) cs.
Proof.
  intros Hc HU. apply for_children_continue_inv in Hc as [_ ->].
  apply omap_keep_tag with (T := wfs_Update); [congruence| |].
  - intros x _ Hx. by rewrite check_update_other.
  - intros x y _ Hx Hy%continued_some. by apply (check_update_shape is_word pl x y Hy).
Qed.

Lemma delete_step_keep cs cs1 U :
  for_children (check_delete pl) cs = Continue cs1 -> U <> wfs_Delete ->
  filter (has_tag U) cs1 = filter (has_tag U) cs.
Proof.
  intros Hc HU. apply for_children_continue_inv in Hc as [_ ->].
  apply omap_keep_tag with (T := wfs_Delete); [congruence| |].
  - intros x _ Hx. by rewrite check_delete_other.
  - intros x y _ Hx Hy%continued_some. by rewrite (check_delete_shape pl x y Hy).
Qed.

Lemma update_step_ok cs :
  updates_well_formed cs -> forall el, el ∈ cs -> ok_or_forbidden (check_update is_word pl el).
Proof.
  intros Hwf el Hel. destruct (decide (x_tag el = wfs_Update)) as [HU|HU].
  - destruct (Hwf el Hel HU) as [Htn Hprops].
    destruct (check_update_cases is_word pl el HU Htn Hprops)
      as [(p & msg & _ & _ & ->)|[(_ & ->)|(p & y & _ & _ & ->)]]; done.
  - by rewrite check_update_other.
Qed.

Lemma delete_step_ok cs :
  deletes_well_formed cs -> forall el, el ∈ cs -> ok_or_forbidden (check_delete pl el).
Proof.
  intros Hwf el Hel. destruct (decide (x_tag el = wfs_Delete)) as [HD|HD].
  - destruct (check_delete_cases pl el HD (Hwf el Hel HD))
      as [(p & msg & _ & _ & ->)|[(_ & ->)|(p & _ & _ & ->)]]; done.
  - by rewrite check_delete_other.
Qed.

End TransactionSteps.

Section TransactionForbidden.
Context (is_word : N -> bool) (pl : gmap pystr wfsh_layer).

Lemma insert_step_forbidden cs :
  insert_forbidden pl cs ->
  exists msg, for_children (check_insert is_word pl) cs = Return (py "Forbidden", msg).
Proof.
  intros (f & p & Hf & Hp & Hc).
  apply in_flat_map_children in Hf as (el & Hel & Hfel).
  apply list_elem_of_filter in Hel as [HI Hel].
  apply for_children_forbidden; [intros c _; apply check_insert_ok|].
  exists el. split; [done|]. unfold check_insert. rewrite bool_decide_true by exact HI.
  destruct (for_children_forbidden (check_insert_feature is_word pl) (x_children el))
    as [msg Hm]; [intros c _; apply check_insert_feature_ok| |rewrite Hm; exact I].
  exists f. split; [done|].
  destruct (check_insert_feature_cases is_word pl f)
    as [(p' & msg & _ & _ & ->)|[(Hn & _)|(p' & f' & Hp' & Hc' & _)]];
    [exact I|congruence|congruence].
Qed.

Lemma update_step_forbidden cs :
  updates_well_formed cs -> update_forbidden pl cs ->
  exists msg, for_children (check_update is_word pl) cs = Return (py "Forbidden", msg).
Proof.
  intros Hwf (el & p & Hel & HU & _ & Hp & Hu).
  apply for_children_forbidden; [by apply update_step_ok|].
  exists el. split; [done|]. destruct (Hwf el Hel HU) as [Htn Hprops].
  destruct (check_update_cases is_word pl el HU Htn Hprops)
    as [(p' & msg & _ & _ & ->)|[(Hn & _)|(p' & y & Hp' & Hu' & _)]];
    [exact I|congruence|congruence].
Qed.

Lemma delete_step_forbidden cs :
  deletes_well_formed cs -> delete_forbidden pl cs ->
  exists msg, for_children (check_delete pl) cs = Return (py "Forbidden", msg).
Proof.
  intros Hwf (el & p & Hel & HD & Htn & Hp & Hd).
  apply for_children_forbidden; [by apply delete_step_ok|].
  exists el. split; [done|].
  destruct (check_delete_cases pl el HD Htn)
    as [(p' & msg & _ & _ & ->)|[(Hn & _)|(p' & Hp' & Hd' & _)]];
    [exact I|congruence|congruence].
Qed.

Lemma update_forbidden_transfer cs cs' :
  filter (has_tag wfs_Update) cs' = filter (has_tag wfs_Update) cs ->
  update_forbidden pl cs -> update_forbidden pl cs'.
Proof.
  intros Heq (el & p & Hel & HU & Htn & Hp & Hu). exists el, p.
  repeat split; try done. by apply (filter_tag_transfer wfs_Update cs cs').
Qed.

Lemma delete_forbidden_transfer cs cs' :
  filter (has_tag wfs_Delete) cs' = filter (has_tag wfs_Delete) cs ->
  delete_forbidden pl cs -> delete_forbidden pl cs'.
Proof.
  intros Heq (el & p & Hel & HD & Htn & Hp & Hd). exists el, p.
  repeat split; try done. by apply (filter_tag_transfer wfs_Delete cs cs').
Qed.

Lemma check_transaction_forbidden root :
  insert_forbidden pl (x_children root)
  \/ (updates_well_formed (x_children root) /\ update_forbidden pl (x_children root))
  \/ (updates_well_formed (x_children root) /\ deletes_well_formed (x_children root)
      /\ delete_forbidden pl (x_children root)) ->
  exists msg, check_transaction is_word pl root = inr (Some (py "Forbidden", msg), root).
Proof.
  intros Hcase. unfold check_transaction.
  destruct tags_distinct as (HIU & HID & HUD).
  pose proof (for_children_ok (check_insert is_word pl) (x_children root)
                (fun c _ => check_insert_ok is_word pl c)) as Hok1.
  destruct (for_children (check_insert is_word pl) (x_children root))
    as [e|[code msg]|cs1] eqn:H1; simpl in Hok1 |- *; [done|subst code; by exists msg|].
  assert (Hcase1 : (updates_well_formed cs1 /\ update_forbidden pl cs1)
                   \/ (updates_well_formed cs1 /\ deletes_well_formed cs1
                       /\ delete_forbidden pl cs1)).
  { pose proof (insert_step_keep is_word pl _ _ wfs_Update H1 ltac:(congruence)) as EU.
    pose proof (insert_step_keep is_word pl _ _ wfs_Delete H1 ltac:(congruence)) as ED.
    destruct Hcase as [Hi|[[Hw Hu]|(Hw & Hwd & Hd)]].
    - destruct (insert_step_forbidden _ Hi) as [m Hm]. congruence.
    - left. split; [exact (updates_wf_transfer _ _ EU Hw)|exact (update_forbidden_transfer _ _ EU Hu)].
    - right. split; [exact (updates_wf_transfer _ _ EU Hw)|].
      split; [exact (deletes_wf_transfer _ _ ED Hwd)|exact (delete_forbidden_transfer _ _ ED Hd)]. }
  assert (Hw1 : updates_well_formed cs1) by (destruct Hcase1 as [[]|[]]; done).
  pose proof (for_children_ok (check_update is_word pl) cs1
                (update_step_ok is_word pl cs1 Hw1)) as Hok2.
  destruct (for_children (check_update is_word pl) cs1)
    as [e|[code msg]|cs2] eqn:H2; simpl in Hok2 |- *; [done|subst code; by exists msg|].
  destruct Hcase1 as [[_ Hu]|(_ & Hwd & Hd)].
  - destruct (update_step_forbidden _ Hw1 Hu) as [m Hm]. congruence.
  - pose proof (update_step_keep is_word pl _ _ wfs_Delete H2 ltac:(congruence)) as ED.
    destruct (delete_step_forbidden cs2 (deletes_wf_transfer _ _ ED Hwd)
                (delete_forbidden_transfer _ _ ED Hd)) as [m Hm].
    rewrite Hm. simpl. by exists m.
Qed.

End TransactionForbidden.

Lemma x_children_set (el : xml) (cs : list xml) : x_children (set_children el cs) = cs.
Proof. by destruct el. Qed.

Lemma x_tag_set (el : xml) (cs : list xml) : x_tag (set_children el cs) = x_tag el.
Proof. by destruct el. Qed.

Lemma in_flat_map_children_2 f el cs :
  el ∈ cs -> f ∈ x_children el -> f ∈ flat_map x_children cs.
Proof.
  induction cs as [|c rest IH]; simpl; [by intros ?%elem_of_nil|].
  intros [->|Hel]%elem_of_cons Hf; apply elem_of_app; [by left|right; by apply IH].
Qed.

Section TransactionAllowed.
Context (is_word : N -> bool) (pl : gmap pystr wfsh_layer).

Definition insert_feature_step (c : xml) : option xml :=
  continued (check_insert_feature is_word pl c).

Lemma insert_feature_step_spec cs el c :
  ~ insert_forbidden pl cs -> el ∈ cs -> x_tag el = wfs_Insert -> c ∈ x_children el ->
  check_insert_feature is_word pl c = Continue (insert_feature_step c)
  /\ match insert_feature_step c with
     | None => ~ permitted pl (tx_typename c)
     | Some y => permitted pl (tx_typename c) /\ tx_typename y = tx_typename c
     end.
Proof.
  intros Hnf Hel HI Hc. unfold insert_feature_step.
  destruct (check_insert_feature_cases is_word pl c)
    as [(p & msg & Hp & Hcr & _)|[(Hn & ->)|(p & f' & Hp & _ & -> & Ht)]].
  - exfalso. apply Hnf. exists c, p. split; [|done].
    apply (in_flat_map_children_2 c el); [apply list_elem_of_filter; done|done].
  - simpl. split; [done|]. unfold permitted. rewrite Hn. by intros [? ?].
  - simpl. split; [done|]. split; [unfold permitted; rewrite Hp; by eexists|].
    unfold tx_typename. by rewrite Ht.
Qed.

Lemma insert_step_spec cs el :
  ~ insert_forbidden pl cs -> el ∈ cs ->
  check_insert is_word pl el =
    Continue (Some (if bool_decide (x_tag el = wfs_Insert)
                    then set_children el (omap insert_feature_step (x_children el))
                    else el)).
Proof.
  intros Hnf Hel. unfold check_insert.
  destruct (decide (x_tag el = wfs_Insert)) as [HI|HI];
    [rewrite !bool_decide_true by exact HI|rewrite !bool_decide_false by exact HI; done].
  rewrite for_children_continue; [done|].
  intros c Hc. eexists. apply (insert_feature_step_spec cs el c Hnf Hel HI Hc).
Qed.

Lemma update_step_continue cs el :
  updates_well_formed cs -> ~ update_forbidden pl cs -> el ∈ cs ->
  exists o, check_update is_word pl el = Continue o.
Proof.
  intros Hwf Hnf Hel. destruct (decide (x_tag el = wfs_Update)) as [HU|HU].
  - destruct (Hwf el Hel HU) as [Htn Hprops].
    destruct (check_update_cases is_word pl el HU Htn Hprops)
      as [(p & msg & Hp & Hu & _)|[(_ & ->)|(p & y & _ & _ & ->)]]; [|eauto|eauto].
    exfalso. apply Hnf. by exists el, p.
  - rewrite check_update_other by done. eauto.
Qed.

Lemma delete_step_continue cs el :
  deletes_well_formed cs -> ~ delete_forbidden pl cs -> el ∈ cs ->
  exists o, check_delete pl el = Continue o.
Proof.
  intros Hwf Hnf Hel. destruct (decide (x_tag el = wfs_Delete)) as [HD|HD].
  - destruct (check_delete_cases pl el HD (Hwf el Hel HD))
      as [(p & msg & Hp & Hd & _)|[(_ & ->)|(p & _ & _ & ->)]]; [|eauto|eauto].
    exfalso. apply Hnf. exists el, p. repeat split; auto.
  - rewrite check_delete_other by done. eauto.
Qed.

End TransactionAllowed.

Section TransactionResult.
Context (is_word : N -> bool) (pl : gmap pystr wfsh_layer).

Lemma check_transaction_allowed root :
  updates_well_formed (x_children root) -> deletes_well_formed (x_children root) ->
  ~ insert_forbidden pl (x_children root) -> ~ update_forbidden pl (x_children root) ->
  ~ delete_forbidden pl (x_children root) ->
  exists root', check_transaction is_word pl root = inr (None, root')
    /\ x_tag root' = x_tag root
    /\ insert_typenames (x_children root')
         = filter (permitted pl) (insert_typenames (x_children root))
    /\ update_typenames (x_children root')
         = filter (permitted pl) (update_typenames (x_children root))
    /\ delete_typenames (x_children root')
         = filter (permitted pl) (delete_typenames (x_children root)).
Proof.
  intros Hwu Hwd Hni Hnu Hnd.
  destruct tags_distinct as (HIU & HID & HUD).
  remember (x_children root) as cs eqn:Ecs.
  set (phi1 := fun c => continued (check_insert is_word pl c)).
  set (phi2 := fun c => continued (check_update is_word pl c)).
  set (phi3 := fun c => continued (check_delete pl c)).
  assert (H1 : for_children (check_insert is_word pl) cs = Continue (omap phi1 cs)).
  { apply for_children_continue. intros el Hel. eexists. by apply (insert_step_spec is_word pl cs). }
  remember (omap phi1 cs) as cs1 eqn:Ecs1.
  pose proof (insert_step_keep is_word pl _ _ wfs_Update H1 ltac:(congruence)) as EU1.
  pose proof (insert_step_keep is_word pl _ _ wfs_Delete H1 ltac:(congruence)) as ED1.
  assert (H2 : for_children (check_update is_word pl) cs1 = Continue (omap phi2 cs1)).
  { apply for_children_continue. intros el Hel.
    apply (update_step_continue is_word pl cs1); [by apply (updates_wf_transfer cs)| |done].
    intros Hf. apply Hnu. by apply (update_forbidden_transfer pl cs1 cs). }
  remember (omap phi2 cs1) as cs2 eqn:Ecs2.
  pose proof (update_step_keep is_word pl _ _ wfs_Insert H2 ltac:(congruence)) as EI2.
  pose proof (update_step_keep is_word pl _ _ wfs_Delete H2 ltac:(congruence)) as ED2.
  assert (Hwd2 : deletes_well_formed cs2)
    by (apply (deletes_wf_transfer cs1); [done|by apply (deletes_wf_transfer cs)]).
  assert (H3 : for_children (check_delete pl) cs2 = Continue (omap phi3 cs2)).
  { apply for_children_continue. intros el Hel.
    apply (delete_step_continue pl cs2); [done| |done].
    intros Hf. apply Hnd. apply (delete_forbidden_transfer pl cs2 cs); [|done].
    by rewrite ED2, ED1. }
  remember (omap phi3 cs2) as cs3 eqn:Ecs3.
  pose proof (delete_step_keep pl _ _ wfs_Insert H3 ltac:(congruence)) as EI3.
  pose proof (delete_step_keep pl _ _ wfs_Update H3 ltac:(congruence)) as EU3.
  exists (set_children root cs3). unfold check_transaction.
  rewrite <- Ecs, H1. simpl. rewrite H2. simpl. rewrite H3. simpl.
  split; [done|]. split; [apply x_tag_set|]. rewrite x_children_set.
  split; [|split].
  - (* inserted features *)
    unfold insert_typenames. rewrite EI3, EI2, Ecs1.
    rewrite (omap_same_tag phi1 wfs_Insert cs).
    2: { intros x _ Hx. unfold phi1. by rewrite check_insert_other. }
    2: { intros x y _ Hx Hy%continued_some. by apply (check_insert_shape is_word pl x y Hy). }
    assert (Hgen : forall L, (forall el, el ∈ L -> el ∈ cs /\ x_tag el = wfs_Insert) ->
      map tx_typename (flat_map x_children (omap phi1 L))
      = filter (permitted pl) (map tx_typename (flat_map x_children L))).
    { induction L as [|el L IH]; intros HL; [done|].
      destruct (HL el (list_in_here _ _)) as [Hel HI].
      assert (Hphi : phi1 el = Some (set_children el
                       (omap (insert_feature_step is_word pl) (x_children el)))).
      { unfold phi1. rewrite (insert_step_spec is_word pl cs el Hni Hel).
        simpl. by rewrite bool_decide_true by exact HI. }
      rewrite omap_cons_eq, Hphi. cbn [flat_map].
      rewrite x_children_set, !map_app, filter_app, IH.
      - f_equal. apply omap_names. intros c Hc.
        exact (proj2 (insert_feature_step_spec is_word pl cs el c Hni Hel HI Hc)).
      - intros x Hx. apply HL. by apply list_in_further. }
    apply Hgen. intros el Hel. apply list_elem_of_filter in Hel as [HI Hel]. done.
  - (* updates *)
    unfold update_typenames. rewrite EU3, Ecs2.
    rewrite (omap_same_tag phi2 wfs_Update cs1).
    2: { intros x _ Hx. unfold phi2. by rewrite check_update_other. }
    2: { intros x y _ Hx Hy%continued_some. by apply (check_update_shape is_word pl x y Hy). }
    rewrite EU1. apply omap_names. intros x Hx.
    apply list_elem_of_filter in Hx as [HU Hx].
    destruct (Hwu x Hx HU) as [Htn Hprops].
    unfold phi2.
    destruct (check_update_cases is_word pl x HU Htn Hprops)
      as [(p & msg & Hp & Hu & _)|[(Hn & ->)|(p & y & Hp & _ & Hy)]].
    + exfalso. apply Hnu. by exists x, p.
    + simpl. unfold permitted. rewrite Hn. by intros [? ?].
    + rewrite Hy. simpl. split; [unfold permitted; rewrite Hp; by eexists|].
      destruct (check_update_shape is_word pl x y Hy) as [_ Hs].
      destruct (Hs HU) as [_ Ha]. unfold op_typename, xml_get. by rewrite Ha.
  - (* deletes *)
    unfold delete_typenames. rewrite Ecs3.
    rewrite (omap_same_tag phi3 wfs_Delete cs2).
    2: { intros x _ Hx. unfold phi3. by rewrite check_delete_other. }
    2: { intros x y _ Hx Hy%continued_some. by rewrite (check_delete_shape pl x y Hy). }
    rewrite ED2, ED1. apply omap_names. intros x Hx.
    apply list_elem_of_filter in Hx as [HD Hx].
    unfold phi3.
    destruct (check_delete_cases pl x HD (Hwd x Hx HD))
      as [(p & msg & Hp & Hd & _)|[(Hn & ->)|(p & Hp & _ & ->)]].
    + exfalso. apply Hnd. exists x, p. repeat split; auto.
    + simpl. unfold permitted. rewrite Hn. by intros [? ?].
    + simpl. split; [unfold permitted; rewrite Hp; by eexists|done].
Qed.

End TransactionResult.

(** Claim C3: in [WfsHandler.__check_transaction], a feature of an
    [Insert] whose typename has a permission with [creatable] false makes
    the whole check return a Forbidden error, with [data['body']] left as
    it was (so nothing is forwarded); the same holds for an [Update]
    without [updatable] and a [Delete] without [deletable] (when the
    elements read before them carry their [typeName] and [Name]). When no
    element is forbidden, the check returns no error and the new body keeps
    exactly the inserted features, updates and deletes whose typenames are
    permitted, in order: those with a typename unknown to the permissions
    are silently removed. *)
Theorem transaction_skip_vs_forbidden (is_word : N -> bool)
  (permitted_layers : gmap pystr wfsh_layer) (root : xml) :
  (insert_forbidden permitted_layers (x_children root) ->
     exists msg, check_transaction is_word permitted_layers root
                 = inr (Some (py "Forbidden", msg), root))
  /\ (updates_well_formed (x_children root) ->
      update_forbidden permitted_layers (x_children root) ->
      exists msg, check_transaction is_word permitted_layers root
                  = inr (Some (py "Forbidden", msg), root))
  /\ (updates_well_formed (x_children root) -> deletes_well_formed (x_children root) ->
      delete_forbidden permitted_layers (x_children root) ->
      exists msg, check_transaction is_word permitted_layers root
                  = inr (Some (py "Forbidden", msg), root))
  /\ (updates_well_formed (x_children root) -> deletes_well_formed (x_children root) ->
      ~ insert_forbidden permitted_layers (x_children root) ->
      ~ update_forbidden permitted_layers (x_children root) ->
      ~ delete_forbidden permitted_layers (x_children root) ->
      exists root', check_transaction is_word permitted_layers root = inr (None, root')
        /\ x_tag root' = x_tag root
        /\ insert_typenames (x_children root')
             = filter (permitted permitted_layers) (insert_typenames (x_children root))
        /\ update_typenames (x_children root')
             = filter (permitted permitted_layers) (update_typenames (x_children root))
        /\ delete_typenames (x_children root')
             = filter (permitted permitted_layers) (delete_typenames (x_children root))).
Proof.
  split; [|split; [|split]].
  - intros H. apply check_transaction_forbidden. by left.
  - intros Hw H. apply check_transaction_forbidden. right; left. done.
  - intros Hw Hwd H. apply check_transaction_forbidden. right; right. done.
  - apply check_transaction_allowed.
Qed.

Lemma transaction_skip_vs_forbidden_witness :
  insert_forbidden (ex_wfsh_layers false) (x_children ex_transaction)
  /\ (exists msg, check_transaction ascii_word (ex_wfsh_layers false) ex_transaction
                  = inr (Some (py "Forbidden", msg), ex_transaction))
  /\ updates_well_formed (x_children ex_transaction)
  /\ deletes_well_formed (x_children ex_transaction)
  /\ ~ insert_forbidden (ex_wfsh_layers true) (x_children ex_transaction)
  /\ ~ update_forbidden (ex_wfsh_layers true) (x_children ex_transaction)
  /\ ~ delete_forbidden (ex_wfsh_layers true) (x_children ex_transaction)
  /\ exists root', check_transaction ascii_word (ex_wfsh_layers true) ex_transaction
                   = inr (None, root')
       /\ insert_typenames (x_children root') = [py "roads"]
       /\ delete_typenames (x_children root') = [].
Proof.
  assert (Hins : insert_forbidden (ex_wfsh_layers false) (x_children ex_transaction)).
  { exists (ex_qgs "roads" [ex_qgs "name" []; ex_qgs "secret" []; ex_qgs "geometry" []]),
      {| wl_attributes := [py "name"]; wl_creatable := false;
         wl_updatable := false; wl_deletable := true |}.
    split; [|split; [vm_compute; reflexivity|reflexivity]].
    vm_compute. apply elem_of_cons. left. reflexivity. }
  assert (Hwu : updates_well_formed (x_children ex_transaction)).
  { intros el Hel HU. vm_compute in Hel.
    repeat (apply elem_of_cons in Hel as [->|Hel]; [vm_compute in HU; discriminate|]).
    by apply elem_of_nil in Hel. }
  assert (Hwd : deletes_well_formed (x_children ex_transaction)).
  { intros el Hel HD. vm_compute in Hel.
    repeat (apply elem_of_cons in Hel as [->|Hel];
            [first [vm_compute in HD; discriminate | vm_compute; by eexists]|]).
    by apply elem_of_nil in Hel. }
  assert (Hni : ~ insert_forbidden (ex_wfsh_layers true) (x_children ex_transaction)).
  { intros (f & p & Hf & Hp & Hc). vm_compute in Hf.
    repeat (apply elem_of_cons in Hf as [->|Hf];
            [vm_compute in Hp; first [discriminate | injection Hp as <-; discriminate]|]).
    by apply elem_of_nil in Hf. }
  assert (Hnu : ~ update_forbidden (ex_wfsh_layers true) (x_children ex_transaction)).
  { intros (el & p & Hel & HU & _). vm_compute in Hel.
    repeat (apply elem_of_cons in Hel as [->|Hel]; [vm_compute in HU; discriminate|]).
    by apply elem_of_nil in Hel. }
  assert (Hnd : ~ delete_forbidden (ex_wfsh_layers true) (x_children ex_transaction)).
  { intros (el & p & Hel & HD & _ & Hp & _). vm_compute in Hel.
    repeat (apply elem_of_cons in Hel as [->|Hel];
            [first [vm_compute in HD; discriminate | vm_compute in Hp; discriminate]|]).
    by apply elem_of_nil in Hel. }
  split; [exact Hins|]. split; [exact (proj1 (transaction_skip_vs_forbidden ascii_word _ _) Hins)|].
  do 5 (split; [assumption|]).
  destruct (proj2 (proj2 (proj2 (transaction_skip_vs_forbidden ascii_word
              (ex_wfsh_layers true) ex_transaction))) Hwu Hwd Hni Hnu Hnd)
    as (root' & Hc & _ & Hi & _ & Hd).
  exists root'. split; [exact Hc|]. split.
  - rewrite Hi. vm_compute. reflexivity.
  - rewrite Hd. vm_compute. reflexivity.
Defined.

(** ** OGC API Features write checks *)

Lemma dict_get_set_other {A} (k k' : pystr) (v : A) (d : dict A) :
  k' ≠ k -> dict_get k (dict_set k' v d) = dict_get k d.
Proof.
  intros Hne. induction d as [|[k0 v0] d IH]; [done|]. cbn.
  destruct (decide (k0 = k')) as [->|Hk0]; cbn.
  - rewrite !decide_False by done. exact IH.
  - destruct (decide (k0 = k)); [done|exact IH].
Qed.

Lemma filter_attributes_elem is_word attributes kvs k v :
  (k, v) ∈ filter_attributes is_word attributes kvs
  <-> (k, v) ∈ kvs /\ wfs_clean_attribute_name is_word k ∈ attributes.
Proof.
  unfold filter_attributes. rewrite list_elem_of_filter, bool_decide_spec. cbn. tauto.
Qed.

Lemma filter_payload_other is_word key key' attributes data data' :
  key' ≠ key -> filter_payload is_word key' attributes data = inr data' ->
  dict_get key data' = dict_get key data.
Proof.
  intros Hne. unfold filter_payload.
  destruct (dict_get key' data) as [[]|]; intros H; inversion H; subst; try done.
  by apply dict_get_set_other.
Qed.

(** Claim C4. In [OGCAPIService], on a collection present in the
    permission dict: a POST to its items is answered 403 with code
    [Forbidden] unless the layer permission has [writable] and
    [creatable]; PATCH and PUT on an item need [writable] and [updatable],
    DELETE needs [writable] and [deletable]. An allowed POST or PUT
    replaces [data["properties"]] by the entries whose key, after
    [wfs_clean_attribute_name], is in the permitted attributes; an allowed
    PATCH does so for [data["modify"]] and leaves [properties] as it is. *)
Theorem oapi_write_permissions (is_word : N -> bool)
  (permissions : gmap pystr oapi_layer_permission) :
  (forall params data api_path seg lp,
     split_on chr_slash api_path !! 2 = Some seg ->
     permissions !! wfs_clean_layer_name seg = Some lp ->
     getFeatures_request is_word params data api_path (py "POST") permissions
     = if op_writable lp && op_creatable lp then
         match filter_payload is_word (py "properties") (op_attributes lp) data with
         | inl e => inl e
         | inr data' => inr (params, data', None, None)
         end
       else inr (params, data,
                 Some (py "Forbidden",
                       py "Features cannot be added to layer " ++ sq
                         ++ wfs_clean_layer_name seg ++ sq),
                 Some 403%Z))
  /\ (forall params data api_path layer_name lp,
     split_on chr_slash (wfs_clean_layer_name api_path) !! 2 = Some layer_name ->
     permissions !! layer_name = Some lp ->
     getFeature_request is_word params data api_path (py "PATCH") permissions
     = (if op_writable lp && op_updatable lp then
          match filter_payload is_word (py "modify") (op_attributes lp) data with
          | inl e => inl e
          | inr data' => inr (params, data', None, None)
          end
        else inr (params, data,
                  Some (py "Forbidden", py "Features in layer " ++ sq ++ layer_name ++ sq
                                          ++ py " cannot be changed"),
                  Some 403%Z))
     /\ getFeature_request is_word params data api_path (py "PUT") permissions
     = (if op_writable lp && op_updatable lp then
          match filter_payload is_word (py "properties") (op_attributes lp) data with
          | inl e => inl e
          | inr data' => inr (params, data', None, None)
          end
        else inr (params, data,
                  Some (py "Forbidden", py "Features in layer " ++ sq ++ layer_name ++ sq
                                          ++ py " cannot be changed"),
                  Some 403%Z))
     /\ getFeature_request is_word params data api_path (py "DELETE") permissions
     = (if op_writable lp && op_deletable lp then inr (params, data, None, None)
        else inr (params, data,
                  Some (py "Forbidden", py "Features in layer " ++ sq ++ layer_name ++ sq
                                          ++ py " cannot be deleted"),
                  Some 403%Z)))
  /\ (forall key attributes data kvs,
     dict_get key data = Some (JObj kvs) ->
     filter_payload is_word key attributes data
     = inr (dict_set key (JObj (filter_attributes is_word attributes kvs)) data))
  /\ (forall key attributes data, dict_get key data = None ->
     filter_payload is_word key attributes data = inr data)
  /\ (forall attributes kvs k v,
     (k, v) ∈ filter_attributes is_word attributes kvs
     <-> (k, v) ∈ kvs /\ wfs_clean_attribute_name is_word k ∈ attributes)
  /\ (forall attributes data data',
     filter_payload is_word (py "modify") attributes data = inr data' ->
     dict_get (py "properties") data' = dict_get (py "properties") data).
Proof.
  split; [|split; [|split; [|split; [|split]]]].
  - intros params data api_path seg lp Hseg Hlp.
    unfold getFeatures_request. rewrite Hseg. cbv zeta. rewrite Hlp.
    rewrite (bool_decide_false (py "POST" = py "GET")) by (cbv; congruence).
    rewrite (bool_decide_true (py "POST" = py "POST")) by done. cbn [andb negb].
    by destruct (op_writable lp), (op_creatable lp).
  - intros params data api_path layer_name lp Hseg Hlp.
    unfold getFeature_request. rewrite Hseg, Hlp.
    rewrite (bool_decide_false (py "PATCH" = py "GET")) by (cbv; congruence).
    rewrite (bool_decide_false (py "PUT" = py "GET")) by (cbv; congruence).
    rewrite (bool_decide_false (py "DELETE" = py "GET")) by (cbv; congruence).
    rewrite (bool_decide_true (py "PATCH" = py "PATCH")) by done.
    rewrite (bool_decide_false (py "PUT" = py "PATCH")) by (cbv; congruence).
    rewrite (bool_decide_true (py "PUT" = py "PUT")) by done.
    rewrite (bool_decide_false (py "DELETE" = py "PATCH")) by (cbv; congruence).
    rewrite (bool_decide_false (py "DELETE" = py "PUT")) by (cbv; congruence).
    rewrite (bool_decide_true (py "DELETE" = py "DELETE")) by done.
    cbn [andb negb orb].
    split; [|split];
      by destruct (op_writable lp), (op_updatable lp), (op_deletable lp).
  - intros key attributes data kvs H. unfold filter_payload. by rewrite H.
  - intros key attributes data H. unfold filter_payload. by rewrite H.
  - apply filter_attributes_elem.
  - intros attributes data data'. apply filter_payload_other. cbv; congruence.
Qed.

(** Counterexample to C4: a POST whose [properties] hold the key [na me]
    on a layer whose only permitted attribute is [na_me] forwards [na me]
    unchanged, a key outside the permitted attribute set. *)
Lemma oapi_filter_keeps_uncleaned_key :
  getFeatures_request ascii_word ∅ ex_payload (py "/collections/roads/items") (py "POST")
    (ex_oapi_permissions true true)
  = inr (∅, [(py "type", JStr (py "Feature"));
             (py "properties", JObj [(py "na me", JNum 1)])], None, None)
  /\ py "na me" ∉ op_attributes (ex_roads_permission true true).
Proof.
  split.
  - vm_compute. reflexivity.
  - cbn. rewrite not_elem_of_singleton. cbv. congruence.
Qed.

Lemma oapi_write_permissions_witness :
  getFeatures_request ascii_word ∅ ex_payload (py "/collections/roads/items") (py "POST")
    (ex_oapi_permissions true false)
  = inr (∅, ex_payload,
         Some (py "Forbidden", py "Features cannot be added to layer 'roads'"), Some 403%Z)
  /\ getFeature_request ascii_word ∅ ex_payload (py "/collections/roads/items/7") (py "DELETE")
       (ex_oapi_permissions false true)
     = inr (∅, ex_payload,
            Some (py "Forbidden", py "Features in layer 'roads' cannot be deleted"), Some 403%Z)
  /\ getFeature_request ascii_word ∅ ex_payload (py "/collections/roads/items/7") (py "PUT")
       (ex_oapi_permissions true true)
     = inr (∅, [(py "type", JStr (py "Feature"));
                (py "properties", JObj [(py "na me", JNum 1)])], None, None).
Proof.
  split; [|split].
  - rewrite (proj1 (oapi_write_permissions ascii_word (ex_oapi_permissions true false))
               ∅ ex_payload (py "/collections/roads/items") (py "roads")
               (ex_roads_permission true false)) by (vm_compute; reflexivity).
    vm_compute. reflexivity.
  - rewrite (proj2 (proj2 (proj1 (proj2 (oapi_write_permissions ascii_word
               (ex_oapi_permissions false true)))
               ∅ ex_payload (py "/collections/roads/items/7") (py "roads")
               (ex_roads_permission false true) ltac:(vm_compute; reflexivity)
               ltac:(vm_compute; reflexivity)))).
    vm_compute. reflexivity.
  - rewrite (proj1 (proj2 (proj1 (proj2 (oapi_write_permissions ascii_word
               (ex_oapi_permissions true true)))
               ∅ ex_payload (py "/collections/roads/items/7") (py "roads")
               (ex_roads_permission true true) ltac:(vm_compute; reflexivity)
               ltac:(vm_compute; reflexivity)))).
    vm_compute. reflexivity.
Defined.

(** ** WFS GetFeature GeoJSON filtering *)

(** Claim C10. [wfs_getfeature_geojson] returns for no response: it raises
    [NameError] on [text] when the body parses as a JSON object,
    [JSONDecodeError] when it does not parse, and [AttributeError] when it
    parses as another JSON value. Hence [wfs_getfeature] raises for every
    request whose lower-cased [OUTPUTFORMAT] is [geojson], whatever the
    backend status: on status 200 it raises the error of
    [wfs_getfeature_geojson], on any other status [UnboundLocalError] on
    [content_type]. *)
Theorem wfs_getfeature_geojson_raises (json_loads : pystr -> option json)
  (py_lower : pystr -> pystr) (wfs_getfeature_gml : backend_response -> py_error + pystr) :
  (forall response, exists e, wfs_getfeature_geojson json_loads response = inl e)
  /\ (forall response kvs, json_loads (br_text response) = Some (JObj kvs) ->
      wfs_getfeature_geojson json_loads response = inl (NameError (py "text")))
  /\ (forall response, json_loads (br_text response) = None ->
      wfs_getfeature_geojson json_loads response = inl JSONDecodeError)
  /\ (forall response v, json_loads (br_text response) = Some v -> (forall kvs, v <> JObj kvs) ->
      wfs_getfeature_geojson json_loads response = inl (AttributeError (py "get")))
  /\ (forall response params,
      py_lower (default (py "gml3") (params !! py "OUTPUTFORMAT")) = py "geojson" ->
      exists e, wfs_getfeature json_loads py_lower wfs_getfeature_gml response params = inl e)
  /\ (forall response params,
      py_lower (default (py "gml3") (params !! py "OUTPUTFORMAT")) = py "geojson" ->
      br_status response = 200%Z ->
      exists e, wfs_getfeature_geojson json_loads response = inl e
        /\ wfs_getfeature json_loads py_lower wfs_getfeature_gml response params = inl e)
  /\ (forall response params, br_status response <> 200%Z ->
      wfs_getfeature json_loads py_lower wfs_getfeature_gml response params
      = inl (UnboundLocalError (py "content_type"))).
Proof.
  assert (Hraise : forall response, exists e, wfs_getfeature_geojson json_loads response = inl e).
  { intros response. unfold wfs_getfeature_geojson.
    destruct (json_loads (br_text response)) as [[]|]; eexists; reflexivity. }
  split; [exact Hraise|]. split; [|split; [|split; [|split; [|split]]]].
  - intros response kvs H. unfold wfs_getfeature_geojson. by rewrite H.
  - intros response H. unfold wfs_getfeature_geojson. by rewrite H.
  - intros response v H Hv. unfold wfs_getfeature_geojson. rewrite H.
    destruct v as [| | | | |kvs]; try reflexivity. by destruct (Hv kvs).
  - intros response params Hfmt. unfold wfs_getfeature. cbv zeta.
    destruct (Z.eqb (br_status response) 200); [|eexists; reflexivity].
    rewrite Hfmt, decide_True by reflexivity.
    destruct (Hraise response) as [e ->]. by exists e.
  - intros response params Hfmt H200. unfold wfs_getfeature. cbv zeta.
    rewrite H200. cbn [Z.eqb Pos.eqb]. rewrite Hfmt, decide_True by reflexivity.
    destruct (Hraise response) as [e ->]. exists e. split; reflexivity.
  - intros response params Hs. unfold wfs_getfeature. cbv zeta.
    destruct (Z.eqb_spec (br_status response) 200); [contradiction|reflexivity].
Qed.

(** Counterexample to C10: for an empty body the error raised is the
    [JSONDecodeError] of the first [json.loads], not [NameError]. *)
Lemma wfs_getfeature_geojson_empty_body :
  wfs_getfeature_geojson subset_json_loads (ex_getfeature_response []) = inl JSONDecodeError
  /\ JSONDecodeError <> NameError (py "text").
Proof. split; [vm_compute; reflexivity | discriminate]. Qed.

Lemma wfs_getfeature_geojson_raises_witness :
  wfs_getfeature_geojson subset_json_loads (ex_getfeature_response (py "{}"))
  = inl (NameError (py "text"))
  /\ wfs_getfeature subset_json_loads ascii_lower (fun r => inr (br_text r))
       (ex_getfeature_response (py "{}"))
       (<[py "OUTPUTFORMAT" := py "GeoJSON"]> ∅) = inl (NameError (py "text"))
  /\ wfs_getfeature subset_json_loads ascii_lower (fun r => inr (br_text r))
       {| br_status := 500; br_text := py "{}"; br_content_type := py "application/json" |}
       (<[py "OUTPUTFORMAT" := py "GeoJSON"]> ∅) = inl (UnboundLocalError (py "content_type")).
Proof.
  pose proof (wfs_getfeature_geojson_raises subset_json_loads ascii_lower
                (fun r => inr (br_text r))) as (_ & Hobj & _ & _ & _ & H200 & Hother).
  assert (Hg : wfs_getfeature_geojson subset_json_loads (ex_getfeature_response (py "{}"))
               = inl (NameError (py "text")))
    by (apply (Hobj _ []); vm_compute; reflexivity).
  split; [exact Hg|]. split.
  - assert (Hfmt : ascii_lower (default (py "gml3")
                     ((<[py "OUTPUTFORMAT" := py "GeoJSON"]> ∅ : params_t) !! py "OUTPUTFORMAT"))
                   = py "geojson") by (vm_compute; reflexivity).
    destruct (H200 (ex_getfeature_response (py "{}")) (<[py "OUTPUTFORMAT" := py "GeoJSON"]> ∅)
                Hfmt eq_refl) as (e & He & ->).
    rewrite Hg in He. injection He as <-. reflexivity.
  - apply Hother. discriminate.
Defined.

(** * Further properties of the request pipeline *)

(** ** Group expansion of [OGCService] *)

Lemma expand_group_layers_cons fuel l rest rgl :
  expand_group_layers (S fuel) (l :: rest) rgl =
    e ← match rgl !! l with
        | Some subs => expand_group_layers fuel (rev subs) rgl
        | None => Some [l]
        end;
    r ← expand_group_layers (S fuel) rest rgl;
    Some (e ++ r).
Proof.
  cbn [expand_group_layers]. destruct (rgl !! l) as [subs|]; [|reflexivity].
  destruct (expand_group_layers fuel (rev subs) rgl); reflexivity.
Qed.

Lemma expand_group_layers_sound fuel ls rgl out :
  expand_group_layers fuel ls rgl = Some out ->
  forall l, l ∈ out ->
    rgl !! l = None /\ (l ∈ ls \/ exists g subs, rgl !! g = Some subs /\ l ∈ subs).
Proof.
  revert ls out. induction fuel as [|fuel IHfuel]; intros ls out H; [discriminate|].
  revert out H. induction ls as [|x rest IHls]; intros out H l Hl.
  - simpl in H. injection H as <-. apply elem_of_nil in Hl. contradiction.
  - rewrite expand_group_layers_cons in H.
    destruct (rgl !! x) as [subs|] eqn:Hx.
    + destruct (expand_group_layers fuel (rev subs) rgl) as [e|] eqn:He;
        [|discriminate H].
      destruct (expand_group_layers (S fuel) rest rgl) as [r|] eqn:Hr;
        [|discriminate H].
      simpl in H. injection H as <-.
      apply elem_of_app in Hl as [Hl|Hl].
      * destruct (IHfuel _ _ He l Hl) as [Hn [Hin|Hin]].
        -- split; [exact Hn|]. right. exists x, subs. split; [exact Hx|].
           apply list_elem_of_In. apply in_rev. apply list_elem_of_In. exact Hin.
        -- split; [exact Hn|]. right. exact Hin.
      * destruct (IHls r eq_refl l Hl) as [Hn [Hin|Hin]].
        -- split; [exact Hn|]. left. apply elem_of_cons. right. exact Hin.
        -- split; [exact Hn|]. right. exact Hin.
    + destruct (expand_group_layers (S fuel) rest rgl) as [r|] eqn:Hr;
        [|discriminate H].
      simpl in H. injection H as <-.
      apply elem_of_cons in Hl as [->|Hl].
      * split; [exact Hx|]. left. apply elem_of_cons. left. reflexivity.
      * destruct (IHls r eq_refl l Hl) as [Hn [Hin|Hin]].
        -- split; [exact Hn|]. left. apply elem_of_cons. right. exact Hin.
        -- split; [exact Hn|]. right. exact Hin.
Qed.

Lemma expand_group_layers_leaves fuel ls rgl :
  Forall (fun l => rgl !! l = None) ls ->
  expand_group_layers (S fuel) ls rgl = Some ls.
Proof.
  induction 1 as [|l rest Hl _ IH]; [reflexivity|].
  rewrite expand_group_layers_cons, Hl, IH. reflexivity.
Qed.

Lemma expand_ops_single fuel lo rgl hso :
  expand_group_layers_opacities_styles (S fuel) [lo] rgl hso =
  match rgl !! lo_layer lo with
  | Some subs =>
      expand_group_layers_opacities_styles fuel
        (map (fun sublayer =>
           {| lo_layer := sublayer;
              lo_opacity := match hso !! sublayer with
                            | Some custom_opacity => Z.quot (lo_opacity lo * custom_opacity) 100
                            | None => lo_opacity lo
                            end;
              lo_style := [] |}) (rev subs)) rgl hso
  | None => Some [lo]
  end.
Proof.
  simpl. destruct (rgl !! lo_layer lo); [|reflexivity].
  destruct (expand_group_layers_opacities_styles fuel _ rgl hso); simpl;
    [rewrite app_nil_r|]; reflexivity.
Qed.

Lemma expand_layers_agree fuel los rgl hso :
  fmap (map lo_layer) (expand_group_layers_opacities_styles fuel los rgl hso) =
  expand_group_layers fuel (map lo_layer los) rgl.
Proof.
  revert los. induction fuel as [|fuel IHfuel]; intros los; [reflexivity|].
  induction los as [|lo rest IHlos]; [reflexivity|].
  rewrite expand_cons, expand_ops_single. cbn [map]. rewrite expand_group_layers_cons.
  destruct (rgl !! lo_layer lo) as [subs|].
  - rewrite <- IHlos.
    match goal with
    | |- context [expand_group_layers_opacities_styles fuel ?X rgl hso] => set (Y := X)
    end.
    assert (HY : map lo_layer Y = rev subs).
    { subst Y. clear. induction (rev subs) as [|a t IH]; simpl; [reflexivity|].
      rewrite IH. reflexivity. }
    rewrite <- HY, <- IHfuel.
    destruct (expand_group_layers_opacities_styles fuel Y rgl hso) as [e|]; [|reflexivity].
    destruct (expand_group_layers_opacities_styles (S fuel) rest rgl hso); simpl;
      [rewrite map_app|]; reflexivity.
  - rewrite <- IHlos.
    destruct (expand_group_layers_opacities_styles (S fuel) rest rgl hso); reflexivity.
Qed.

(** ** Python [str] helpers *)

Lemma join_with_cons_cons sep c w ws :
  join_with sep ((c :: w) :: ws) = c :: join_with sep (w :: ws).
Proof. destruct ws; reflexivity. Qed.

Lemma join_split sep s : join_with sep (split_on sep s) = s.
Proof.
  induction s as [|c rest IH]; [reflexivity|]. cbn [split_on].
  pose proof (split_on_nonempty sep rest) as Hne.
  destruct (split_on sep rest) as [|w ws] eqn:E; [contradiction|].
  destruct (N.eqb_spec c sep) as [->|Hc].
  - change (sep :: join_with sep (w :: ws) = sep :: rest). rewrite IH. reflexivity.
  - rewrite join_with_cons_cons, IH. reflexivity.
Qed.

Lemma split_on_head sep s :
  exists w rest, head (split_on sep s) = Some w /\ sep ∉ w /\ s = w ++ rest
                 /\ (rest = [] \/ exists r, rest = sep :: r).
Proof.
  induction s as [|c s IH].
  - exists [], []. split; [reflexivity|]. split; [apply not_elem_of_nil|].
    split; [reflexivity|]. left. reflexivity.
  - simpl. destruct (N.eqb_spec c sep) as [->|Hc].
    + exists [], (sep :: s). split; [reflexivity|]. split; [apply not_elem_of_nil|].
      split; [reflexivity|]. right. exists s. reflexivity.
    + destruct IH as (w & rest & Hh & Hw & -> & Hr).
      destruct (split_on sep (w ++ rest)) as [|w' ws] eqn:E; [discriminate Hh|].
      simpl in Hh. injection Hh as ->.
      exists (c :: w), rest. split; [reflexivity|].
      split; [|split; [reflexivity|exact Hr]].
      intros Hin. apply elem_of_cons in Hin as [Hin|Hin]; [congruence|contradiction].
Qed.

Lemma endswith_app suffix x : endswith suffix (x ++ suffix) = true.
Proof.
  unfold endswith. apply bool_decide_eq_true_2.
  rewrite length_app. replace (length x + length suffix - length suffix)%nat with (length x) by lia.
  rewrite drop_app_length. reflexivity.
Qed.

Lemma filter_all {A} (P : A -> Prop) `{!forall x, Decision (P x)} (l : list A) :
  Forall P l -> filter P l = l.
Proof.
  induction 1 as [|x l Hx _ IH]; [reflexivity|].
  rewrite filter_cons, decide_True by exact Hx. rewrite IH. reflexivity.
Qed.

Lemma Forall_filter_elem {A} (P : A -> Prop) `{!forall x, Decision (P x)} (l : list A) :
  Forall P (filter P l).
Proof.
  apply Forall_forall. intros x Hx. apply list_elem_of_filter in Hx. tauto.
Qed.

(** ** Padding and expansion keep opacities in range *)

Lemma map_imap_layer (f : nat -> pystr -> layer_opacity_style) (l : list pystr) :
  (forall i x, lo_layer (f i x) = x) -> map lo_layer (imap f l) = l.
Proof.
  revert f. induction l as [|x l IH]; intros f Hf; [reflexivity|].
  simpl. rewrite Hf, IH; [reflexivity|]. intros i y. apply Hf.
Qed.

Lemma Forall_imap_all {A B} (P : B -> Prop) (f : nat -> A -> B) (l : list A) :
  (forall i x, P (f i x)) -> Forall P (imap f l).
Proof.
  revert f. induction l as [|x l IH]; intros f Hf; simpl; constructor; [apply Hf|].
  apply IH. intros i y. apply Hf.
Qed.

Lemma padded_shape is_space digit_value requested_layers opacities_param styles_param :
  let es := padded_opacities_styles is_space digit_value requested_layers
              opacities_param styles_param in
  map lo_layer es = requested_layers
  /\ Forall (fun e => (0 <= lo_opacity e <= 255)%Z) es.
Proof.
  simpl. unfold padded_opacities_styles. split.
  - apply map_imap_layer. intros i x. reflexivity.
  - apply Forall_imap_all. intros i x. simpl.
    destruct (bool_decide _).
    + destruct (py_int _ _ _) as [o|]; [|lia].
      destruct (Z.ltb_spec o 0), (Z.ltb_spec 255 o); simpl; lia.
    + destruct (Nat.eqb i 0 && _); lia.
Qed.

Lemma quot_percent_bounds (o c : Z) :
  (0 <= o <= 255)%Z -> (0 <= c <= 100)%Z -> (0 <= Z.quot (o * c) 100 <= 255)%Z.
Proof.
  intros Ho Hc. rewrite Z.quot_div_nonneg by nia. split.
  - apply Z.div_pos; nia.
  - apply Z.div_le_upper_bound; nia.
Qed.

Lemma expand_ops_bounds fuel los rgl hso out :
  map_Forall (fun _ c => (0 <= c <= 100)%Z) hso ->
  Forall (fun e => (0 <= lo_opacity e <= 255)%Z) los ->
  expand_group_layers_opacities_styles fuel los rgl hso = Some out ->
  Forall (fun e => (0 <= lo_opacity e <= 255)%Z) out.
Proof.
  intros Hhso. revert los out. induction fuel as [|fuel IHfuel]; intros los out Hlos H;
    [discriminate|].
  revert out H. induction Hlos as [|lo rest Hlo Hrest IHlos]; intros out H.
  - simpl in H. injection H as <-. constructor.
  - rewrite expand_cons, expand_ops_single in H.
    destruct (rgl !! lo_layer lo) as [subs|].
    + destruct (expand_group_layers_opacities_styles fuel _ rgl hso) as [e|] eqn:He;
        [|discriminate H].
      destruct (expand_group_layers_opacities_styles (S fuel) rest rgl hso) as [r|] eqn:Hr;
        [|discriminate H].
      simpl in H. injection H as <-. apply Forall_app. split; [|exact (IHlos r eq_refl)].
      eapply IHfuel; [|exact He].
      apply Forall_forall. intros x Hx. apply list_elem_of_In, in_map_iff in Hx as (s & <- & _).
      simpl. destruct (hso !! s) as [c|] eqn:Hs; [|exact Hlo].
      apply quot_percent_bounds; [exact Hlo|]. exact (Hhso s c Hs).
    + destruct (expand_group_layers_opacities_styles (S fuel) rest rgl hso) as [r|] eqn:Hr;
        [|discriminate H].
      simpl in H. injection H as <-. constructor; [exact Hlo|exact (IHlos r eq_refl)].
Qed.

(** ** Parameter rewriting of [adjust_params] *)

Lemma adjust_params_version_wms params :
  params !! py "SERVICE" = Some (py "WMS") -> adjust_params_version params = params.
Proof.
  intros HS. unfold adjust_params_version. rewrite HS.
  destruct (decide _) as [[Heq _]|_]; [vm_compute in Heq; discriminate Heq|reflexivity].
Qed.

Lemma rewrite_external_wms_urls_step_lookup (url_sub : pystr -> pystr -> pystr) (origin : pystr)
    (params : params_t) (layer k : pystr) :
  (startswith (py "EXTERNAL_WMS:") layer = true -> k <> drop 13 layer ++ py ":URL") ->
  (if negb (startswith (py "EXTERNAL_WMS:") layer) then params
   else match params !! (drop 13 layer ++ py ":URL") with
        | None => params
        | Some url => <[drop 13 layer ++ py ":URL" := url_sub origin url]> params
        end) !! k = params !! k.
Proof.
  intros Hk. destruct (startswith (py "EXTERNAL_WMS:") layer); [|reflexivity].
  simpl. destruct (params !! _); [|reflexivity].
  apply lookup_insert_ne. intros Heq. apply (Hk eq_refl). symmetry. exact Heq.
Qed.

Lemma rewrite_external_wms_urls_lookup url_sub origin ls params k :
  (forall l, l ∈ ls -> startswith (py "EXTERNAL_WMS:") l = true -> k <> drop 13 l ++ py ":URL") ->
  rewrite_external_wms_urls url_sub origin ls params !! k = params !! k.
Proof.
  destruct origin as [|o os]; [reflexivity|]. unfold rewrite_external_wms_urls.
  revert params. induction ls as [|l ls IH]; intros params Hk; [reflexivity|].
  cbn [foldl]. rewrite IH.
  - apply rewrite_external_wms_urls_step_lookup. apply Hk. apply elem_of_cons. left. reflexivity.
  - intros l' Hl'. apply Hk. apply elem_of_cons. right. exact Hl'.
Qed.

Lemma rewrite_external_wms_urls_not_url url_sub origin ls params k :
  endswith (py ":URL") k = false ->
  rewrite_external_wms_urls url_sub origin ls params !! k = params !! k.
Proof.
  intros Hk. apply rewrite_external_wms_urls_lookup. intros l _ _ ->.
  rewrite endswith_app in Hk. discriminate Hk.
Qed.

Lemma rewrite_external_wms_urls_is_Some url_sub origin ls params k :
  is_Some (rewrite_external_wms_urls url_sub origin ls params !! k) <-> is_Some (params !! k).
Proof.
  destruct origin as [|o os]; [reflexivity|]. unfold rewrite_external_wms_urls.
  revert params. induction ls as [|l ls IH]; intros params; [reflexivity|].
  cbn [foldl]. rewrite IH. destruct (startswith (py "EXTERNAL_WMS:") l); [|reflexivity].
  simpl. destruct (params !! (drop 13 l ++ py ":URL")) as [url|] eqn:Hu; [|reflexivity].
  destruct (decide (drop 13 l ++ py ":URL" = k)) as [<-|Hne].
  - rewrite lookup_insert_eq, Hu. split; intros _; eexists; reflexivity.
  - rewrite lookup_insert_ne by exact Hne. reflexivity.
Qed.

Lemma adjust_marker_lookup marker_template marker_geom_template params method params' m :
  adjust_marker marker_template marker_geom_template params method = inr (params', m) ->
  (m = method \/ m = py "POST")
  /\ forall k, k <> py "HIGHLIGHT_GEOM" -> k <> py "HIGHLIGHT_SYMBOL" -> params' !! k = params !! k.
Proof.
  unfold adjust_marker. intros H.
  destruct (params !! py "MARKER") as [marker|], marker_template as [template|];
    try (injection H as <- <-; split; [left; reflexivity|reflexivity]).
  destruct (marker_geom_template marker template) as [e|[geom tmpl]]; [discriminate H|].
  injection H as <- <-. split; [right; reflexivity|].
  intros k Hg Hs. rewrite !lookup_insert_ne by congruence. reflexivity.
Qed.

Lemma adjust_expand_layers is_space digit_value requested_layers params permissions es :
  adjust_expand_opacities_styles is_space digit_value requested_layers params permissions = Some es ->
  expand_group_layers recursion_limit requested_layers (ps_restricted_group_layers permissions)
    = Some (map lo_layer es)
  /\ Forall (fun e => ps_restricted_group_layers permissions !! lo_layer e = None) es
  /\ (map_Forall (fun _ c => (0 <= c <= 100)%Z) (ps_hidden_sublayer_opacities permissions) ->
      Forall (fun e => (0 <= lo_opacity e <= 255)%Z) es).
Proof.
  unfold adjust_expand_opacities_styles. intros He.
  destruct (padded_shape is_space digit_value requested_layers (params !! py "OPACITIES")
              (params !! py "STYLES")) as [Hl Hb].
  assert (Hx : expand_group_layers recursion_limit requested_layers
                 (ps_restricted_group_layers permissions) = Some (map lo_layer es)).
  { rewrite <- Hl at 1.
    rewrite <- (expand_layers_agree _ _ _ (ps_hidden_sublayer_opacities permissions)), He.
    reflexivity. }
  split; [exact Hx|]. split.
  - apply Forall_forall. intros e He'.
    apply (expand_group_layers_sound _ _ _ _ Hx).
    apply list_elem_of_In, in_map, list_elem_of_In. exact He'.
  - intros Hhso. exact (expand_ops_bounds _ _ _ _ _ Hhso Hb He).
Qed.

(** ** Layer name patterns of [check_layers] *)

Lemma split_on_no_sep sep s : sep ∉ s -> split_on sep s = [s].
Proof.
  induction s as [|c s IH]; intros Hs; [reflexivity|]. cbn [split_on].
  destruct (N.eqb_spec c sep) as [->|Hc].
  - exfalso. apply Hs. apply elem_of_cons. left. reflexivity.
  - rewrite IH; [reflexivity|]. intros Hin. apply Hs. apply elem_of_cons. right. exact Hin.
Qed.

Lemma existsb_eqb_false c l : c ∉ l -> existsb (N.eqb c) l = false.
Proof.
  induction l as [|x l IH]; intros Hl; [reflexivity|]. simpl.
  destruct (N.eqb_spec c x) as [->|_].
  - exfalso. apply Hl. apply elem_of_cons. left. reflexivity.
  - apply IH. intros Hin. apply Hl. apply elem_of_cons. right. exact Hin.
Qed.

Lemma endswith_single_elem c l : endswith [c] l = true -> c ∈ l.
Proof.
  unfold endswith. intros H. apply bool_decide_eq_true_1 in H.
  rewrite <- (take_drop (length l - length [c]) l), H.
  apply elem_of_app. right. apply elem_of_cons. left. reflexivity.
Qed.

Lemma startswith_app p x : startswith p (p ++ x) = true.
Proof.
  unfold startswith. apply bool_decide_eq_true_2. apply take_app_length.
Qed.

Lemma re_layer_match_app prefix a b :
  a <> [] -> b <> [] -> chr_newline ∉ a ++ b ->
  re_layer_match prefix (prefix ++ a ++ chr_hash :: b) = true.
Proof.
  intros Ha Hb Hn. unfold re_layer_match. rewrite startswith_app. cbn [andb].
  rewrite drop_app_length.
  assert (Hn' : chr_newline ∉ a ++ chr_hash :: b).
  { intros Hin. apply elem_of_app in Hin as [Hin|Hin].
    - apply Hn. apply elem_of_app. left. exact Hin.
    - apply elem_of_cons in Hin as [Hin|Hin]; [discriminate Hin|].
      apply Hn. apply elem_of_app. right. exact Hin. }
  destruct (endswith [chr_newline] (a ++ chr_hash :: b)) eqn:He.
  { exfalso. exact (Hn' (endswith_single_elem _ _ He)). }
  rewrite existsb_eqb_false by exact Hn'. cbn [negb andb].
  apply existsb_exists. exists (length a). split.
  - apply in_seq. destruct a as [|x a]; [contradiction|]. destruct b as [|y b]; [contradiction|].
    rewrite length_app. simpl. lia.
  - apply bool_decide_eq_true_2. apply list_lookup_middle. reflexivity.
Qed.

(** ** The typename map of [wfs_response_filters] *)

Lemma get_permitted_typename_map_snoc public_layers x k :
  get_permitted_typename_map (public_layers ++ [x]) !! k =
  if decide (wfs_clean_layer_name x = k) then Some x
  else get_permitted_typename_map public_layers !! k.
Proof.
  unfold get_permitted_typename_map. rewrite foldl_app. cbn [foldl].
  destruct (decide (wfs_clean_layer_name x = k)) as [<-|Hne].
  - apply lookup_insert_eq.
  - apply lookup_insert_ne. exact Hne.
Qed.

Lemma get_permitted_typename_map_lookup_spec public_layers k v :
  get_permitted_typename_map public_layers !! k = Some v <->
  exists pre post, public_layers = pre ++ v :: post /\ wfs_clean_layer_name v = k
                   /\ Forall (fun l => wfs_clean_layer_name l <> k) post.
Proof.
  induction public_layers as [|x l IH] using rev_ind.
  - split; [intros H; discriminate H|]. intros (pre & post & H & _).
    destruct pre; discriminate H.
  - rewrite get_permitted_typename_map_snoc.
    destruct (decide (wfs_clean_layer_name x = k)) as [Hx|Hx].
    + split.
      * intros H. injection H as <-. exists l, []. split; [reflexivity|].
        split; [exact Hx|constructor].
      * intros (pre & post & Heq & Hv & Hpost). f_equal.
        destruct post as [|y post _] using rev_ind.
        -- apply app_inj_tail in Heq as [_ Hxv]. exact Hxv.
        -- rewrite app_comm_cons, app_assoc in Heq. apply app_inj_tail in Heq as [_ <-].
           apply Forall_app in Hpost as [_ Hy]. inversion Hy. contradiction.
    + rewrite IH. split.
      * intros (pre & post & -> & Hv & Hpost). exists pre, (post ++ [x]).
        split; [rewrite <- app_assoc; reflexivity|]. split; [exact Hv|].
        apply Forall_app. split; [exact Hpost|]. constructor; [exact Hx|constructor].
      * intros (pre & post & Heq & Hv & Hpost).
        destruct post as [|y post _] using rev_ind.
        -- apply app_inj_tail in Heq as [_ <-]. contradiction.
        -- rewrite app_comm_cons, app_assoc in Heq. apply app_inj_tail in Heq as [-> _].
           exists pre, post. split; [reflexivity|]. split; [exact Hv|].
           apply Forall_app in Hpost as [Hpost _]. exact Hpost.
Qed.

Lemma get_permitted_typename_map_dom public_layers k :
  k ∈ dom (get_permitted_typename_map public_layers) <->
  exists l, l ∈ public_layers /\ wfs_clean_layer_name l = k.
Proof.
  rewrite elem_of_dom. split.
  - intros [v Hv]. apply get_permitted_typename_map_lookup_spec in Hv as (pre & post & -> & Hv & _).
    exists v. split; [|exact Hv]. apply elem_of_app. right. apply elem_of_cons. left. reflexivity.
  - intros (l & Hl & Hk). induction public_layers as [|x ls IH] using rev_ind.
    + apply elem_of_nil in Hl. contradiction.
    + rewrite get_permitted_typename_map_snoc.
      destruct (decide (wfs_clean_layer_name x = k)); [eexists; reflexivity|].
      apply IH. apply elem_of_app in Hl as [Hl|Hl]; [exact Hl|].
      apply elem_of_cons in Hl as [->|Hl]; [contradiction|apply elem_of_nil in Hl; contradiction].
Qed.

(** ** The GML info format pattern of [check_request] *)

Lemma re_gml_info_format_match_suffix suffix :
  chr_newline ∉ suffix ->
  re_gml_info_format_match (py "application/vnd.ogc.gml" ++ suffix) = negb (bool_decide (suffix = [])).
Proof.
  intros Hs. unfold re_gml_info_format_match.
  assert (Hn : chr_newline ∉ py "application/vnd.ogc.gml" ++ suffix).
  { intros Hin. apply elem_of_app in Hin as [Hin|Hin]; [|exact (Hs Hin)].
    unfold py in Hin. simpl in Hin.
    repeat (apply elem_of_cons in Hin as [Hin|Hin]; [discriminate Hin|]).
    apply elem_of_nil in Hin. exact Hin. }
  destruct (endswith [chr_newline] _) eqn:He.
  { exfalso. exact (Hn (endswith_single_elem _ _ He)). }
  rewrite existsb_eqb_false by exact Hn. cbn [negb andb].
  change (py "application/vnd.ogc.gml") with (py "application/vnd" ++ py ".ogc.gml").
  rewrite <- app_assoc, startswith_app. cbn [andb].
  change 15%nat with (length (py "application/vnd")). rewrite drop_app_length.
  destruct suffix as [|c s]; reflexivity.
Qed.

Lemma check_layers_codes layer_param params permitted_layers mandatory e :
  check_layers layer_param params permitted_layers mandatory = Some e ->
  fst e ∈ [py "LayerNotDefined"; py "MissingParameterValue"].
Proof.
  unfold check_layers. intros H.
  destruct (params !! layer_param) as [[|c r]|].
  2: { destruct (filter _ _); [discriminate H|]. injection H as <-.
       apply elem_of_cons. left. reflexivity. }
  all: destruct mandatory; [|discriminate H]; injection H as <-;
       apply elem_of_cons; right; apply elem_of_cons; left; reflexivity.
Qed.

(** ** [get_map_param_prefix] *)

Lemma get_map_param_prefix_items_none items :
  Forall (fun kv => endswith (py ":EXTENT") kv.1 = false) items ->
  get_map_param_prefix_items items = [].
Proof.
  induction 1 as [|[k v] items Hk _ IH]; [reflexivity|]. simpl in Hk. simpl. rewrite Hk. exact IH.
Qed.

Lemma get_map_param_prefix_items_first pre key value post :
  Forall (fun kv => endswith (py ":EXTENT") kv.1 = false) pre ->
  endswith (py ":EXTENT") key = true ->
  get_map_param_prefix_items (pre ++ (key, value) :: post) ++ py ":EXTENT" = key.
Proof.
  induction 1 as [|[k v] pre Hk _ IH]; intros He.
  - simpl. rewrite He. unfold endswith in He. apply bool_decide_eq_true_1 in He.
    change (length (py ":EXTENT")) with 7%nat in He. rewrite <- He. apply take_drop.
  - simpl in Hk. simpl. rewrite Hk. exact (IH He).
Qed.

(** ** [xml_escape] *)

Lemma xml_escape_inj a b : xml_escape a = xml_escape b -> a = b.
Proof.
  unfold xml_escape. revert b. induction a as [|c a IH]; intros [|d b] H.
  - reflexivity.
  - exfalso. cbn [flat_map] in H.
    destruct (N.eqb d 38); [discriminate H|]. destruct (N.eqb d 60); [discriminate H|].
    destruct (N.eqb d 62); discriminate H.
  - exfalso. cbn [flat_map] in H.
    destruct (N.eqb c 38); [discriminate H|]. destruct (N.eqb c 60); [discriminate H|].
    destruct (N.eqb c 62); discriminate H.
  - cbn [flat_map] in H.
    destruct (N.eqb_spec c 38) as [->|Hc1];
      [|destruct (N.eqb_spec c 60) as [->|Hc2]; [|destruct (N.eqb_spec c 62) as [->|Hc3]]];
    destruct (N.eqb_spec d 38) as [->|Hd1];
      try (destruct (N.eqb_spec d 60) as [->|Hd2]; [|destruct (N.eqb_spec d 62) as [->|Hd3]]);
    simpl in H; simplify_eq; f_equal; apply IH; assumption.
Qed.

Lemma xml_escape_no_angle message c : c ∈ xml_escape message -> c <> 60%N /\ c <> 62%N.
Proof.
  unfold xml_escape. induction message as [|d message IH]; intros Hin.
  - apply elem_of_nil in Hin. contradiction.
  - cbn [flat_map] in Hin. apply elem_of_app in Hin as [Hin|Hin]; [|exact (IH Hin)].
    destruct (N.eqb_spec d 38) as [->|Hd1];
      [|destruct (N.eqb_spec d 60) as [->|Hd2]; [|destruct (N.eqb_spec d 62) as [->|Hd3]]];
      simpl in Hin;
      repeat (apply elem_of_cons in Hin as [->|Hin]; [split; try assumption; discriminate|]);
      apply elem_of_nil in Hin; contradiction.
Qed.

Lemma service_exception_inj code m1 m2 :
  service_exception code m1 = service_exception code m2 -> m1 = m2.
Proof.
  unfold service_exception. intros H.
  repeat (apply app_inv_head in H). apply app_inv_tail in H. exact (xml_escape_inj _ _ H).
Qed.

(** ** The attribute loop of [wfs_getfeature_gml] *)

Lemma iter_remove_done keep fuel i cs : cs !! i = None -> iter_remove keep fuel i cs = cs.
Proof. intros H. destruct fuel; simpl; [reflexivity|]. rewrite H. reflexivity. Qed.

Lemma iter_remove_sublist keep fuel i cs : iter_remove keep fuel i cs `sublist_of` cs.
Proof.
  revert i cs. induction fuel as [|fuel IH]; intros i cs; simpl; [reflexivity|].
  destruct (cs !! i) as [x|] eqn:Hx; [|reflexivity].
  destruct (keep x); [apply IH|].
  etransitivity; [apply IH|]. apply sublist_delete.
Qed.

Lemma filter_delete_removed (keep : xml -> bool) (cs : list xml) (i : nat) x :
  cs !! i = Some x -> keep x = false ->
  filter (fun y => keep y = true) (delete i cs) = filter (fun y => keep y = true) cs.
Proof.
  intros Hx Hk. apply take_drop_middle in Hx.
  rewrite delete_take_drop. set (T := take i cs) in *. set (D := drop (S i) cs) in *.
  rewrite <- Hx. rewrite !filter_app, filter_cons_False; [reflexivity|].
  rewrite Hk. discriminate.
Qed.

Lemma iter_remove_filter keep fuel i cs :
  filter (fun y => keep y = true) (iter_remove keep fuel i cs) = filter (fun y => keep y = true) cs.
Proof.
  revert i cs. induction fuel as [|fuel IH]; intros i cs; simpl; [reflexivity|].
  destruct (cs !! i) as [x|] eqn:Hx; [|reflexivity].
  destruct (keep x) eqn:Hk; [apply IH|].
  rewrite IH. exact (filter_delete_removed keep cs i x Hx Hk).
Qed.

Lemma iter_remove_all_removed keep fuel P rest :
  Forall (fun x => keep x = false) rest -> (length rest <= fuel)%nat ->
  exists R, iter_remove keep fuel (length P) (P ++ rest) = P ++ R
    /\ length R = (length rest / 2)%nat /\ forall j, R !! j = rest !! (2 * j + 1)%nat.
Proof.
  revert P rest. induction fuel as [|fuel IH]; intros P rest Hall Hlen.
  - destruct rest as [|x rest]; [|simpl in Hlen; lia].
    exists []. split; [reflexivity|]. split; [reflexivity|]. intros j. reflexivity.
  - destruct rest as [|x [|y rest]].
    + exists []. rewrite app_nil_r. split; [apply iter_remove_done, lookup_ge_None_2; lia|].
      split; [reflexivity|]. intros j. reflexivity.
    + inversion Hall as [|? ? Hx _]; subst. exists []. split.
      * cbn [iter_remove]. rewrite list_lookup_middle by reflexivity. rewrite Hx.
        rewrite delete_middle, app_nil_r. apply iter_remove_done, lookup_ge_None_2. lia.
      * split; [reflexivity|]. intros j. symmetry. apply lookup_ge_None_2. simpl. lia.
    + inversion Hall as [|? ? Hx Hall']; subst. inversion Hall' as [|? ? Hy Hrest]; subst.
      destruct (IH (P ++ [y]) rest Hrest) as (R & HR & Hl & Hj); [simpl in Hlen; lia|].
      exists (y :: R). split; [|split].
      * cbn [iter_remove]. rewrite list_lookup_middle by reflexivity. rewrite Hx.
        rewrite delete_middle.
        replace (S (length P)) with (length (P ++ [y])) by (rewrite length_app; simpl; lia).
        replace (P ++ y :: rest) with ((P ++ [y]) ++ rest) by (rewrite <- app_assoc; reflexivity).
        rewrite HR, <- app_assoc. reflexivity.
      * cbn [length]. rewrite Hl.
        replace (S (S (length rest))) with (length rest + 1 * 2)%nat by lia.
        rewrite Nat.div_add by lia. rewrite Nat.add_1_r. reflexivity.
      * intros [|j]; [reflexivity|]. change ((y :: R) !! S j) with (R !! j). rewrite Hj.
        replace (2 * S j + 1)%nat with (S (S (2 * j + 1))) by lia. reflexivity.
Qed.

Section AdjustParamsProps.
Context (py_upper : pystr -> pystr) (is_space : N -> bool) (digit_value : N -> option Z).
Context (get_map_param_prefix : params_t -> pystr) (url_sub : pystr -> pystr -> pystr).
Context (marker_template : option pystr).
Context (marker_geom_template : pystr -> pystr -> py_exception + (pystr * pystr)).
Context (legend_default_font_size : option pystr).

Local Notation adjust := (adjust_params py_upper is_space digit_value get_map_param_prefix
                            url_sub marker_template marker_geom_template legend_default_font_size).

(** GETMAP branch of [OGCService.adjust_params]: after a successful
    adjustment of a WMS GetMap request with a non-empty LAYERS, the
    parameters LAYERS, OPACITIES and STYLES are the comma-joined layers,
    opacities and styles of one list of entries [es]; its layers are the
    plain group expansion of the requested layers, none of them is a
    restricted group, and its opacities stay in [0, 255] when the hidden
    sublayer percentages are in [0, 100]. *)
Lemma adjust_params_getmap_aligned params permissions origin method params' method' requested :
  params !! py "SERVICE" = Some (py "WMS") ->
  py_upper (default [] (params !! py "REQUEST")) = py "GETMAP" ->
  params !! py "LAYERS" = Some requested -> requested <> [] ->
  adjust params permissions origin method = inr (params', method') ->
  exists es,
    expand_group_layers recursion_limit (split_on chr_comma requested)
      (ps_restricted_group_layers permissions) = Some (map lo_layer es)
    /\ params' !! py "LAYERS" = Some (join_layers es)
    /\ params' !! py "OPACITIES" = Some (join_opacities es)
    /\ params' !! py "STYLES" = Some (join_styles es)
    /\ Forall (fun e => ps_restricted_group_layers permissions !! lo_layer e = None) es
    /\ (map_Forall (fun _ c => (0 <= c <= 100)%Z) (ps_hidden_sublayer_opacities permissions) ->
        Forall (fun e => (0 <= lo_opacity e <= 255)%Z) es).
Proof.
  intros HS HR HL Hne H. unfold adjust_params in H. cbv zeta in H.
  rewrite HS, HR, (adjust_params_version_wms _ HS) in H.
  rewrite bool_decide_true in H by (split; reflexivity).
  rewrite HL in H. destruct requested as [|c r]; [contradiction|].
  destruct (adjust_expand_opacities_styles _ _ _ _ _) as [es|] eqn:He; [|discriminate H].
  apply adjust_marker_lookup in H as [_ Hk].
  apply adjust_expand_layers in He as (Hx & Hg & Hb).
  exists es. split; [exact Hx|].
  rewrite !Hk by (vm_compute; congruence).
  rewrite !rewrite_external_wms_urls_not_url by reflexivity.
  split; [rewrite !lookup_insert_ne by (vm_compute; congruence); apply lookup_insert_eq|].
  split; [rewrite lookup_insert_ne by (vm_compute; congruence); apply lookup_insert_eq|].
  split; [apply lookup_insert_eq|].
  split; [exact Hg|exact Hb].
Qed.

(** GETFEATUREINFO branch of [OGCService.adjust_params]: for a WMS
    GetFeatureInfo request with QUERY_LAYERS, a successful adjustment
    keeps the method and every other parameter, and sets QUERY_LAYERS to
    a comma-joined list of queryable layers none of which is a restricted
    group; when every requested query layer already is a queryable
    non-group layer, the parameters are left unchanged. *)
Lemma adjust_params_getfeatureinfo params permissions origin method params' method' requested :
  params !! py "SERVICE" = Some (py "WMS") ->
  py_upper (default [] (params !! py "REQUEST")) = py "GETFEATUREINFO" ->
  params !! py "QUERY_LAYERS" = Some requested ->
  adjust params permissions origin method = inr (params', method') ->
  method' = method
  /\ (forall k, k <> py "QUERY_LAYERS" -> params' !! k = params !! k)
  /\ (exists ls, params' !! py "QUERY_LAYERS" = Some (join_with chr_comma ls)
        /\ Forall (fun l => l ∈ ps_queryable_layers permissions
                           /\ ps_restricted_group_layers permissions !! l = None) ls)
  /\ (Forall (fun l => l ∈ ps_queryable_layers permissions
                       /\ ps_restricted_group_layers permissions !! l = None)
        (split_on chr_comma requested) -> params' = params).
Proof.
  intros HS HR HQ H. unfold adjust_params in H. cbv zeta in H.
  rewrite HS, HR, (adjust_params_version_wms _ HS) in H.
  rewrite bool_decide_false in H by (intros [_ Heq]; vm_compute in Heq; discriminate Heq).
  rewrite bool_decide_true in H by (split; reflexivity).
  rewrite HQ in H. destruct requested as [|c r].
  - injection H as <- <-. split; [reflexivity|]. split; [reflexivity|].
    split; [exists []; split; [exact HQ|constructor]|reflexivity].
  - set (L := split_on chr_comma (c :: r)) in *.
    destruct (expand_group_layers recursion_limit _ _) as [out|] eqn:Hx; [|discriminate H].
    injection H as <- <-. split; [reflexivity|].
    split; [intros k Hk; apply lookup_insert_ne; congruence|].
    split.
    + eexists. split; [apply lookup_insert_eq|].
      apply Forall_rev, Forall_forall. intros l Hl.
      apply list_elem_of_filter in Hl as [Hq Hl]. split; [exact Hq|].
      exact (proj1 (expand_group_layers_sound _ _ _ _ Hx l Hl)).
    + intros Hall. unfold recursion_limit in Hx.
      rewrite expand_group_layers_leaves in Hx
        by (apply Forall_rev; eapply Forall_impl; [exact Hall|]; intros l [_ Hl]; exact Hl).
      injection Hx as <-. rewrite filter_all.
      * rewrite rev_involutive. unfold L. rewrite join_split. apply insert_id. exact HQ.
      * apply Forall_rev. eapply Forall_impl; [exact Hall|]. intros l [Hl _]. exact Hl.
Qed.

(** GETLEGENDGRAPHIC(S) branch of [OGCService.adjust_params]: for a WMS
    legend request with a non-empty LAYER, a successful adjustment keeps
    the method, sets LAYER to the joined group expansion of the requested
    layers, and sets FORMAT to the part of the old FORMAT before its
    first ';'; a LAYERFONTSIZE or ITEMFONTSIZE already given is kept,
    and a missing one is set to the configured default size when there is
    one. *)
Lemma adjust_params_legend params permissions origin method params' method' requested :
  params !! py "SERVICE" = Some (py "WMS") ->
  py_upper (default [] (params !! py "REQUEST")) ∈ [py "GETLEGENDGRAPHIC"; py "GETLEGENDGRAPHICS"] ->
  params !! py "LAYER" = Some requested -> requested <> [] ->
  adjust params permissions origin method = inr (params', method') ->
  method' = method
  /\ (exists ls, expand_group_layers recursion_limit (split_on chr_comma requested)
                   (ps_restricted_group_layers permissions) = Some ls
                 /\ params' !! py "LAYER" = Some (join_with chr_comma ls))
  /\ (exists format rest, params' !! py "FORMAT" = Some format
        /\ default [] (params !! py "FORMAT") = format ++ rest
        /\ chr_semicolon ∉ format /\ (rest = [] \/ exists r, rest = chr_semicolon :: r))
  /\ (forall k, k ∈ [py "LAYERFONTSIZE"; py "ITEMFONTSIZE"] ->
        params' !! k = match params !! k, legend_default_font_size with
                       | Some v, _ => Some v
                       | None, size => size
                       end).
Proof.
  intros HS HR HL Hne H. unfold adjust_params in H. cbv zeta in H.
  rewrite HS, (adjust_params_version_wms _ HS) in H.
  assert (HR' : py_upper (default [] (params !! py "REQUEST")) <> py "GETMAP"
                /\ py_upper (default [] (params !! py "REQUEST")) <> py "GETFEATUREINFO").
  { apply elem_of_cons in HR as [->|HR];
      [|apply elem_of_cons in HR as [->|HR]; [|apply elem_of_nil in HR; contradiction]];
      split; vm_compute; congruence. }
  rewrite bool_decide_false in H by (intros [_ Heq]; exact (proj1 HR' Heq)).
  rewrite bool_decide_false in H by (intros [_ Heq]; exact (proj2 HR' Heq)).
  rewrite bool_decide_true in H by (split; [reflexivity|exact HR]).
  rewrite HL in H. destruct requested as [|c r]; [contradiction|].
  destruct (expand_group_layers recursion_limit _ _) as [ls|] eqn:Hx; [|discriminate H].
  injection H as Hp <-. split; [reflexivity|].
  set (p1 := <[py "LAYER" := join_with chr_comma ls]> params) in Hp.
  set (fmt := default [] (head (split_on chr_semicolon (default [] (p1 !! py "FORMAT"))))) in Hp.
  set (p2 := <[py "FORMAT" := fmt]> p1) in Hp.
  assert (Hp2 : forall k, k <> py "LAYERFONTSIZE" -> k <> py "ITEMFONTSIZE" -> params' !! k = p2 !! k).
  { intros k H1 H2. rewrite <- Hp. destruct legend_default_font_size as [size|]; [|reflexivity].
    destruct (bool_decide (is_Some (p2 !! py "LAYERFONTSIZE")));
      destruct (bool_decide (is_Some _)); rewrite ?lookup_insert_ne by congruence; reflexivity. }
  split; [|split].
  - exists ls. split; [reflexivity|].
    rewrite Hp2 by (vm_compute; congruence). subst p2.
    rewrite lookup_insert_ne by (vm_compute; congruence). apply lookup_insert_eq.
  - destruct (split_on_head chr_semicolon (default [] (params !! py "FORMAT")))
      as (w & rest & Hh & Hw & Hs & Hr).
    exists w, rest. split; [|split; [exact Hs|split; [exact Hw|exact Hr]]].
    rewrite Hp2 by (vm_compute; congruence). subst p2. rewrite lookup_insert_eq.
    subst fmt p1. rewrite lookup_insert_ne by (vm_compute; congruence). rewrite Hh. reflexivity.
  - assert (Hp2f : forall k, k ∈ [py "LAYERFONTSIZE"; py "ITEMFONTSIZE"] -> p2 !! k = params !! k).
    { intros k Hk. subst p2 p1.
      apply elem_of_cons in Hk as [->|Hk];
        [|apply elem_of_cons in Hk as [->|Hk]; [|apply elem_of_nil in Hk; contradiction]];
        rewrite !lookup_insert_ne by (vm_compute; congruence); reflexivity. }
    intros k Hk. rewrite <- (Hp2f k Hk). rewrite <- Hp. clear Hp.
    destruct legend_default_font_size as [size|].
    + assert (Hfs : py "LAYERFONTSIZE" <> py "ITEMFONTSIZE") by (vm_compute; congruence).
      apply elem_of_cons in Hk as [->|Hk];
        [|apply elem_of_cons in Hk as [->|Hk]; [|apply elem_of_nil in Hk; contradiction]];
      (destruct (p2 !! py "LAYERFONTSIZE") as [v1|] eqn:H1;
        [rewrite !(bool_decide_true (is_Some (Some v1))) by (eexists; reflexivity)
        |rewrite !(bool_decide_false (is_Some None)) by (intros [? Hc]; discriminate Hc);
         rewrite (lookup_insert_ne p2 (py "LAYERFONTSIZE") (py "ITEMFONTSIZE")) by exact Hfs]);
      cbv beta iota;
      (destruct (p2 !! py "ITEMFONTSIZE") as [v2|] eqn:H2;
        [rewrite !(bool_decide_true (is_Some (Some v2))) by (eexists; reflexivity)
        |rewrite !(bool_decide_false (is_Some None)) by (intros [? Hc]; discriminate Hc)]);
      cbv beta iota;
      repeat first [rewrite lookup_insert_eq | rewrite lookup_insert_ne by (vm_compute; congruence)
                   | rewrite H1 | rewrite H2]; reflexivity.
    + destruct (p2 !! k); reflexivity.
Qed.

(** GETPRINT without map layers: [OGCService.check_request] lets a WMS
    GetPrint request with a permitted TEMPLATE pass when no parameter
    gives the layers of a map (the map prefix found by
    [get_map_param_prefix] is empty, or there is no "<prefix>:LAYERS"),
    and [OGCService.adjust_params] then raises an UnboundLocalError on
    [requested_layers]. *)
Lemma getprint_without_map_layers_unbound params p origin method request template :
  py_upper (py "WMS") = py "WMS" ->
  params !! py "SERVICE" = Some (py "WMS") ->
  params !! py "REQUEST" = Some request -> request <> [] -> py_upper request = py "GETPRINT" ->
  params !! py "TEMPLATE" = Some template -> template ∈ ps_print_templates p ->
  (get_map_param_prefix params = []
   \/ params !! (get_map_param_prefix params ++ py ":LAYERS") = None) ->
  check_request py_upper get_map_param_prefix params (WmsPermissions p) = inr (None, params)
  /\ adjust params p origin method = inl (PyError (UnboundLocalError (py "requested_layers"))).
Proof.
  intros Hup HS HRq Hne HR HT Ht Hm.
  assert (Hs : py_upper (default [] (params !! py "SERVICE")) = py "WMS") by (rewrite HS; exact Hup).
  assert (Hr : py_upper (default [] (params !! py "REQUEST")) = py "GETPRINT")
    by (rewrite HRq; exact HR).
  assert (Hmap : bool_decide (get_map_param_prefix params <> []
                              /\ is_Some (params !! (get_map_param_prefix params ++ py ":LAYERS")))
                 = false).
  { apply bool_decide_eq_false_2. intros [Hn [x Hx]].
    destruct Hm as [Hm|Hm]; [contradiction|congruence]. }
  split.
  - unfold check_request. cbv zeta. rewrite Hs, Hr, HS, HRq.
    destruct request as [|c r]; [contradiction|]. cbn [py_truthy negb orb].
    unfold check_request_service.
    rewrite (bool_decide_true (py "WMS" = py "WMS")) by reflexivity.
    rewrite (bool_decide_false (py "GETPRINT" = py "GETFEATUREINFO")) by (vm_compute; congruence).
    rewrite (bool_decide_true (py "GETPRINT" = py "GETPRINT")) by reflexivity.
    rewrite HT, bool_decide_false
      by (intros Hn; apply Hn, list_elem_of_In, in_map, list_elem_of_In; exact Ht).
    rewrite (bool_decide_true (py "WMS" = py "WMS" /\ py "GETPRINT" = py "GETPRINT"))
      by (split; reflexivity).
    rewrite Hmap. reflexivity.
  - unfold adjust_params. cbv zeta.
    rewrite HS, Hr, (adjust_params_version_wms _ HS).
    rewrite bool_decide_false by (intros [_ Heq]; vm_compute in Heq; discriminate Heq).
    rewrite bool_decide_false by (intros [_ Heq]; vm_compute in Heq; discriminate Heq).
    rewrite bool_decide_false
      by (intros [_ Heq]; repeat (apply elem_of_cons in Heq as [Heq|Heq];
                                  [vm_compute in Heq; discriminate Heq|]);
          apply elem_of_nil in Heq; exact Heq).
    rewrite bool_decide_true by (split; reflexivity).
    destruct Hm as [Hm|Hm].
    + rewrite Hm, bool_decide_false by (intros Hn; apply Hn; reflexivity). reflexivity.
    + rewrite Hm. destruct (bool_decide (get_map_param_prefix params <> [])); reflexivity.
Qed.

End AdjustParamsProps.

(** ** Layer checks of [OGCService.check_request] *)

(** [OGCService.check_layers] accepts a parameter exactly when it is
    truthy and each of its comma-separated entries is empty, matches the
    [wms:] or [wfs:] pattern, starts with [EXTERNAL_WMS:] or is permitted,
    or when it is falsy and not mandatory; its exceptions are
    LayerNotDefined and MissingParameterValue. *)
Lemma check_layers_accepts layer_param params permitted_layers mandatory :
  (check_layers layer_param params permitted_layers mandatory = None <->
   match params !! layer_param with
   | Some ((_ :: _) as requested_layers) =>
       Forall (fun layer => layer = [] \/ re_layer_match (py "wms:") layer = true
                            \/ re_layer_match (py "wfs:") layer = true
                            \/ startswith (py "EXTERNAL_WMS:") layer = true
                            \/ layer ∈ permitted_layers)
         (split_on chr_comma requested_layers)
   | _ => mandatory = false
   end)
  /\ (forall e, check_layers layer_param params permitted_layers mandatory = Some e ->
        fst e ∈ [py "LayerNotDefined"; py "MissingParameterValue"]).
Proof.
  split; [|apply check_layers_codes].
  unfold check_layers.
  destruct (params !! layer_param) as [[|c r]|].
  1, 3: destruct mandatory; split; intros H; try discriminate H; reflexivity.
  set (L := split_on chr_comma (c :: r)).
  destruct (filter _ L) as [|layer rest] eqn:Hf.
  - split; [intros _|reflexivity].
    apply Forall_forall. intros x Hx.
    destruct (decide (x = [])) as [|Hx1]; [left; assumption|right].
    destruct (re_layer_match (py "wms:") x) eqn:H1; [left; reflexivity|right].
    destruct (re_layer_match (py "wfs:") x) eqn:H2; [left; reflexivity|right].
    destruct (startswith (py "EXTERNAL_WMS:") x) eqn:H3; [left; reflexivity|right].
    destruct (decide (x ∈ permitted_layers)) as [|Hx5]; [assumption|exfalso].
    assert (Hin : x ∈ filter (fun layer => layer <> [] /\ re_layer_match (py "wms:") layer = false
              /\ re_layer_match (py "wfs:") layer = false
              /\ startswith (py "EXTERNAL_WMS:") layer = false
              /\ layer ∉ permitted_layers) L)
      by (apply list_elem_of_filter; split; [tauto|exact Hx]).
    rewrite Hf in Hin. apply elem_of_nil in Hin. exact Hin.
  - split; [intros H; discriminate H|]. intros Hall.
    assert (Hin : layer ∈ layer :: rest) by (apply elem_of_cons; left; reflexivity).
    rewrite <- Hf in Hin. apply list_elem_of_filter in Hin as [(Hl1 & Hl2 & Hl3 & Hl4 & Hl5) Hin].
    rewrite Forall_forall in Hall. destruct (Hall layer Hin) as [H|[H|[H|[H|H]]]]; congruence.
Qed.

(** [OGCService.check_layers] never compares a [wms:<a>#<b>] entry with
    the permitted layers: such a parameter (with [a] and [b] non-empty
    and without commas or newlines) passes the check for any permitted
    layers, none included. *)
Lemma check_layers_wms_entry_unchecked layer_param params permitted_layers mandatory a b :
  a <> [] -> b <> [] -> chr_comma ∉ a ++ b -> chr_newline ∉ a ++ b ->
  params !! layer_param = Some (py "wms:" ++ a ++ chr_hash :: b) ->
  check_layers layer_param params permitted_layers mandatory = None.
Proof.
  intros Ha Hb Hc Hn Hp. unfold check_layers. rewrite Hp. cbn [app py].
  rewrite split_on_no_sep.
  - rewrite filter_cons_False; [reflexivity|].
    intros (_ & Hm & _). rewrite re_layer_match_app in Hm by assumption. discriminate Hm.
  - intros Hin. apply Hc. unfold py in Hin. simpl in Hin.
    repeat (apply elem_of_cons in Hin as [Hin|Hin]; [discriminate Hin|]).
    apply elem_of_app in Hin as [Hin|Hin]; apply elem_of_app; [left; exact Hin|].
    apply elem_of_cons in Hin as [Hin|Hin]; [discriminate Hin|right; exact Hin].
Qed.

(** [wfs_response_filters.get_permitted_typename_map] maps a name [k] to
    [v] exactly when [v] is a public layer whose cleaned name is [k] and
    no later public layer has that cleaned name (the last one wins); its
    keys are the cleaned names of the public layers. *)
Lemma get_permitted_typename_map_last public_layers k v :
  (get_permitted_typename_map public_layers !! k = Some v <->
   exists pre post, public_layers = pre ++ v :: post /\ wfs_clean_layer_name v = k
                    /\ Forall (fun l => wfs_clean_layer_name l <> k) post)
  /\ (k ∈ dom (get_permitted_typename_map public_layers) <->
      exists l, l ∈ public_layers /\ wfs_clean_layer_name l = k).
Proof.
  split; [apply get_permitted_typename_map_lookup_spec|apply get_permitted_typename_map_dom].
Qed.

Section CheckRequestProps.
Context (py_upper : pystr -> pystr) (get_map_param_prefix : params_t -> pystr).

Local Notation check := (check_request py_upper get_map_param_prefix).

(** WFS requests in [OGCService.check_request]: a Transaction is always
    refused with OperationNotSupported; for another WFS request with a
    non-empty TYPENAME, the check replaces TYPENAME by the comma-joined
    entries of the requested TYPENAME that are cleaned names of public
    layers, in their order, and returns no exception or LayerNotDefined,
    the latter only for GetFeature and DescribeFeatureType requests whose
    filtered TYPENAME is empty. *)
Lemma check_request_wfs params permissions service request :
  permissions <> NoPermissions ->
  params !! py "SERVICE" = Some service -> service <> [] -> py_upper service = py "WFS" ->
  params !! py "REQUEST" = Some request -> request <> [] ->
  (py_upper request = py "TRANSACTION" ->
   check params permissions
   = inr (Some (py "OperationNotSupported", py "WFS Transaction is not supported"), params))
  /\ (py_upper request <> py "TRANSACTION" ->
      forall typename, params !! py "TYPENAME" = Some typename -> typename <> [] ->
      exists e ls,
        check params permissions = inr (e, <[py "TYPENAME" := join_with chr_comma ls]> params)
        /\ ls = filter (fun entry => entry ∈ map wfs_clean_layer_name
                                               (ogc_public_layers permissions))
                  (split_on chr_comma typename)
        /\ (e = None \/ (e = Some (py "LayerNotDefined",
                                 py "No permitted or existing layers specified in TYPENAME")
                        /\ (ls = [] \/ ls = [[]])
                        /\ py_upper request ∈ [py "GETFEATURE"; py "DESCRIBEFEATURETYPE"]))).
Proof.
  intros Hp HS Hs Hus HR Hr.
  assert (Hus' : py_upper (default [] (params !! py "SERVICE")) = py "WFS") by (rewrite HS; exact Hus).
  assert (Hur : py_upper (default [] (params !! py "REQUEST")) = py_upper request) by (rewrite HR; reflexivity).
  assert (Hpre : check params permissions =
    match check_request_service (py "WFS") (py_upper request) params permissions with
    | inl e => inl e
    | inr (Some exception, params) => inr (Some exception, params)
    | inr (None, params) => inr (None, params)
    end).
  { unfold check_request. destruct permissions as [|p|p]; [contradiction| |].
    all: cbv zeta; rewrite Hus', Hur, HS, HR.
    all: destruct service as [|c s]; [contradiction|]; destruct request as [|d r]; [contradiction|].
    all: cbn [py_truthy negb orb].
    all: destruct (check_request_service _ _ _ _) as [e|[[exc|] params']]; [reflexivity|reflexivity|].
    all: rewrite (bool_decide_false (py "WFS" = py "WMS" /\ _))
         by (intros [Heq _]; vm_compute in Heq; discriminate Heq).
    all: unfold ogc_layers_params; rewrite (bool_decide_false (py "WFS" = py "WMS"))
         by (vm_compute; discriminate); reflexivity. }
  rewrite Hpre. unfold check_request_service.
  rewrite (bool_decide_false (py "WFS" = py "WMS")) by (vm_compute; discriminate).
  rewrite (bool_decide_true (py "WFS" = py "WFS")) by reflexivity.
  split.
  - intros Ht. rewrite Ht, bool_decide_true by reflexivity. reflexivity.
  - intros Ht typename HT Hne. rewrite bool_decide_false by exact Ht. rewrite HT.
    destruct typename as [|c t]; [contradiction|].
    set (ls := filter (fun entry => entry ∈ map wfs_clean_layer_name
                                              (ogc_public_layers permissions))
                 (split_on chr_comma (c :: t))).
    assert (Hls : filter (fun entry => entry ∈ dom (get_permitted_typename_map
                                                       (ogc_public_layers permissions)))
                    (split_on chr_comma (c :: t)) = ls).
    { subst ls. apply list_filter_iff. intros x. rewrite get_permitted_typename_map_dom.
      rewrite list_elem_of_In, in_map_iff. split.
      - intros (l & Hl & <-). exists l. split; [reflexivity|]. apply list_elem_of_In. exact Hl.
      - intros (l & <- & Hl). exists l. split; [apply list_elem_of_In; exact Hl|reflexivity]. }
    rewrite Hls, lookup_insert_eq.
    destruct (negb (py_truthy (Some (join_with chr_comma ls)))
              && (bool_decide (py_upper request = py "GETFEATURE")
                  || bool_decide (py_upper request = py "DESCRIBEFEATURETYPE"))) eqn:Hc.
    + eexists _, ls. split; [reflexivity|]. split; [reflexivity|]. right.
      split; [reflexivity|].
      apply andb_true_iff in Hc as [Hj Hq]. split.
      * destruct ls as [|w [|w' ws]]; [left; reflexivity| |].
        -- right. destruct w; [reflexivity|discriminate Hj].
        -- cbn [join_with] in Hj. destruct w; discriminate Hj.
      * apply orb_true_iff in Hq as [Hq|Hq]; apply bool_decide_eq_true_1 in Hq; rewrite Hq;
          [left|right; left].
    + eexists _, ls. split; [reflexivity|]. split; [reflexivity|]. left. reflexivity.
Qed.

(** GetFeatureInfo formats in [OGCService.check_request]: for a WMS
    GetFeatureInfo request whose INFO_FORMAT is
    "application/vnd.ogc.gml" followed by a suffix without newline, the
    request is refused with InvalidFormat when the suffix is non-empty;
    the bare "application/vnd.ogc.gml" passes the format check and only
    the layer checks can refuse the request. *)
Lemma check_request_gml_info_format params permissions request suffix :
  permissions <> NoPermissions -> py_upper (py "WMS") = py "WMS" ->
  params !! py "SERVICE" = Some (py "WMS") ->
  params !! py "REQUEST" = Some request -> request <> [] ->
  py_upper request = py "GETFEATUREINFO" ->
  params !! py "INFO_FORMAT" = Some (py "application/vnd.ogc.gml" ++ suffix) ->
  chr_newline ∉ suffix ->
  (suffix <> [] -> exists message,
     check params permissions = inr (Some (py "InvalidFormat", message), params))
  /\ (suffix = [] -> exists e, check params permissions = inr (e, params)
        /\ forall x, e = Some x -> fst x ∈ [py "LayerNotDefined"; py "MissingParameterValue"]).
Proof.
  intros Hp Hup HS HR Hr HRu HI Hs.
  assert (Hsu : py_upper (default [] (params !! py "SERVICE")) = py "WMS") by (rewrite HS; exact Hup).
  assert (Hru : py_upper (default [] (params !! py "REQUEST")) = py "GETFEATUREINFO")
    by (rewrite HR; exact HRu).
  assert (Hf : re_gml_info_format_match (default (py "text/plain") (params !! py "INFO_FORMAT"))
               = negb (bool_decide (suffix = [])))
    by (rewrite HI; exact (re_gml_info_format_match_suffix suffix Hs)).
  unfold check_request. destruct permissions as [|p|p]; [contradiction| |].
  all: cbv zeta; rewrite Hsu, Hru.
  all: unfold check_request_service; rewrite Hf, HS, HR.
  all: destruct request as [|c r]; [contradiction|]; cbn [py_truthy negb orb].
  all: rewrite (bool_decide_true (py "WMS" = py "WMS")) by reflexivity.
  all: rewrite (bool_decide_true (py "GETFEATUREINFO" = py "GETFEATUREINFO")) by reflexivity.
  all: split; intros Hsuf;
    [rewrite bool_decide_false by exact Hsuf; eexists; reflexivity
    |rewrite bool_decide_true by exact Hsuf; cbn [negb]].
  all: change (ogc_layers_params (py "WMS") (py "GETFEATUREINFO"))
         with (Some (Some (py "LAYERS"), Some (py "QUERY_LAYERS"))).
  all: rewrite (bool_decide_false (py "WMS" = py "WMS" /\ py "GETFEATUREINFO" = py "GETPRINT"))
         by (intros [_ Heq]; vm_compute in Heq; discriminate Heq).
  all: rewrite (bool_decide_false (py "WMS" = py "WMS"
                  /\ (py "GETFEATUREINFO" = py "GETMAP" \/ py "GETFEATUREINFO" = py "GETPRINT")))
         by (intros [_ [Heq|Heq]]; vm_compute in Heq; discriminate Heq).
  all: eexists; split; [reflexivity|]; intros x Hx.
  all: destruct (check_layers (py "LAYERS") _ _ _) as [e|] eqn:He;
         [injection Hx as <-; exact (check_layers_codes _ _ _ _ _ He)|].
  all: exact (check_layers_codes _ _ _ _ _ Hx).
Qed.

End CheckRequestProps.

(** ** [wfs_getfeature_gml] *)

Lemma assoc_get_dict_set_eq (k : pystr) (v : pystr) (l : list (pystr * pystr)) :
  is_Some (assoc_get k l) -> assoc_get k (dict_set k v l) = Some v.
Proof.
  induction l as [|[a b] l IH]; intros Hs; [destruct Hs as [? Hs]; discriminate Hs|].
  unfold dict_set. cbn [map]. destruct (decide ((a, b).1 = k)) as [Ha|Ha]; simpl in Ha.
  - simpl. rewrite bool_decide_true by reflexivity. reflexivity.
  - simpl. rewrite bool_decide_false by exact Ha. apply IH.
    simpl in Hs. rewrite bool_decide_false in Hs by exact Ha. exact Hs.
Qed.

Lemma assoc_get_dict_set_ne (k k' : pystr) (v : pystr) (l : list (pystr * pystr)) :
  k' <> k -> assoc_get k' (dict_set k v l) = assoc_get k' l.
Proof.
  intros Hk. induction l as [|[a b] l IH]; [reflexivity|].
  unfold dict_set. cbn [map]. destruct (decide ((a, b).1 = k)) as [Ha|Ha]; simpl in Ha.
  - subst a. simpl. rewrite !bool_decide_false by congruence. exact IH.
  - simpl. destruct (bool_decide (a = k')); [reflexivity|]. exact IH.
Qed.

Lemma filter_feature_member_spec tmap layers fm :
  let fm' := filter_feature_member tmap layers fm in
  x_tag fm' = x_tag fm /\ x_attrib fm' = x_attrib fm /\ x_text fm' = x_text fm /\
  Forall2 (fun f f' =>
      x_tag f' = x_tag f /\ x_attrib f' = x_attrib f /\ x_text f' = x_text f /\
      exists layer_name, tmap !! removeprefix ns_qgs (x_tag f) = Some layer_name /\
        let kept a := gml_attr_kept (get_permitted_attributes_raw layers layer_name) a = true in
        x_children f' `sublist_of` x_children f /\
        filter kept (x_children f') = filter kept (x_children f))
    (filter (fun f => removeprefix ns_qgs (x_tag f) ∈ dom tmap) (x_children fm))
    (x_children fm').
Proof.
  destruct fm as [t a x cs]. simpl. split; [reflexivity|]. split; [reflexivity|].
  split; [reflexivity|].
  induction cs as [|f cs IH]; [constructor|]. cbn [omap list_omap].
  rewrite filter_cons.
  destruct (tmap !! removeprefix ns_qgs (x_tag f)) as [ln|] eqn:Hf.
  - rewrite decide_True by (apply elem_of_dom; rewrite Hf; eexists; reflexivity).
    constructor; [|exact IH].
    destruct f as [ft fa fx fcs]. simpl. split; [reflexivity|]. split; [reflexivity|].
    split; [reflexivity|]. exists ln. split; [exact Hf|]. split.
    + apply iter_remove_sublist.
    + apply iter_remove_filter.
  - rewrite decide_False by (rewrite not_elem_of_dom; exact Hf). exact IH.
Qed.

Lemma filter_feature_member_tags tmap layers fm :
  map x_tag (x_children (filter_feature_member tmap layers fm)) =
  filter (fun t => removeprefix ns_qgs t ∈ dom tmap) (map x_tag (x_children fm)).
Proof.
  destruct (filter_feature_member_spec tmap layers fm) as (_ & _ & _ & H).
  revert H. generalize (x_children (filter_feature_member tmap layers fm)) as out.
  induction (x_children fm) as [|f cs IH]; intros out H.
  - inversion H. reflexivity.
  - cbn [map filter list_filter] in H |- *.
    destruct (decide (removeprefix ns_qgs (x_tag f) ∈ dom tmap)).
    + inversion H as [|? f' ? out' (Ht & _) Hrest]; subst. cbn [map]. rewrite Ht.
      f_equal. exact (IH out' Hrest).
    + exact (IH out H).
Qed.

(** Feature filtering of [wfs_getfeature_gml]: in every featureMember the
    features kept are those whose typename (tag without the qgs namespace)
    is a key of the permitted typename map, in their order; each kept
    feature keeps its tag, attributes and text, and its children are a
    sublist of the original ones that still holds every child the
    attribute loop keeps (boundedBy, geometry, permitted attributes). *)
Lemma wfs_getfeature_gml_feature_member tmap layers fm :
  let fm' := filter_feature_member tmap layers fm in
  map x_tag (x_children fm') =
    filter (fun t => removeprefix ns_qgs t ∈ dom tmap) (map x_tag (x_children fm))
  /\ x_tag fm' = x_tag fm /\ x_attrib fm' = x_attrib fm /\ x_text fm' = x_text fm /\
  Forall2 (fun f f' =>
      x_tag f' = x_tag f /\ x_attrib f' = x_attrib f /\ x_text f' = x_text f /\
      exists layer_name, tmap !! removeprefix ns_qgs (x_tag f) = Some layer_name /\
        let kept a := gml_attr_kept (get_permitted_attributes_raw layers layer_name) a = true in
        x_children f' `sublist_of` x_children f /\
        filter kept (x_children f') = filter kept (x_children f))
    (filter (fun f => removeprefix ns_qgs (x_tag f) ∈ dom tmap) (x_children fm))
    (x_children fm').
Proof.
  simpl. split; [apply filter_feature_member_tags|]. apply filter_feature_member_spec.
Qed.

(** The attribute loop of [wfs_getfeature_gml] removes children from the
    feature it iterates over: when no attribute of a feature is to be
    kept, only the even-indexed ones are removed and every second
    attribute (indices 1, 3, ...) stays in the response. *)
Lemma wfs_getfeature_gml_attribute_loop_skips permitted_attributes cs :
  Forall (fun a => gml_attr_kept permitted_attributes a = false) cs ->
  let r := iter_remove (gml_attr_kept permitted_attributes) (length cs) 0 cs in
  length r = (length cs / 2)%nat /\ forall j, r !! j = cs !! (2 * j + 1)%nat.
Proof.
  intros Hall. destruct (iter_remove_all_removed (gml_attr_kept permitted_attributes)
                          (length cs) [] cs Hall (le_n _)) as (R & HR & Hl & Hj).
  simpl in HR |- *. rewrite HR. split; [exact Hl|exact Hj].
Qed.

(** [wfs_getfeature_gml] on the parsed document: a document without
    xsi:schemaLocation attribute raises KeyError; otherwise the tag, the
    text and the other attributes are kept, schemaLocation has the
    internal URL replaced by the service URL, children other than
    featureMember are kept unchanged, and each featureMember keeps its tag
    and only the features whose typename is permitted. *)
Lemma wfs_getfeature_gml_root_spec internal_url service_url permissions root :
  let tmap := get_permitted_typename_map (wps_public_layers permissions) in
  match assoc_get xsi_schemaLocation (x_attrib root) with
  | None => wfs_getfeature_gml_root internal_url service_url permissions root
            = inl (KeyError xsi_schemaLocation)
  | Some loc => exists root',
      wfs_getfeature_gml_root internal_url service_url permissions root = inr root'
      /\ x_tag root' = x_tag root /\ x_text root' = x_text root
      /\ assoc_get xsi_schemaLocation (x_attrib root')
         = Some (str_replace internal_url service_url loc)
      /\ (forall k, k <> xsi_schemaLocation -> assoc_get k (x_attrib root') = assoc_get k (x_attrib root))
      /\ Forall2 (fun c c' =>
           if bool_decide (x_tag c = gml_featureMember)
           then x_tag c' = x_tag c /\ map x_tag (x_children c') =
                  filter (fun t => removeprefix ns_qgs t ∈ dom tmap) (map x_tag (x_children c))
           else c' = c) (x_children root) (x_children root')
  end.
Proof.
  simpl. unfold wfs_getfeature_gml_root.
  destruct (assoc_get xsi_schemaLocation (x_attrib root)) as [loc|] eqn:Hloc; [|reflexivity].
  eexists. split; [reflexivity|]. destruct root as [t a x cs]. simpl in Hloc |- *.
  split; [reflexivity|]. split; [reflexivity|]. split.
  { apply assoc_get_dict_set_eq. rewrite Hloc. eexists; reflexivity. }
  split; [intros k Hk; apply assoc_get_dict_set_ne; exact Hk|].
  induction cs as [|c cs IH]; [constructor|]. cbn [map]. constructor; [|exact IH].
  destruct (bool_decide (x_tag c = gml_featureMember)); [|reflexivity].
  split; [|apply filter_feature_member_tags].
  destruct (filter_feature_member_spec (get_permitted_typename_map (wps_public_layers permissions))
              (wps_layers permissions) c) as (Ht & _). exact Ht.
Qed.

(** [OGCService.service_exception]: the message is embedded escaped, so it
    holds no '<' or '>' and cannot close the ServiceException element; and
    two reports with the same code are equal only for equal messages. *)
Lemma service_exception_message_escaped code message :
  Forall (fun c => c <> 60%N /\ c <> 62%N) (xml_escape message) /\
  forall message', service_exception code message = service_exception code message'
                   <-> message = message'.
Proof.
  split.
  - apply Forall_forall. intros c Hc. exact (xml_escape_no_angle message c Hc).
  - intros message'. split; [apply service_exception_inj|intros <-; reflexivity].
Qed.

(** [OGCService.rewrite_external_wms_urls]: no parameter is added or
    removed; the only values that can change are those of the keys
    "X:URL" for a requested layer "EXTERNAL_WMS:X" (so no key that does not
    end with ":URL" changes); without origin nothing changes. *)
Lemma rewrite_external_wms_urls_keys url_sub origin layersparam params :
  let params' := rewrite_external_wms_urls url_sub origin layersparam params in
  dom params' = dom params
  /\ (forall k, (forall l, l ∈ layersparam -> startswith (py "EXTERNAL_WMS:") l = true ->
                   k <> drop 13 l ++ py ":URL") -> params' !! k = params !! k)
  /\ (forall k, endswith (py ":URL") k = false -> params' !! k = params !! k)
  /\ rewrite_external_wms_urls url_sub [] layersparam params = params.
Proof.
  simpl. split; [|split; [|split]].
  - apply set_eq. intros k. rewrite !elem_of_dom. apply rewrite_external_wms_urls_is_Some.
  - intros k Hk. exact (rewrite_external_wms_urls_lookup url_sub origin layersparam params k Hk).
  - intros k Hk. exact (rewrite_external_wms_urls_not_url url_sub origin layersparam params k Hk).
  - reflexivity.
Qed.

(** [get_map_param_prefix] (in [OGCService] and [WmsHandler]): on the
    parameters in insertion order, the result is "" when no key ends with
    ":EXTENT", and otherwise the first such key without its ":EXTENT"
    suffix. *)
Lemma get_map_param_prefix_first_extent items :
  match list_find (fun kv => endswith (py ":EXTENT") kv.1 = true) items with
  | None => get_map_param_prefix_items items = []
  | Some (_, (key, _)) => get_map_param_prefix_items items ++ py ":EXTENT" = key
  end.
Proof.
  induction items as [|[k v] items IH]; [reflexivity|]. cbn [list_find].
  destruct (endswith (py ":EXTENT") k) eqn:He.
  - rewrite decide_True by exact He.
    exact (get_map_param_prefix_items_first [] k v items (List.Forall_nil _) He).
  - rewrite decide_False by (simpl; rewrite He; discriminate). simpl. rewrite He.
    destruct (list_find _ items) as [[i [k' v']]|]; exact IH.
Qed.

(** ** [WmsHandler.process_request] adjustments *)

Lemma filter_nil_Forall {A} (P : A -> Prop) `{!forall x, Decision (P x)} (l : list A) :
  filter P l = [] -> Forall (fun x => ~ P x) l.
Proof.
  induction l as [|x l IH]; intros Hnil; [constructor|].
  rewrite filter_cons in Hnil. destruct (decide (P x)) as [Hx|Hx]; [discriminate Hnil|].
  constructor; [exact Hx|exact (IH Hnil)].
Qed.


Ltac pystr_neq := let Heq := fresh "Heq" in intros Heq; vm_compute in Heq; discriminate Heq.
Ltac lookup_simpl :=
  repeat (rewrite lookup_insert_eq || (rewrite lookup_insert_ne by pystr_neq)).

(** [ex_rewrite_url] writes only the ":URL" parameter of its layer. *)
Lemma ex_rewrite_url_keys l p k :
  k <> drop 13 l ++ py ":URL" -> k <> drop 13 l ++ py ":LAYERS" ->
  ex_rewrite_url l p !! k = p !! k.
Proof.
  intros Hu _. unfold ex_rewrite_url. cbv zeta.
  destruct (p !! (drop 13 l ++ py ":URL")); [|reflexivity].
  apply lookup_insert_ne. congruence.
Qed.

(** INFO_FORMAT is not a parameter written by the rewrite of an external
    WMS layer: it ends neither in ":URL" nor in ":LAYERS". *)
Lemma info_format_not_external_key (x : pystr) :
  py "INFO_FORMAT" <> x ++ py ":URL" /\ py "INFO_FORMAT" <> x ++ py ":LAYERS".
Proof.
  split; intros H; apply (f_equal last) in H.
  - change (py ":URL") with (N.of_nat 58 :: py "URL") in H.
    rewrite last_app_cons in H. vm_compute in H. discriminate H.
  - change (py ":LAYERS") with (N.of_nat 58 :: py "LAYERS") in H.
    rewrite last_app_cons in H. vm_compute in H. discriminate H.
Qed.

Section WmsHandlerProps.
Context (is_space : N -> bool) (digit_value : N -> option Z).
Context (round_scaled : Z -> Z -> Z).
Context (rewrite_external_wms_url : pystr -> params_t -> params_t).
Context (get_map_param_prefix : params_t -> pystr).
Context (legend_default_font_size : option pystr).

Local Notation loop := (wmsh_expand_loop is_space digit_value round_scaled rewrite_external_wms_url).
Local Notation expand := (wmsh_expand_group_layers is_space digit_value round_scaled
                            rewrite_external_wms_url).
Local Notation process := (wms_process_request is_space digit_value round_scaled
                             rewrite_external_wms_url get_map_param_prefix legend_default_font_size).

Definition not_facade (adjust : wmsh_adjust_permissions) (layer : pystr) : Prop :=
  match wa_restricted_group_layers adjust !! layer with Some (_ :: _) => False | _ => True end.

Lemma wmsh_expand_loop_lookup key ops sts adjust i ls params params' es :
  (forall l p, rewrite_external_wms_url l p !! key = p !! key) ->
  loop ops sts adjust i ls params = inr (params', es) -> params' !! key = params !! key.
Proof.
  intros Hrw. revert i params params' es.
  induction ls as [|l ls IH]; intros i params params' es H; simpl in H.
  - injection H as <- _. reflexivity.
  - destruct (startswith (py "EXTERNAL_WMS:") l).
    + destruct (loop ops sts adjust (S i) ls (rewrite_external_wms_url l params))
        as [e|[p es']] eqn:Hl; [discriminate H|]. injection H as <- _.
      rewrite (IH _ _ _ _ Hl). apply Hrw.
    + destruct (wa_restricted_group_layers adjust !! l) as [[|s ss]|].
      all: try (destruct (wmsh_expand_restricted_group round_scaled (s :: ss) _ adjust);
                [discriminate H|]).
      all: destruct (loop ops sts adjust (S i) ls params) as [e|[p es']] eqn:Hl;
             [discriminate H|]; injection H as <- _; exact (IH _ _ _ _ Hl).
Qed.

Lemma wmsh_expand_loop_lookup_ext key ops sts adjust i ls params params' es :
  (forall l, l ∈ ls -> startswith (py "EXTERNAL_WMS:") l = true ->
     forall p, rewrite_external_wms_url l p !! key = p !! key) ->
  loop ops sts adjust i ls params = inr (params', es) -> params' !! key = params !! key.
Proof.
  revert i params params' es.
  induction ls as [|l ls IH]; intros i params params' es Hrw H; simpl in H.
  - injection H as <- _. reflexivity.
  - assert (Hrw' : forall l', l' ∈ ls -> startswith (py "EXTERNAL_WMS:") l' = true ->
                     forall p, rewrite_external_wms_url l' p !! key = p !! key)
      by (intros l' Hl'; apply Hrw; apply elem_of_cons; right; exact Hl').
    destruct (startswith (py "EXTERNAL_WMS:") l) eqn:Hext.
    + destruct (loop ops sts adjust (S i) ls (rewrite_external_wms_url l params))
        as [e|[p es']] eqn:Hl; [discriminate H|]. injection H as <- _.
      rewrite (IH _ _ _ _ Hrw' Hl). apply Hrw; [apply elem_of_cons; left; reflexivity|exact Hext].
    + destruct (wa_restricted_group_layers adjust !! l) as [[|s ss]|].
      all: try (destruct (wmsh_expand_restricted_group round_scaled (s :: ss) _ adjust);
                [discriminate H|]).
      all: destruct (loop ops sts adjust (S i) ls params) as [e|[p es']] eqn:Hl;
             [discriminate H|]; injection H as <- _; exact (IH _ _ _ _ Hrw' Hl).
Qed.


Lemma wmsh_expand_restricted_group_ok opacity adjust pre :
  Forall (fun l => exists pl pct, wa_permitted_layers adjust !! l = Some pl
                    /\ wml_opacity pl = Some pct /\ not_facade adjust l) pre ->
  wmsh_expand_restricted_group round_scaled pre opacity adjust =
  inr (map (fun l => {| lo_layer := l;
                        lo_opacity := match wa_permitted_layers adjust !! l with
                                      | Some pl => round_scaled (default 0%Z (wml_opacity pl)) opacity
                                      | None => 0%Z
                                      end;
                        lo_style := [] |}) pre).
Proof.
  induction 1 as [|l pre (pl & pct & Hpl & Hpct & Hf) _ IH]; [reflexivity|].
  simpl. rewrite Hpl, Hpct. unfold not_facade in Hf.
  destruct (wa_restricted_group_layers adjust !! l) as [[|s ss]|]; [| contradiction |].
  all: rewrite IH; reflexivity.
Qed.


Lemma wmsh_check_info_format get_map_param_prefix' params permissions info_format :
  wms_process_request_check get_map_param_prefix' (py "GETFEATUREINFO") params permissions = None ->
  params !! py "INFO_FORMAT" = Some info_format -> info_format ∈ info_formats.
Proof.
  unfold wms_process_request_check. intros Hc Hf.
  destruct (wms_check_layers _ _ _ _); [discriminate Hc|].
  rewrite (bool_decide_true (py "GETFEATUREINFO" = py "GETFEATUREINFO")) in Hc by reflexivity.
  destruct (bool_decide (params !! py "LAYERS" <> params !! py "QUERY_LAYERS")); [discriminate Hc|].
  rewrite Hf in Hc. simpl in Hc.
  destruct (bool_decide (info_format ∈ info_formats)) eqn:Hb; [|discriminate Hc].
  exact (bool_decide_eq_true_1 _ Hb).
Qed.


(** [WmsHandler.__expand_restricted_group]: on success every sublayer
    gives one entry, in order, with an empty style and the opacity
    round(pct / 100 * opacity) of its permitted layer, and no sublayer is
    itself a restricted group with sublayers; it fails with a KeyError for
    a sublayer that is not permitted or has no opacity, or with an
    AttributeError (the recursive call names a method that does not
    exist). *)
Lemma wmsh_expand_restricted_group_result layers opacity adjust :
  match wmsh_expand_restricted_group round_scaled layers opacity adjust with
  | inr es => Forall2 (fun l e =>
      lo_layer e = l /\ lo_style e = [] /\ not_facade adjust l /\
      exists pl pct, wa_permitted_layers adjust !! l = Some pl /\ wml_opacity pl = Some pct
                     /\ lo_opacity e = round_scaled pct opacity) layers es
  | inl e => e = no_expand_restricted_group \/ e = KeyError (py "opacity")
             \/ exists l, l ∈ layers /\ e = KeyError l
  end.
Proof.
  induction layers as [|l layers IH]; [constructor|]. simpl.
  destruct (wa_permitted_layers adjust !! l) as [pl|] eqn:Hpl.
  2: { right. right. exists l. split; [apply elem_of_cons; left|]; reflexivity. }
  destruct (wml_opacity pl) as [pct|] eqn:Hpct; [|right; left; reflexivity].
  destruct (wa_restricted_group_layers adjust !! l) as [[|s ss]|] eqn:Hg.
  2: { left. reflexivity. }
  all: revert IH; destruct (wmsh_expand_restricted_group round_scaled layers opacity adjust)
         as [e|es]; intros IH.
  1, 3: destruct IH as [IH|[IH|(l' & Hl' & IH)]]; [left; exact IH|right; left; exact IH|];
        right; right; exists l'; split; [apply elem_of_cons; right; exact Hl'|exact IH].
  all: constructor; [|exact IH].
  all: split; [reflexivity|]; split; [reflexivity|].
  all: split; [unfold not_facade; rewrite Hg; exact I|].
  all: exists pl, pct; split; [exact Hpl|]; split; [exact Hpct|reflexivity].
Qed.

(** Nested facades in [WmsHandler.__expand_restricted_group]: when the
    sublayers before a sublayer are permitted plain layers with an opacity,
    and that sublayer is permitted with an opacity and is itself a
    restricted group with sublayers, the expansion raises AttributeError. *)
Lemma wmsh_expand_restricted_group_nested_facade pre layer pl pct s subs post opacity adjust :
  Forall (fun l => exists pl pct, wa_permitted_layers adjust !! l = Some pl
                    /\ wml_opacity pl = Some pct /\ not_facade adjust l) pre ->
  wa_permitted_layers adjust !! layer = Some pl -> wml_opacity pl = Some pct ->
  wa_restricted_group_layers adjust !! layer = Some (s :: subs) ->
  wmsh_expand_restricted_group round_scaled (pre ++ layer :: post) opacity adjust
  = inl no_expand_restricted_group.
Proof.
  intros Hpre Hpl Hpct Hg. induction Hpre as [|l pre (pl' & pct' & Hpl' & Hpct' & Hf) _ IH].
  - simpl. rewrite Hpl, Hpct, Hg. reflexivity.
  - simpl. rewrite Hpl', Hpct'. unfold not_facade in Hf.
    destruct (wa_restricted_group_layers adjust !! l) as [[|s' ss]|]; [| contradiction |].
    all: rewrite IH; reflexivity.
Qed.

(** GetFeatureInfo in [WmsHandler.process_request]: once the checks pass
    and the expansion succeeds, a request without INFO_FORMAT raises
    KeyError (the check defaults it to text/plain, the adjustment reads it
    directly); otherwise LAYERS and QUERY_LAYERS are both set to the
    queryable expanded layers, STYLES to their styles, INFO_FORMAT to
    text/xml, the requested format (one of the three accepted ones) is
    kept for the response; any other parameter is the one after the
    expansion, and is the request's own unless it is the ":URL" or
    ":LAYERS" parameter of a requested EXTERNAL_WMS layer (the only
    parameters [__rewrite_external_wms_url] writes). *)
Lemma wms_getfeatureinfo_adjust params permissions adjust params1 es :
  (forall l p k, k <> drop 13 l ++ py ":URL" -> k <> drop 13 l ++ py ":LAYERS" ->
     rewrite_external_wms_url l p !! k = p !! k) ->
  wms_process_request_check get_map_param_prefix (py "GETFEATUREINFO") params permissions = None ->
  expand params (py "LAYERS") adjust = inr (params1, es) ->
  let queryable := filter (fun entry =>
      match wa_permitted_layers adjust !! lo_layer entry with
      | Some l => wml_queryable l
      | None => false
      end = true) es in
  match params !! py "INFO_FORMAT" with
  | None => process (py "GETFEATUREINFO") params permissions adjust
            = inl (KeyError (py "INFO_FORMAT"))
  | Some info_format => info_format ∈ info_formats /\ exists params',
      process (py "GETFEATUREINFO") params permissions adjust = inr (None, params', Some info_format)
      /\ params' !! py "LAYERS" = Some (join_layers queryable)
      /\ params' !! py "QUERY_LAYERS" = Some (join_layers queryable)
      /\ params' !! py "STYLES" = Some (join_styles queryable)
      /\ params' !! py "INFO_FORMAT" = Some (py "text/xml")
      /\ forall k, k ∉ [py "LAYERS"; py "QUERY_LAYERS"; py "STYLES"; py "INFO_FORMAT"] ->
           params' !! k = params1 !! k
           /\ ((forall l, l ∈ split_on chr_comma (default [] (params !! py "LAYERS")) ->
                  startswith (py "EXTERNAL_WMS:") l = true ->
                  k <> drop 13 l ++ py ":URL" /\ k <> drop 13 l ++ py ":LAYERS") ->
               params' !! k = params !! k)
  end.
Proof.
  intros Hrw Hc He. cbv zeta.
  assert (Hkey : forall k,
            (forall l, l ∈ split_on chr_comma (default [] (params !! py "LAYERS")) ->
               startswith (py "EXTERNAL_WMS:") l = true ->
               k <> drop 13 l ++ py ":URL" /\ k <> drop 13 l ++ py ":LAYERS") ->
            params1 !! k = params !! k).
  { intros k Hk. unfold wmsh_expand_group_layers in He.
    refine (wmsh_expand_loop_lookup_ext _ _ _ _ _ _ _ _ _ _ He).
    intros l Hl Hs p. destruct (Hk l Hl Hs) as [H1 H2]. exact (Hrw l p k H1 H2). }
  assert (Hi : params1 !! py "INFO_FORMAT" = params !! py "INFO_FORMAT")
    by (apply Hkey; intros l _ _; apply info_format_not_external_key).
  unfold wms_process_request. rewrite Hc.
  rewrite (bool_decide_false (py "GETFEATUREINFO" = py "GETMAP")) by pystr_neq.
  rewrite (bool_decide_true (py "GETFEATUREINFO" = py "GETFEATUREINFO")) by reflexivity.
  rewrite He. lookup_simpl. rewrite Hi.
  destruct (params !! py "INFO_FORMAT") as [f|] eqn:Hf; [|reflexivity].
  split; [exact (wmsh_check_info_format _ _ _ _ Hc Hf)|].
  eexists. split; [reflexivity|].
  split; [lookup_simpl; reflexivity|]. split; [lookup_simpl; reflexivity|].
  split; [lookup_simpl; reflexivity|]. split; [lookup_simpl; reflexivity|].
  intros k Hk.
  match goal with |- ?a = ?b /\ _ => assert (Hk1 : a = b) end.
  { rewrite !lookup_insert_ne; [reflexivity|..].
    all: intros Heq; subst k; apply Hk; rewrite !elem_of_cons; tauto. }
  split; [exact Hk1|]. intros Hext. rewrite Hk1. exact (Hkey k Hext).
Qed.

(** GetLegendGraphic with LAYER only in [WmsHandler.process_request]: the
    check validates LAYER, but the adjustment expands LAYERS, so LAYERS is
    sent as "" and LAYER is forwarded unchanged, without facade expansion
    (given that "" is not a restricted group with sublayers). *)
Lemma wms_getlegendgraphic_layer_only params permissions adjust :
  params !! py "LAYERS" = None ->
  wms_process_request_check get_map_param_prefix (py "GETLEGENDGRAPHIC") params permissions = None ->
  not_facade adjust [] ->
  exists params', process (py "GETLEGENDGRAPHIC") params permissions adjust
                  = inr (None, params', None)
    /\ params' !! py "LAYERS" = Some [] /\ params' !! py "LAYER" = params !! py "LAYER".
Proof.
  intros HL Hc Hnf. unfold wms_process_request. rewrite Hc.
  rewrite (bool_decide_false (py "GETLEGENDGRAPHIC" = py "GETMAP")) by pystr_neq.
  rewrite (bool_decide_false (py "GETLEGENDGRAPHIC" = py "GETFEATUREINFO")) by pystr_neq.
  rewrite (bool_decide_true (py "GETLEGENDGRAPHIC" = py "GETLEGENDGRAPHIC")) by reflexivity.
  unfold wmsh_expand_group_layers. rewrite HL.
  change (split_on chr_comma (default [] None)) with [[] : pystr].
  cbn [wmsh_expand_loop].
  change (startswith (py "EXTERNAL_WMS:") []) with false. cbv iota.
  unfold not_facade in Hnf.
  destruct (wa_restricted_group_layers adjust !! ([] : pystr)) as [[|s ss]|]; [| contradiction |].
  all: destruct legend_default_font_size.
  all: eexists. all: split. all: try reflexivity.
  all: split; lookup_simpl; reflexivity.
Qed.

(** GetPrint without map prefix in [WmsHandler.process_request]: when no
    parameter ends with ":EXTENT" the check validates LAYERS, but the
    adjustment expands the parameter ":LAYERS"; when it is missing, both
    ":LAYERS" and LAYERS are sent as "" (given that "" is not a restricted
    group with sublayers). *)
Lemma wms_getprint_without_map_prefix params permissions adjust :
  get_map_param_prefix params = [] -> params !! py ":LAYERS" = None ->
  wms_process_request_check get_map_param_prefix (py "GETPRINT") params permissions = None ->
  not_facade adjust [] ->
  exists params', process (py "GETPRINT") params permissions adjust = inr (None, params', None)
    /\ params' !! py "LAYERS" = Some [] /\ params' !! py ":LAYERS" = Some [].
Proof.
  intros Hp HL Hc Hnf. unfold wms_process_request. rewrite Hc.
  rewrite (bool_decide_false (py "GETPRINT" = py "GETMAP")) by pystr_neq.
  rewrite (bool_decide_false (py "GETPRINT" = py "GETFEATUREINFO")) by pystr_neq.
  rewrite (bool_decide_false (py "GETPRINT" = py "GETLEGENDGRAPHIC")) by pystr_neq.
  rewrite (bool_decide_false (py "GETPRINT" = py "DESCRIBELAYER")) by pystr_neq.
  rewrite (bool_decide_true (py "GETPRINT" = py "GETPRINT")) by reflexivity.
  rewrite Hp, app_nil_l.
  unfold wmsh_expand_group_layers. rewrite HL.
  change (split_on chr_comma (default [] None)) with [[] : pystr].
  cbn [wmsh_expand_loop].
  change (startswith (py "EXTERNAL_WMS:") []) with false. cbv iota.
  unfold not_facade in Hnf.
  destruct (wa_restricted_group_layers adjust !! ([] : pystr)) as [[|s ss]|]; [| contradiction |].
  all: eexists. all: split. all: try reflexivity.
  all: split; lookup_simpl; reflexivity.
Qed.

End WmsHandlerProps.

(** ** [WfsHandler.process_request] *)


Section WfsHandlerProps.
Context (is_word : N -> bool) (py_lower : pystr -> pystr).

Local Notation wfs := (wfs_process_request is_word py_lower).

(** [WfsHandler.process_request] accepts a request (no exception) only
    when it is one of the four supported requests and every non-empty
    TYPENAME entry and every non-empty FEATUREID entry (its part before
    the first '.') names, once cleaned, a permitted layer. *)
Lemma wfs_process_request_permitted request params permitted_layers body params' body' :
  wfs request params permitted_layers body = inr (None, params', body') ->
  request ∈ wfs_handler_requests
  /\ Forall (fun typename => typename = [] \/ wfs_clean_layer_name typename ∈ dom permitted_layers)
       (split_on chr_comma (default [] (params !! py "TYPENAME")))
  /\ Forall (fun featureid => featureid = []
               \/ wfs_clean_layer_name (default [] (head (split_on chr_dot featureid)))
                  ∈ dom permitted_layers)
       (split_on chr_comma (default [] (params !! py "FEATUREID"))).
Proof.
  unfold wfs_process_request. intros H.
  destruct (bool_decide (request ∈ wfs_handler_requests)) eqn:Hr; cbn [negb] in H;
    [|discriminate H].
  destruct (filter _ (split_on chr_comma (default [] (params !! py "TYPENAME"))))
    as [|t ts] eqn:Ht; [|discriminate H].
  destruct (filter _ (split_on chr_comma (default [] (params !! py "FEATUREID"))))
    as [|f fs] eqn:Hf; [|discriminate H].
  split; [exact (bool_decide_eq_true_1 _ Hr)|]. split.
  - apply filter_nil_Forall in Ht. refine (Forall_impl _ _ _ Ht _). intros x Hx.
    destruct (decide (x = [])) as [Hx0|Hx0]; [left; exact Hx0|right].
    destruct (decide (wfs_clean_layer_name x ∈ dom permitted_layers)); [assumption|].
    exfalso. apply Hx. split; assumption.
  - apply filter_nil_Forall in Hf. refine (Forall_impl _ _ _ Hf _). intros x Hx.
    destruct (decide (x = [])) as [Hx0|Hx0]; [left; exact Hx0|right].
    destruct (decide (wfs_clean_layer_name (default [] (head (split_on chr_dot x)))
                        ∈ dom permitted_layers)); [assumption|].
    exfalso. apply Hx. split; assumption.
Qed.

(** [WfsHandler.process_request] rejects a supported request with a
    non-empty TYPENAME entry that does not name a permitted layer: the
    result is RequestNotWellFormed for such an entry, with the params and
    the body unchanged. *)
Lemma wfs_process_request_rejects_typename request params permitted_layers body typename :
  request ∈ wfs_handler_requests ->
  typename ∈ split_on chr_comma (default [] (params !! py "TYPENAME")) -> typename <> [] ->
  wfs_clean_layer_name typename ∉ dom permitted_layers ->
  exists t, wfs request params permitted_layers body
            = inr (Some (not_permitted_typename t), params, body)
    /\ t ∈ split_on chr_comma (default [] (params !! py "TYPENAME")) /\ t <> []
    /\ wfs_clean_layer_name t ∉ dom permitted_layers.
Proof.
  intros Hr Ht Hne Hnp. unfold wfs_process_request.
  rewrite (bool_decide_true (request ∈ wfs_handler_requests)) by exact Hr. cbn [negb].
  assert (Hin : typename ∈ filter (fun typename =>
              typename <> [] /\ wfs_clean_layer_name typename ∉ dom permitted_layers)
              (split_on chr_comma (default [] (params !! py "TYPENAME"))))
    by (apply list_elem_of_filter; split; [split|]; assumption).
  destruct (filter _ (split_on chr_comma (default [] (params !! py "TYPENAME"))))
    as [|t ts] eqn:Hf; [apply elem_of_nil in Hin; contradiction|].
  assert (Ht' : t ∈ filter (fun typename =>
              typename <> [] /\ wfs_clean_layer_name typename ∉ dom permitted_layers)
              (split_on chr_comma (default [] (params !! py "TYPENAME"))))
    by (rewrite Hf; apply elem_of_cons; left; reflexivity).
  apply list_elem_of_filter in Ht' as [[Ht0 Htp] Htin].
  exists t. split; [reflexivity|]. split; [exact Htin|]. split; assumption.
Qed.


End WfsHandlerProps.

(** ** Witnesses of the further properties *)

Ltac decide_prop := apply (bool_decide_unpack _); vm_compute; reflexivity.

Lemma adjust_params_getmap_aligned_witness :
  ex_adjust None (ex_getmap_params "200") ex_group_ps
    = inr ((ex_adjusted (ex_adjust None (ex_getmap_params "200") ex_group_ps)).1,
           (ex_adjusted (ex_adjust None (ex_getmap_params "200") ex_group_ps)).2)
  /\ exists es, map lo_layer es = [py "B"; py "A"]
       /\ (ex_adjusted (ex_adjust None (ex_getmap_params "200") ex_group_ps)).1 !! py "LAYERS"
          = Some (join_layers es).
Proof.
  assert (H : ex_adjust None (ex_getmap_params "200") ex_group_ps
    = inr ((ex_adjusted (ex_adjust None (ex_getmap_params "200") ex_group_ps)).1,
           (ex_adjusted (ex_adjust None (ex_getmap_params "200") ex_group_ps)).2))
    by (vm_compute; reflexivity).
  split; [exact H|].
  destruct (adjust_params_getmap_aligned ascii_upper ascii_space ascii_digit (fun _ => [])
              ex_url_sub None ex_marker_geom None (ex_getmap_params "200") ex_group_ps [] (py "GET")
              _ _ (py "G") ltac:(vm_compute; reflexivity) ltac:(vm_compute; reflexivity)
              ltac:(vm_compute; reflexivity) ltac:(pystr_neq) H) as (es & Hx & HL & _).
  assert (Hc : expand_group_layers recursion_limit (split_on chr_comma (py "G"))
                 (ps_restricted_group_layers ex_group_ps) = Some [py "B"; py "A"])
    by (vm_compute; reflexivity).
  rewrite Hc in Hx. injection Hx as Hx. exists es. split; [symmetry; exact Hx|exact HL].
Defined.

Lemma adjust_params_getfeatureinfo_witness :
  ex_adjust None ex_ogc_gfi_params ex_wms_ps = inr (ex_ogc_gfi_params, py "GET").
Proof.
  assert (H : ex_adjust None ex_ogc_gfi_params ex_wms_ps
    = inr ((ex_adjusted (ex_adjust None ex_ogc_gfi_params ex_wms_ps)).1,
           (ex_adjusted (ex_adjust None ex_ogc_gfi_params ex_wms_ps)).2))
    by (vm_compute; reflexivity).
  destruct (adjust_params_getfeatureinfo ascii_upper ascii_space ascii_digit (fun _ => [])
              ex_url_sub None ex_marker_geom None ex_ogc_gfi_params ex_wms_ps [] (py "GET")
              _ _ (py "roads") ltac:(vm_compute; reflexivity) ltac:(vm_compute; reflexivity)
              ltac:(vm_compute; reflexivity) H) as (Hm & _ & _ & Hall).
  rewrite H, Hm, Hall; [reflexivity|]. decide_prop.
Defined.

Lemma adjust_params_legend_witness :
  let r := ex_adjusted (ex_adjust (Some (py "10")) ex_legend_params ex_group_ps) in
  ex_adjust (Some (py "10")) ex_legend_params ex_group_ps = inr (r.1, r.2)
  /\ r.1 !! py "LAYERFONTSIZE" = Some (py "10") /\ r.1 !! py "ITEMFONTSIZE" = Some (py "12").
Proof.
  intros r.
  assert (H : ex_adjust (Some (py "10")) ex_legend_params ex_group_ps = inr (r.1, r.2))
    by (vm_compute; reflexivity).
  destruct (adjust_params_legend ascii_upper ascii_space ascii_digit (fun _ => [])
              ex_url_sub None ex_marker_geom (Some (py "10")) ex_legend_params ex_group_ps []
              (py "GET") _ _ (py "G") ltac:(vm_compute; reflexivity) ltac:(decide_prop)
              ltac:(vm_compute; reflexivity) ltac:(pystr_neq) H) as (_ & _ & _ & Hf).
  split; [exact H|]. split.
  - rewrite (Hf (py "LAYERFONTSIZE")) by decide_prop. vm_compute. reflexivity.
  - rewrite (Hf (py "ITEMFONTSIZE")) by decide_prop. vm_compute. reflexivity.
Defined.

Lemma getprint_without_map_layers_unbound_witness :
  check_request ascii_upper (fun _ => []) ex_getprint_params (WmsPermissions ex_wms_ps)
    = inr (None, ex_getprint_params)
  /\ ex_adjust None ex_getprint_params ex_wms_ps
     = inl (PyError (UnboundLocalError (py "requested_layers"))).
Proof.
  exact (getprint_without_map_layers_unbound ascii_upper ascii_space ascii_digit (fun _ => [])
           ex_url_sub None ex_marker_geom None ex_getprint_params ex_wms_ps [] (py "GET")
           (py "GetPrint") (py "A4") ltac:(vm_compute; reflexivity) ltac:(vm_compute; reflexivity)
           ltac:(vm_compute; reflexivity) ltac:(pystr_neq) ltac:(vm_compute; reflexivity)
           ltac:(vm_compute; reflexivity) ltac:(decide_prop) (or_introl eq_refl)).
Defined.

Lemma check_layers_wms_entry_unchecked_witness :
  check_layers (py "LAYERS") ex_wms_layer_params [] true = None.
Proof.
  exact (check_layers_wms_entry_unchecked (py "LAYERS") ex_wms_layer_params [] true
           (py "topo") (py "secret") ltac:(pystr_neq) ltac:(pystr_neq) ltac:(decide_prop)
           ltac:(decide_prop) ltac:(vm_compute; reflexivity)).
Defined.

Lemma check_request_wfs_witness :
  exists e ls, check_request ascii_upper (fun _ => []) (ex_wfs_params "GetFeature" "roads,ghost")
                 (WfsPermissions ex_wfs_ps)
               = inr (e, <[py "TYPENAME" := join_with chr_comma ls]>
                           (ex_wfs_params "GetFeature" "roads,ghost"))
    /\ ls = [py "roads"].
Proof.
  destruct (proj2 (check_request_wfs ascii_upper (fun _ => []) (ex_wfs_params "GetFeature" "roads,ghost")
              (WfsPermissions ex_wfs_ps) (py "WFS") (py "GetFeature") ltac:(discriminate)
              ltac:(vm_compute; reflexivity) ltac:(pystr_neq) ltac:(vm_compute; reflexivity)
              ltac:(vm_compute; reflexivity) ltac:(pystr_neq))
              ltac:(pystr_neq) (py "roads,ghost") ltac:(vm_compute; reflexivity) ltac:(pystr_neq))
    as (e & ls & Hc & Hls & _).
  exists e, ls. split; [exact Hc|]. rewrite Hls. vm_compute. reflexivity.
Defined.

Lemma check_request_gml_info_format_witness :
  exists e, check_request ascii_upper (fun _ => []) ex_wms_gml_params (WmsPermissions ex_wms_ps)
            = inr (e, ex_wms_gml_params).
Proof.
  destruct (proj2 (check_request_gml_info_format ascii_upper (fun _ => []) ex_wms_gml_params
              (WmsPermissions ex_wms_ps) (py "GetFeatureInfo") [] ltac:(discriminate)
              ltac:(vm_compute; reflexivity) ltac:(vm_compute; reflexivity)
              ltac:(vm_compute; reflexivity) ltac:(pystr_neq) ltac:(vm_compute; reflexivity)
              ltac:(vm_compute; reflexivity) ltac:(decide_prop)) eq_refl) as (e & Hc & _).
  exists e. exact Hc.
Defined.

Lemma wfs_getfeature_gml_attribute_loop_skips_witness :
  length (iter_remove (gml_attr_kept []) (length ex_feature_attributes) 0 ex_feature_attributes)
    = 1%nat
  /\ iter_remove (gml_attr_kept []) (length ex_feature_attributes) 0 ex_feature_attributes !! 0%nat
     = Some (ex_qgs "type" []).
Proof.
  destruct (wfs_getfeature_gml_attribute_loop_skips [] ex_feature_attributes ltac:(decide_prop))
    as [Hl Hj].
  split; [exact Hl|]. rewrite (Hj 0%nat). reflexivity.
Defined.


Lemma wmsh_expand_restricted_group_nested_facade_witness :
  wmsh_expand_restricted_group ex_round_scaled ([py "A"] ++ [py "H"]) 200 ex_wmsh_adjust
  = inl no_expand_restricted_group.
Proof.
  apply (wmsh_expand_restricted_group_nested_facade ex_round_scaled [py "A"] (py "H")
           (ex_wmsh_layer 50) 50 (py "B") [] [] 200 ex_wmsh_adjust).
  - constructor; [|constructor]. exists (ex_wmsh_layer 100), 100%Z.
    split; [vm_compute; reflexivity|]. split; [reflexivity|]. vm_compute. exact I.
  - vm_compute. reflexivity.
  - reflexivity.
  - vm_compute. reflexivity.
Defined.

Lemma wms_getfeatureinfo_adjust_witness :
  exists params',
    wms_process_request ascii_space ascii_digit ex_round_scaled ex_rewrite_url (fun _ => []) None
      (py "GETFEATUREINFO") ex_wmsh_gfi_ext_params ex_wmsh_permissions ex_wmsh_adjust
    = inr (None, params', Some (py "text/html"))
    /\ params' !! py "TRANSPARENT" = Some (py "true").
Proof.
  assert (Hn : ex_wmsh_gfi_ext_params !! py "INFO_FORMAT" = Some (py "text/html"))
    by (vm_compute; reflexivity).
  assert (Hls : split_on chr_comma (default [] (ex_wmsh_gfi_ext_params !! py "LAYERS"))
                = [py "roads"; py "EXTERNAL_WMS:x"]) by (vm_compute; reflexivity).
  assert (Hext : forall l, l ∈ split_on chr_comma (default [] (ex_wmsh_gfi_ext_params !! py "LAYERS")) ->
            startswith (py "EXTERNAL_WMS:") l = true ->
            py "TRANSPARENT" <> drop 13 l ++ py ":URL"
            /\ py "TRANSPARENT" <> drop 13 l ++ py ":LAYERS").
  { intros l Hl Hs. rewrite Hls in Hl.
    apply elem_of_cons in Hl as [->|Hl]; [vm_compute in Hs; discriminate Hs|].
    apply elem_of_cons in Hl as [->|Hl]; [|apply elem_of_nil in Hl; contradiction].
    split; intros Heq; vm_compute in Heq; discriminate Heq. }
  assert (Hnot : py "TRANSPARENT" ∉
                   [py "LAYERS"; py "QUERY_LAYERS"; py "STYLES"; py "INFO_FORMAT"])
    by (apply (bool_decide_unpack _); vm_compute; reflexivity).
  generalize (wms_getfeatureinfo_adjust ascii_space ascii_digit ex_round_scaled ex_rewrite_url
                (fun _ => []) None ex_wmsh_gfi_ext_params ex_wmsh_permissions ex_wmsh_adjust
                (ex_wmsh_expanded (wmsh_expand_group_layers ascii_space ascii_digit
                   ex_round_scaled ex_rewrite_url ex_wmsh_gfi_ext_params (py "LAYERS")
                   ex_wmsh_adjust)).1
                (ex_wmsh_expanded (wmsh_expand_group_layers ascii_space ascii_digit
                   ex_round_scaled ex_rewrite_url ex_wmsh_gfi_ext_params (py "LAYERS")
                   ex_wmsh_adjust)).2
                ex_rewrite_url_keys ltac:(vm_compute; reflexivity) ltac:(vm_compute; reflexivity)).
  cbv zeta. rewrite Hn. intros [_ [params' (Hp & _ & _ & _ & _ & Hk)]].
  exists params'. split; [exact Hp|].
  rewrite (proj2 (Hk _ Hnot) Hext). vm_compute. reflexivity.
Defined.

Lemma wms_getlegendgraphic_layer_only_witness :
  exists params', wms_process_request ascii_space ascii_digit ex_round_scaled ex_rewrite_external
                    (fun _ => []) None (py "GETLEGENDGRAPHIC") ex_wmsh_legend_params
                    ex_wmsh_permissions ex_wmsh_adjust = inr (None, params', None)
    /\ params' !! py "LAYERS" = Some [] /\ params' !! py "LAYER" = ex_wmsh_legend_params !! py "LAYER".
Proof.
  exact (wms_getlegendgraphic_layer_only ascii_space ascii_digit ex_round_scaled ex_rewrite_external
           (fun _ => []) None ex_wmsh_legend_params ex_wmsh_permissions ex_wmsh_adjust
           ltac:(vm_compute; reflexivity) ltac:(vm_compute; reflexivity) ltac:(vm_compute; exact I)).
Defined.

Lemma wms_getprint_without_map_prefix_witness :
  exists params', wms_process_request ascii_space ascii_digit ex_round_scaled ex_rewrite_external
                    (fun _ => []) None (py "GETPRINT") ex_wmsh_print_params
                    ex_wmsh_print_permissions ex_wmsh_adjust = inr (None, params', None)
    /\ params' !! py "LAYERS" = Some [] /\ params' !! py ":LAYERS" = Some [].
Proof.
  exact (wms_getprint_without_map_prefix ascii_space ascii_digit ex_round_scaled ex_rewrite_external
           (fun _ => []) None ex_wmsh_print_params ex_wmsh_print_permissions ex_wmsh_adjust
           eq_refl ltac:(vm_compute; reflexivity) ltac:(vm_compute; reflexivity)
           ltac:(vm_compute; exact I)).
Defined.

Lemma wfs_process_request_permitted_witness :
  let r := ex_wfsh_result (ex_wfsh_process (py "GETFEATURE") (ex_wfsh_params "roads" "application/json")) in
  ex_wfsh_process (py "GETFEATURE") (ex_wfsh_params "roads" "application/json") = inr (None, r.1, r.2)
  /\ Forall (fun typename => typename = [] \/ wfs_clean_layer_name typename ∈ dom (ex_wfsh_layers true))
       (split_on chr_comma (default [] (ex_wfsh_params "roads" "application/json" !! py "TYPENAME"))).
Proof.
  intros r.
  assert (H : ex_wfsh_process (py "GETFEATURE") (ex_wfsh_params "roads" "application/json")
              = inr (None, r.1, r.2)) by (vm_compute; reflexivity).
  split; [exact H|].
  exact (proj1 (proj2 (wfs_process_request_permitted (fun _ => true) ascii_lower (py "GETFEATURE")
                         (ex_wfsh_params "roads" "application/json") (ex_wfsh_layers true) None
                         r.1 r.2 H))).
Defined.

Lemma wfs_process_request_rejects_typename_witness :
  exists t, ex_wfsh_process (py "GETFEATURE") (ex_wfsh_params "roads,ghost" "gml3")
            = inr (Some (not_permitted_typename t), ex_wfsh_params "roads,ghost" "gml3", None)
    /\ t ∈ split_on chr_comma (default [] (ex_wfsh_params "roads,ghost" "gml3" !! py "TYPENAME"))
    /\ t <> [] /\ wfs_clean_layer_name t ∉ dom (ex_wfsh_layers true).
Proof.
  exact (wfs_process_request_rejects_typename (fun _ => true) ascii_lower (py "GETFEATURE")
           (ex_wfsh_params "roads,ghost" "gml3") (ex_wfsh_layers true) None (py "ghost")
           ltac:(decide_prop) ltac:(decide_prop) ltac:(pystr_neq) ltac:(decide_prop)).
Defined.

